(** * yt-browser: session navigation engine

    A shallow embedding of [yt-browser5.py]: the pagination window, the
    action menu and autoplay loop of [playlist_explorer], the preview key
    of [generate_text_preview], the relative upload time, the search
    history, recall and filter of [main_menu] and [prompt], the
    [launcher], and the configuration file of [save_config] and
    [load_config].

    Conventions of the embedding.
    - A Python [int] is a [Z]; a Python [str] is a [string] whose
      characters are code points below 256.
    - A JSON object returned by the metadata tool is a record of the keys
      the program reads. A key that is absent is [None]; so is an id or
      a url that is null, which [dict.get] reads the same way. A title
      that is present is a string, and the value under ["entries"] is a
      list.
    - The entries of a page are objects: line 447 rewrites their titles
      in place, and [video] is one of them (lines 489 and 579) or an
      entry of a mix listing (line 599). [video_slot] records where
      [video] is an entry of the page, so that numbering the page shows
      in [video] as well.
    - The external collaborators (selector, metadata tool, player) are the
      environment: each blocking call of the program is a control point of
      a transition system, and the value the call returns is the input of
      the next transition. The programs are installed and can be
      started, and the files the program uses can be read and written.
    - At the player call the command has been built from the url and the
      title the state records; the answer is the exit code, a keyboard
      interrupt, or the [TypeError] that [subprocess.run] raises when the
      command holds [None]. A download is started without waiting, so
      that [TypeError] is raised in the transition itself.
    - [save_config] and [send_notification] return normally: the first
      catches its own errors, the second sleeps for
      [int(CONFIG["NOTIFICATION_DURATION"])], taken to be a valid duration;
      [CONFIG["PREFERRED_BROWSER"]] is text that [shlex.split] accepts.
      A keyboard interrupt is modelled where the program handles one, in
      the player call. The query [url] never changes and is left out. *)

From Stdlib Require Import ZArith NArith List String Ascii Bool Lia.
From Stdlib Require Import DecimalString DecimalPos.
Import ListNotations.

Local Open Scope string_scope.
Local Open Scope Z_scope.

(* ================================================================== *)
(** * Part I: the model *)
(* ================================================================== *)

(** ** Python built-ins used by the program *)

Module Py.

Definition LF : ascii := "010"%char.
Definition CR : ascii := "013"%char.
Definition SP : ascii := " "%char.

(** [c in "0123456789"], the class [[0-9]] of [re]. *)
Definition isdigit (c : ascii) : bool :=
  let n := N_of_ascii c in ((48 <=? n) && (n <=? 57))%N.

(** [str.isspace] on one character (code points below 256). *)
Definition isspace (c : ascii) : bool :=
  let n := N_of_ascii c in
  (((9 <=? n) && (n <=? 13)) || ((28 <=? n) && (n <=? 32))
   || (n =? 133) || (n =? 160))%N.

Fixpoint chars (s : string) : list ascii :=
  match s with
  | EmptyString => []
  | String c r => c :: chars r
  end.

Fixpoint of_chars (l : list ascii) : string :=
  match l with
  | [] => EmptyString
  | c :: r => String c (of_chars r)
  end.

Fixpoint drop_space (l : list ascii) : list ascii :=
  match l with
  | [] => []
  | c :: r => if isspace c then drop_space r else l
  end.

(** [s.strip()] *)
Definition strip (s : string) : string :=
  of_chars (rev (drop_space (rev (drop_space (chars s))))).

(** [s.replace('\n', ' ')] *)
Fixpoint replace_newlines (s : string) : string :=
  match s with
  | EmptyString => EmptyString
  | String c r =>
      String (if Ascii.eqb c LF then SP else c) (replace_newlines r)
  end.

(** [needle in s] for strings. *)
Fixpoint contains (needle s : string) : bool :=
  String.prefix needle s
  || match s with
     | EmptyString => false
     | String _ r => contains needle r
     end.

(** [s.split(' ')[0]]: the text before the first space. *)
Fixpoint first_field (s : string) : string :=
  match s with
  | EmptyString => EmptyString
  | String c r => if Ascii.eqb c SP then EmptyString else String c (first_field r)
  end.

(** [str(n)] for an integer. *)
Definition str (n : Z) : string := NilZero.string_of_int (Z.to_int n).

Definition digit_value (c : ascii) : Z := Z.of_N (N_of_ascii c) - 48.

(** The digits of a decimal literal; single underscores may separate
    digits. [seen] tells whether the previous character was a digit. *)
Fixpoint int_digits (acc : Z) (seen : bool) (s : string) : option Z :=
  match s with
  | EmptyString => if seen then Some acc else None
  | String c r =>
      if isdigit c then int_digits (10 * acc + digit_value c) true r
      else if Ascii.eqb c "_" && seen then int_digits acc false r
      else None
  end.

(** The white space [int] skips around a literal (code points below
    256): the white space of the C locale and the Unicode spaces above
    127. The separators U+001C to U+001F, which [str.strip] removes, are
    not among them. *)
Definition int_space (c : ascii) : bool :=
  let n := N_of_ascii c in
  (((9 <=? n) && (n <=? 13)) || (n =? 32) || (n =? 133) || (n =? 160))%N.

Fixpoint drop_int_space (l : list ascii) : list ascii :=
  match l with
  | [] => []
  | c :: r => if int_space c then drop_int_space r else l
  end.

(** [int(s)]: [None] stands for [ValueError]. *)
Definition int (s : string) : option Z :=
  match of_chars (rev (drop_int_space (rev (drop_int_space (chars s))))) with
  | String "-" r => option_map Z.opp (int_digits 0 false r)
  | String "+" r => int_digits 0 false r
  | t => int_digits 0 false t
  end.

(** [l[i]] with Python's negative indices: [None] stands for
    [IndexError]. *)
Definition index {A} (l : list A) (i : Z) : option A :=
  let n := Z.of_nat (List.length l) in
  if (0 <=? i) && (i <? n) then nth_error l (Z.to_nat i)
  else if (- n <=? i) && (i <? 0) then nth_error l (Z.to_nat (n + i))
  else None.

(** The position [l[i]] reads, for an index [i] that Python accepts. *)
Definition position {A} (l : list A) (i : Z) : nat :=
  if 0 <=? i then Z.to_nat i else Z.to_nat (Z.of_nat (List.length l) + i).

(** [l[-k:]] for [k > 0]: the last [k] elements. *)
Definition last_n {A} (k : nat) (l : list A) : list A :=
  skipn (List.length l - k) l.

(** [l.index(x)]: [None] stands for [ValueError]. *)
Fixpoint list_index (x : string) (l : list string) : option nat :=
  match l with
  | [] => None
  | y :: r => if String.eqb y x then Some O
              else option_map S (list_index x r)
  end.

(** [re.sub(r'^[0-9]+ ', '', s)]: one leading run of digits followed by
    a space is removed. *)
Fixpoint after_digits (s : string) : string :=
  match s with
  | EmptyString => EmptyString
  | String c r => if isdigit c then after_digits r else s
  end.

Definition strip_ordinal (s : string) : string :=
  match s with
  | String c _ =>
      if isdigit c then
        match after_digits s with
        | String d rest => if Ascii.eqb d SP then rest else s
        | EmptyString => s
        end
      else s
  | EmptyString => s
  end.

(** Length of the match of [^[^0-9]*  ] (non-digits, then two spaces) at
    the start of [s]; the star is greedy, so the longest one. *)
Fixpoint icon_match (s : string) : option nat :=
  match s with
  | EmptyString => None
  | String c r =>
      if isdigit c then None
      else match icon_match r with
           | Some n => Some (S n)
           | None =>
               match r with
               | String d _ =>
                   if Ascii.eqb c SP && Ascii.eqb d SP then Some 2%nat
                   else None
               | EmptyString => None
               end
           end
  end.

Fixpoint drop (n : nat) (s : string) : string :=
  match n, s with
  | S k, String _ r => drop k r
  | _, _ => s
  end.

(** [re.sub(r'^[^0-9]*  ', '', s)] *)
Definition strip_icon (s : string) : string :=
  match icon_match s with
  | Some n => drop n s
  | None => s
  end.

(** [s.lower()]: the letters A-Z and the capital letters of Latin-1. *)
Definition lower_char (c : ascii) : ascii :=
  let n := N_of_ascii c in
  if (((65 <=? n) && (n <=? 90))
      || ((192 <=? n) && (n <=? 222) && negb (n =? 215)))%N
  then ascii_of_N (n + 32) else c.

Fixpoint lower (s : string) : string :=
  match s with
  | EmptyString => EmptyString
  | String c r => String (lower_char c) (lower r)
  end.

(** [str(b).lower()] for a bool. *)
Definition bool_lower (b : bool) : string := if b then "true" else "false".

End Py.

(** ** SHA-256 ([hashlib.sha256]), on bytes held in [N] *)

Module Sha256.
Local Open Scope N_scope.

Definition mask32 : N := 4294967295.
Definition add32 (a b : N) : N := N.land (a + b) mask32.
Definition rotr (n x : N) : N :=
  N.lor (N.shiftr x n) (N.land (N.shiftl x (32 - n)) mask32).
Definition not32 (x : N) : N := N.lxor x mask32.

Definition Ch (x y z : N) : N := N.lxor (N.land x y) (N.land (not32 x) z).
Definition Maj (x y z : N) : N :=
  N.lxor (N.lxor (N.land x y) (N.land x z)) (N.land y z).
Definition Sigma0 (x : N) : N :=
  N.lxor (N.lxor (rotr 2 x) (rotr 13 x)) (rotr 22 x).
Definition Sigma1 (x : N) : N :=
  N.lxor (N.lxor (rotr 6 x) (rotr 11 x)) (rotr 25 x).
Definition sigma0 (x : N) : N :=
  N.lxor (N.lxor (rotr 7 x) (rotr 18 x)) (N.shiftr x 3).
Definition sigma1 (x : N) : N :=
  N.lxor (N.lxor (rotr 17 x) (rotr 19 x)) (N.shiftr x 10).

(** The round constants: the first 32 bits of the fractional parts of the
    cube roots of the first 64 primes. *)
Definition K : list N :=
  [
    1116352408; 1899447441; 3049323471; 3921009573;
    961987163; 1508970993; 2453635748; 2870763221;
    3624381080; 310598401; 607225278; 1426881987;
    1925078388; 2162078206; 2614888103; 3248222580;
    3835390401; 4022224774; 264347078; 604807628;
    770255983; 1249150122; 1555081692; 1996064986;
    2554220882; 2821834349; 2952996808; 3210313671;
    3336571891; 3584528711; 113926993; 338241895;
    666307205; 773529912; 1294757372; 1396182291;
    1695183700; 1986661051; 2177026350; 2456956037;
    2730485921; 2820302411; 3259730800; 3345764771;
    3516065817; 3600352804; 4094571909; 275423344;
    430227734; 506948616; 659060556; 883997877;
    958139571; 1322822218; 1537002063; 1747873779;
    1955562222; 2024104815; 2227730452; 2361852424;
    2428436474; 2756734187; 3204031479; 3329325298 ].


(** Big-endian bytes of a number, [k] of them. *)
Fixpoint be_bytes (k : nat) (x : N) : list N :=
  match k with
  | O => []
  | S j => N.land (N.shiftr x (8 * N.of_nat j)) 255 :: be_bytes j x
  end.

(** The message, one [1] bit, zeros up to 56 modulo 64, then the length
    in bits on 8 bytes. *)
Definition pad (msg : list N) : list N :=
  let len := N.of_nat (List.length msg) in
  let zeros := N.to_nat ((119 - len mod 64) mod 64) in
  msg ++ [128] ++ repeat 0 zeros ++ be_bytes 8 (8 * len).

Fixpoint words (fuel : nat) (bs : list N) : list N :=
  match fuel, bs with
  | S f, b0 :: b1 :: b2 :: b3 :: r =>
      (N.shiftl b0 24 + N.shiftl b1 16 + N.shiftl b2 8 + b3) :: words f r
  | _, _ => []
  end.

(** The message schedule, most recent word first. *)
Fixpoint schedule (n : nat) (w : list N) : list N :=
  match n with
  | O => w
  | S m =>
      let x := add32 (add32 (sigma1 (nth 1 w 0)) (nth 6 w 0))
                     (add32 (sigma0 (nth 14 w 0)) (nth 15 w 0)) in
      schedule m (x :: w)
  end.

Record regs := { ra : N; rb : N; rc : N; rd : N;
                 re : N; rf : N; rg : N; rh : N }.

Definition H0 : regs :=
  {| ra := 1779033703; rb := 3144134277; rc := 1013904242;
     rd := 2773480762; re := 1359893119; rf := 2600822924;
     rg := 528734635; rh := 1541459225 |}.

Definition round (r : regs) (kw : N * N) : regs :=
  let t1 := add32 (add32 (add32 (rh r) (Sigma1 (re r)))
                         (add32 (Ch (re r) (rf r) (rg r)) (fst kw)))
                  (snd kw) in
  let t2 := add32 (Sigma0 (ra r)) (Maj (ra r) (rb r) (rc r)) in
  {| ra := add32 t1 t2; rb := ra r; rc := rb r; rd := rc r;
     re := add32 (rd r) t1; rf := re r; rg := rf r; rh := rg r |}.

Definition compress (h : regs) (block : list N) : regs :=
  let w := rev (schedule 48 (rev block)) in
  let r := fold_left round (combine K w) h in
  {| ra := add32 (ra h) (ra r); rb := add32 (rb h) (rb r);
     rc := add32 (rc h) (rc r); rd := add32 (rd h) (rd r);
     re := add32 (re h) (re r); rf := add32 (rf h) (rf r);
     rg := add32 (rg h) (rg r); rh := add32 (rh h) (rh r) |}.

Fixpoint blocks (fuel : nat) (h : regs) (ws : list N) : regs :=
  match fuel, ws with
  | S f, _ :: _ => blocks f (compress h (firstn 16 ws)) (skipn 16 ws)
  | _, _ => h
  end.

Definition hex_digit (d : N) : ascii :=
  if d <? 10 then ascii_of_N (48 + d) else ascii_of_N (87 + d).

Fixpoint hex (k : nat) (x : N) : string :=
  match k with
  | O => EmptyString
  | S j => String (hex_digit (N.land (N.shiftr x (4 * N.of_nat j)) 15))
                  (hex j x)
  end.

(** [hashlib.sha256(bytes).hexdigest()] *)
Definition hexdigest (msg : list N) : string :=
  let bs := pad msg in
  let ws := words (List.length bs) bs in
  let h := blocks (List.length ws) H0 ws in
  (hex 8 (ra h) ++ hex 8 (rb h) ++ hex 8 (rc h) ++ hex 8 (rd h) ++
   hex 8 (re h) ++ hex 8 (rf h) ++ hex 8 (rg h) ++ hex 8 (rh h))%string.

(** [s.encode('utf-8')] for code points below 256. *)
Fixpoint utf8 (s : string) : list N :=
  match s with
  | EmptyString => []
  | String c r =>
      let n := N_of_ascii c in
      if n <? 128 then n :: utf8 r
      else N.lor 192 (N.shiftr n 6) :: N.lor 128 (N.land n 63) :: utf8 r
  end.

End Sha256.

(** [generate_sha256(text)], lines 89-92; [None] is hashed as the empty
    string. *)
Definition generate_sha256 (text : option string) : string :=
  let text := match text with None => "" | Some t => t end in
  Sha256.hexdigest (Sha256.utf8 text).

(** ** Preview generation ([generate_text_preview], lines 330-399) *)

Module Preview.

(** Line 336: [re.sub(r'^[0-9]+ ', '', raw_title).replace('\n', ' ')]. *)
Definition clean_title (raw_title : string) : string :=
  Py.replace_newlines (Py.strip_ordinal raw_title).

(** Line 337: the name of the text artifact of a title. *)
Definition filename_hash (raw_title : string) : string :=
  generate_sha256 (Some (clean_title raw_title)).

(** Lines 370-376: the relative upload time for a difference in
    seconds. *)
Definition relative_time (diff : Z) : string :=
  if diff <? 60 then "just now"
  else if diff <? 3600 then Py.str (diff / 60) ++ " minutes ago"
  else if diff <? 86400 then Py.str (diff / 3600) ++ " hours ago"
  else if diff <? 604800 then Py.str (diff / 86400) ++ " days ago"
  else if diff <? 2635200 then Py.str (diff / 604800) ++ " weeks ago"
  else if diff <? 31622400 then Py.str (diff / 2635200) ++ " months ago"
  else Py.str (diff / 31622400) ++ " years ago".

(** Lines 365-377: [ts] is the entry's [timestamp]; absent or zero it
    is falsy and the string stays empty. *)
Definition timestamp_str (CURRENT_TIME : Z) (ts : option Z) : string :=
  match ts with
  | None => ""
  | Some t => if t =? 0 then "" else relative_time (CURRENT_TIME - t)
  end.

End Preview.

(** ** Search history ([main_menu], lines 673-681; [prompt], lines 244-249) *)

Module History.

Definition is_break (c : ascii) : bool :=
  Ascii.eqb c Py.LF || Ascii.eqb c Py.CR.

(** The pieces of a text between line breaks. A file opened in text
    mode ends a line at a line feed or a carriage return. *)
Fixpoint split_lines (s : string) : list string :=
  match s with
  | EmptyString => [EmptyString]
  | String c r =>
      if is_break c then EmptyString :: split_lines r
      else match split_lines r with
           | l :: ls => String c l :: ls
           | [] => [String c EmptyString]
           end
  end.

Definition nonempty (s : string) : bool := negb (String.eqb s "").

(** [[l.strip() for l in f if l.strip()]] *)
Definition stored_lines (content : string) : list string :=
  filter nonempty (map Py.strip (split_lines content)).

(** ["\n".join(lines) + "\n"] *)
Definition write_lines (lines : list string) : string :=
  String.concat (String Py.LF "") lines ++ String Py.LF "".

(** Lines 675-680: the list the update writes. [file] is the content
    of the history file, [None] when it does not exist or cannot be
    read. *)
Definition updated_lines (file : option string) (search_term : string)
  : list string :=
  let lines :=
    match file with
    | None => []
    | Some content =>
        filter (fun l => negb (String.eqb l search_term))
               (stored_lines content)
    end in
  lines ++ [search_term].

(** Lines 673-681: the history file after a search. *)
Definition update_history (SEARCH_HISTORY : string) (file : option string)
           (search_term : string) : option string :=
  if String.eqb SEARCH_HISTORY "true"
  then Some (write_lines (updated_lines file search_term))
  else file.

(** Lines 246-249 of [prompt]: the entries shown, most recent first. *)
Definition prompt_history (content : string) : list string :=
  rev (Py.last_n 10 (stored_lines content)).

(** The history a file holds, oldest first. *)
Definition entries (file : option string) : list string :=
  match file with
  | None => []
  | Some content => stored_lines content
  end.

End History.

(** ** Configuration and the pagination window *)

(** The keys of [CONFIG] that [playlist_explorer] reads.
    [NO_OF_SEARCH_RESULTS] holds [int(CONFIG["NO_OF_SEARCH_RESULTS"])]:
    [load_config] evaluates it (line 225) before any search runs, so it
    is an integer whenever the explorer does. *)
Record Config := {
  NO_OF_SEARCH_RESULTS : Z;
  AUDIO_ONLY_MODE : string;
  AUTOPLAY_MODE : string;
  ENABLE_PREVIEW : string;
  PREFERRED_SELECTOR : string
}.

(** The module-level runtime state (lines 60-64). *)
Record Globals := {
  PLAYLIST_START : Z;
  PLAYLIST_END : Z;
  CONFIG : Config
}.

Definition page_size (g : Globals) : Z := NO_OF_SEARCH_RESULTS (CONFIG g).

Definition set_window (g : Globals) (s e : Z) : Globals :=
  {| PLAYLIST_START := s; PLAYLIST_END := e; CONFIG := CONFIG g |}.

Definition set_config (g : Globals) (c : Config) : Globals :=
  {| PLAYLIST_START := PLAYLIST_START g; PLAYLIST_END := PLAYLIST_END g;
     CONFIG := c |}.

(** Lines 63-64 and 225: the window once the configuration is loaded. *)
Definition initial_globals (c : Config) : Globals :=
  {| PLAYLIST_START := 1; PLAYLIST_END := NO_OF_SEARCH_RESULTS c;
     CONFIG := c |}.

(** Lines 468-469 (and 570-571). *)
Definition page_next (g : Globals) : Globals :=
  set_window g (PLAYLIST_START g + page_size g) (PLAYLIST_END g + page_size g).

(** Lines 474-478. *)
Definition page_previous (g : Globals) : Globals :=
  let start := PLAYLIST_START g - page_size g in
  let start := if start <=? 0 then 1 else start in
  let end_ := PLAYLIST_END g - page_size g in
  let min_end := page_size g in
  let end_ := if end_ <? min_end then min_end else end_ in
  set_window g start end_.

(** Lines 631-632. *)
Definition page_reset (g : Globals) : Globals :=
  set_window g 1 (page_size g).

Inductive Nav := Next | Previous.

Definition navigate (g : Globals) (n : Nav) : Globals :=
  match n with
  | Next => page_next g
  | Previous => page_previous g
  end.

Definition navigate_all (navs : list Nav) (g : Globals) : Globals :=
  fold_left navigate navs g.

(** ** Preferences (lines 515-527) *)

(** Line 431. *)
Definition load_audio_only (c : Config) : bool :=
  String.eqb (Py.lower (AUDIO_ONLY_MODE c)) "true".

Definition modes : list string := ["off"; "playlist"; "related"].

(** Lines 522-524: [None] stands for the [ValueError] of
    [modes.index]. *)
Definition toggle_autoplay (autoplay_mode : string) : option string :=
  match Py.list_index autoplay_mode modes with
  | None => None
  | Some curr_idx =>
      nth_error modes (Nat.modulo (curr_idx + 1) (List.length modes))
  end.

(** Line 516. *)
Definition toggle_audio_only (audio_only_mode : bool) : bool :=
  negb audio_only_mode.

(** ** Entries *)

(** An entry of a listing, with the keys the explorer reads. An entry
    that is present is a non-empty object, hence truthy. *)
Record VideoEntry := {
  entry_id : option string;
  title : option string;
  url : option string
}.

Definition set_title (e : VideoEntry) (t : string) : VideoEntry :=
  {| entry_id := entry_id e; title := Some t; url := url e |}.

(** [d.get(key, default)] *)
Definition get_or (o : option string) (default : string) : string :=
  match o with Some v => v | None => default end.

Definition opt_eqb (a b : option string) : bool :=
  match a, b with
  | Some x, Some y => String.eqb x y
  | None, None => true
  | _, _ => false
  end.

(** A page: the list under ["entries"], with [None] for a hole. *)
Definition Page := list (option VideoEntry).

(** Lines 442-448: each present entry gets its ordinal in front of its
    title; [i] is the index of the head of [es], [n] is [len(entries)]. *)
Fixpoint annotate_from (n : nat) (i : Z) (es : Page) : Page :=
  match es with
  | [] => []
  | None :: r => None :: annotate_from n (i + 1) r
  | Some entry :: r =>
      let num := Py.str (i + 1) in
      let num := if (n <? 10)%nat && (String.length num <? 2)%nat
                 then "0" ++ num else num in
      let clean_t := Py.replace_newlines (get_or (title entry) "") in
      Some (set_title entry (num ++ " " ++ clean_t))
        :: annotate_from n (i + 1) r
  end.

Definition annotate (entries : Page) : Page :=
  annotate_from (List.length entries) 0 entries.

(** Lines 448 and 451: the titles offered to the selector. *)
Fixpoint titles_of (es : Page) : list string :=
  match es with
  | [] => []
  | None :: r => titles_of r
  | Some entry :: r =>
      Py.replace_newlines (get_or (title entry) "") :: titles_of r
  end.

(** ** Related autoplay (lines 596-609) *)

Inductive Related :=
| RelatedFound (entry : VideoEntry)
| RelatedNone          (* the loop ends with [found_next] false *)
| RelatedError.        (* [entry.get] on a hole raises, caught at 607 *)

(** Lines 597-603. *)
Fixpoint select_related (vid_id : option string) (mix : Page) : Related :=
  match mix with
  | [] => RelatedNone
  | None :: _ => RelatedError
  | Some entry :: r =>
      if negb (opt_eqb (entry_id entry) vid_id) then RelatedFound entry
      else select_related vid_id r
  end.

(** Line 448: the titles collected while annotating. *)
Fixpoint annotated_titles (es : Page) : list string :=
  match es with
  | [] => []
  | None :: r => annotated_titles r
  | Some entry :: r => get_or (title entry) "" :: annotated_titles r
  end.

(** ** [playlist_explorer] (lines 427-632) as a transition system *)

Inductive PyError :=
  ValueError | TypeError | KeyError | IndexError | AttributeError
| FileNotFoundError.

(** What the program does to the outside world. *)
Inductive Output :=
| OutLauncher (options : list string)          (* launcher(...) *)
| OutPreview (page : Page)                     (* download_preview_images *)
| OutFetch (start end_ : Z)                    (* run_yt_dlp(url) *)
| OutSave (c : Config)                         (* save_config() *)
| OutPrint (msg : string)                      (* print(...) *)
| OutPlay (vid_url : option string) (audio_only : bool)
| OutMix (vid_id : option string)              (* the mix request *)
| OutDownload (vid_url : option string) (audio_only : bool)
| OutNotify (msg : string).                    (* send_notification *)

(** What the outside world answers. *)
Inductive PlayerResult :=
| PlayerExit (returncode : Z)
| PlayerInterrupt                              (* KeyboardInterrupt *)
| PlayerTypeError.            (* subprocess.run raises: an argument of
                                 the command is None *)

Inductive MixResult :=
| MixInvalid                  (* json.loads raises *)
| MixEmpty                    (* falsy, or no "entries" key *)
| MixEntries (mix : Page).

Inductive Input :=
| InSelect (selection : string)                (* launcher returns *)
| InFetch (search_results : option Page)       (* run_yt_dlp returns;
                                                  [None]: nothing, or no
                                                  "entries" key *)
| InPlayer (r : PlayerResult)                  (* the player returns *)
| InMix (r : MixResult).                       (* the mix request returns *)

(** Where the program is blocked, or how it ended. *)
Inductive Control :=
| AtList                      (* line 459/462: launcher, video list *)
| AtFetch                     (* line 470/479: run_yt_dlp *)
| AtAction                    (* line 509: launcher, action menu *)
| AtPlayer                    (* line 551: subprocess.run(player_cmd) *)
| AtAutoFetch                 (* line 572: run_yt_dlp *)
| AtMix                       (* line 592: subprocess.run(mix_cmd) *)
| Returned                    (* the function returned to its caller *)
| Exited (code : Z)           (* byebye(): sys.exit *)
| Raised (e : PyError).       (* an exception left the function *)

Record Locals := {
  search_results : option Page;
  entries : Page;
  audio_only_mode : bool;
  autoplay_mode : string;
  download_images : bool;
  current_index : Z;
  video : VideoEntry;
  video_slot : option nat;    (* where [video] is an entry of the page:
                                 the object is [entries[k]] itself *)
  vid_url : option string;
  clean_title : option string
}.

Record State := {
  control : Control;
  globals : Globals;
  locals : Locals;
  output : list Output        (* most recent first *)
}.

Definition goto (c : Control) (st : State) : State :=
  {| control := c; globals := globals st; locals := locals st;
     output := output st |}.

Definition emit (o : Output) (st : State) : State :=
  {| control := control st; globals := globals st; locals := locals st;
     output := o :: output st |}.

Definition with_globals (g : Globals) (st : State) : State :=
  {| control := control st; globals := g; locals := locals st;
     output := output st |}.

Definition with_locals (l : Locals) (st : State) : State :=
  {| control := control st; globals := globals st; locals := l;
     output := output st |}.

Definition set_page (l : Locals) (sr : option Page) (es : Page)
           (di : bool) : Locals :=
  {| search_results := sr; entries := es;
     audio_only_mode := audio_only_mode l; autoplay_mode := autoplay_mode l;
     download_images := di; current_index := current_index l;
     video := video l; video_slot := video_slot l;
     vid_url := vid_url l; clean_title := clean_title l |}.

Definition set_index (l : Locals) (i : Z) : Locals :=
  {| search_results := search_results l; entries := entries l;
     audio_only_mode := audio_only_mode l; autoplay_mode := autoplay_mode l;
     download_images := download_images l; current_index := i;
     video := video l; video_slot := video_slot l;
     vid_url := vid_url l; clean_title := clean_title l |}.

Definition set_video (l : Locals) (v : VideoEntry) (u t : option string)
  : Locals :=
  {| search_results := search_results l; entries := entries l;
     audio_only_mode := audio_only_mode l; autoplay_mode := autoplay_mode l;
     download_images := download_images l; current_index := current_index l;
     video := v; video_slot := video_slot l; vid_url := u; clean_title := t |}.

Definition set_slot (l : Locals) (k : option nat) : Locals :=
  {| search_results := search_results l; entries := entries l;
     audio_only_mode := audio_only_mode l; autoplay_mode := autoplay_mode l;
     download_images := download_images l; current_index := current_index l;
     video := video l; video_slot := k;
     vid_url := vid_url l; clean_title := clean_title l |}.

Definition set_prefs (l : Locals) (a : bool) (m : string) : Locals :=
  {| search_results := search_results l; entries := entries l;
     audio_only_mode := a; autoplay_mode := m;
     download_images := download_images l; current_index := current_index l;
     video := video l; video_slot := video_slot l;
     vid_url := vid_url l; clean_title := clean_title l |}.

Definition set_audio_config (c : Config) (v : string) : Config :=
  {| NO_OF_SEARCH_RESULTS := NO_OF_SEARCH_RESULTS c;
     AUDIO_ONLY_MODE := v; AUTOPLAY_MODE := AUTOPLAY_MODE c;
     ENABLE_PREVIEW := ENABLE_PREVIEW c;
     PREFERRED_SELECTOR := PREFERRED_SELECTOR c |}.

Definition set_autoplay_config (c : Config) (v : string) : Config :=
  {| NO_OF_SEARCH_RESULTS := NO_OF_SEARCH_RESULTS c;
     AUDIO_ONLY_MODE := AUDIO_ONLY_MODE c; AUTOPLAY_MODE := v;
     ENABLE_PREVIEW := ENABLE_PREVIEW c;
     PREFERRED_SELECTOR := PREFERRED_SELECTOR c |}.

(** Lines 631-632, then the return. *)
Definition finish (st : State) : State :=
  goto Returned (with_globals (page_reset (globals st)) st).

(** Lines 442-447 rewrite the entries in place. When [video] is the
    entry at position [k] of the page it is that same object, and its
    title is numbered with the others. *)
Definition renumbered (n : nat) (l : Locals) : VideoEntry :=
  match video_slot l with
  | Some k =>
      match annotate_from n (Z.of_nat k) [Some (video l)] with
      | [Some v] => v
      | _ => video l
      end
  | None => video l
  end.

(** Lines 458 and 461: the lines given to the selector. With previews
    enabled the titles are joined first and the four commands appended
    to that text, so that without any title the text begins with an
    empty line. *)
Definition options (enable_preview : bool) (titles : list string)
  : list string :=
  let titles := if enable_preview
                then match titles with [] => [""] | _ :: _ => titles end
                else titles in
  (titles ++ ["Next"; "Previous"; "Back"; "Exit"])%list.

(** Lines 437-462: the head of the list loop, up to the selector. *)
Definition loop_top (st : State) : State :=
  let l := locals st in
  match search_results l with
  | None => finish st
  | Some page =>
      let fresh := negb (download_images l) in
      let v := if fresh then renumbered (List.length page) l else video l in
      let page := if fresh then annotate page else page in
      let titles := if fresh then annotated_titles page else titles_of page in
      let enable_preview :=
        String.eqb (ENABLE_PREVIEW (CONFIG (globals st))) "true" in
      let preview :=
        enable_preview
        && String.eqb (PREFERRED_SELECTOR (CONFIG (globals st))) "fzf"
        && fresh in
      let l := set_page l (Some page) page
                        (if preview then true else download_images l) in
      let st := with_locals (set_video l v (vid_url l) (clean_title l)) st in
      let st := if preview then emit (OutPreview page) st else st in
      goto AtList (emit (OutLauncher (options enable_preview titles)) st)
  end.

(** Lines 495-509: the action menu is shown. *)
Definition media_actions (l : Locals) : list string :=
  let audio_state := if audio_only_mode l then "[x]" else "[ ]" in
  let autoplay_label :=
    if String.eqb (autoplay_mode l) "playlist" then "[Playlist]"
    else if String.eqb (autoplay_mode l) "related" then "[Related]"
    else "[Off]" in
  [ "Watch"; "Toggle Audio Only " ++ audio_state;
    "Toggle Autoplay " ++ autoplay_label; "Download"; "Back"; "Exit" ].

Definition action_menu (st : State) : State :=
  goto AtAction (emit (OutLauncher (media_actions (locals st))) st).

(** Lines 534-551: one turn of the autoplay loop, up to the player. *)
Definition play (st : State) : State :=
  let l := locals st in
  let shown := match clean_title l with Some t => t | None => "None" end in
  goto AtPlayer
       (emit (OutPlay (vid_url l) (audio_only_mode l))
             (emit (OutPrint ("Now playing: " ++ shown)) st)).

(** Lines 578-582: the entry at [current_index] becomes the video. *)
Definition playlist_entry (st : State) : State :=
  let l := locals st in
  if current_index l <? Z.of_nat (List.length (entries l)) then
    match Py.index (entries l) (current_index l) with
    | None => goto (Raised IndexError) st
    | Some None => goto (Raised AttributeError) st
    | Some (Some v) =>
        let l := set_slot l (Some (Py.position (entries l) (current_index l))) in
        play (with_locals
                (set_video l v (url v)
                   (Some (Py.strip_ordinal (get_or (title v) "Unknown"))))
                st)
    end
  else loop_top st.

(** Lines 464-491: a choice in the video list. *)
Definition on_list (st : State) (raw : string) : State :=
  let g := globals st in
  let l := locals st in
  let selection := Py.strip_icon raw in
  if String.eqb selection "Next" then
    let g := page_next g in
    goto AtFetch
         (emit (OutFetch (PLAYLIST_START g) (PLAYLIST_END g))
               (with_globals g st))
  else if String.eqb selection "Previous" then
    let g := page_previous g in
    goto AtFetch
         (emit (OutFetch (PLAYLIST_START g) (PLAYLIST_END g))
               (with_globals g st))
  else if String.eqb selection "Exit" then goto (Exited 0) st
  else if String.eqb selection "Back" || String.eqb selection "" then
    finish st
  else
    match Py.int (Py.first_field selection) with
    | None => loop_top st
    | Some sel_id =>
        let l := set_index l (sel_id - 1) in
        let st := with_locals l st in
        match Py.index (entries l) (current_index l) with
        | None => loop_top st
        | Some None => goto (Raised TypeError) st
        | Some (Some v) =>
            match title v with
            | None => goto (Raised KeyError) st
            | Some t =>
                let l :=
                  set_slot l (Some (Py.position (entries l) (current_index l))) in
                action_menu
                  (with_locals
                     (set_video l v (vid_url l) (Some (Py.strip_ordinal t)))
                     st)
            end
        end
    end.

(** Lines 470-472 and 479-481: the page asked for by Next or Previous. *)
Definition on_fetch (st : State) (r : option Page) : State :=
  let l := locals st in
  loop_top (with_locals (set_slot (set_page l r (entries l) false) None) st).

(** Lines 512-531 and 614-629: a choice in the action menu. *)
Definition on_action (st : State) (action_sel : string) : State :=
  let g := globals st in
  let l := locals st in
  if String.eqb action_sel "Exit" then goto (Exited 0) st
  else if String.eqb action_sel "Back" || String.eqb action_sel "" then
    loop_top st
  else if Py.contains "Toggle Audio Only" action_sel then
    let a := toggle_audio_only (audio_only_mode l) in
    let c := set_audio_config (CONFIG g) (Py.bool_lower a) in
    action_menu
      (emit (OutSave c)
            (with_globals (set_config g c)
               (with_locals (set_prefs l a (autoplay_mode l)) st)))
  else if Py.contains "Toggle Autoplay" action_sel then
    match toggle_autoplay (autoplay_mode l) with
    | None => goto (Raised ValueError) st
    | Some m =>
        let c := set_autoplay_config (CONFIG g) m in
        action_menu
          (emit (OutSave c)
                (with_globals (set_config g c)
                   (with_locals (set_prefs l (audio_only_mode l) m) st)))
    end
  else
    let l := set_video l (video l) (url (video l)) (clean_title l) in
    let st := with_locals l st in
    if String.eqb action_sel "Watch" then play st
    else if String.eqb action_sel "Download" then
      match vid_url l with
      | None => goto (Raised TypeError) st     (* line 628: Popen raises *)
      | Some _ =>
          let shown :=
            match clean_title l with Some t => t | None => "None" end in
          action_menu
            (emit (OutNotify ("Started downloading " ++ shown))
                  (emit (OutDownload (vid_url l) (audio_only_mode l)) st))
      end
    else action_menu st.

(** Lines 552-592: the player has returned. *)
Definition on_player (st : State) (r : PlayerResult) : State :=
  let g := globals st in
  let l := locals st in
  match r with
  | PlayerTypeError => goto (Raised TypeError) st
  | PlayerInterrupt =>
      loop_top (emit (OutPrint (String Py.LF "Stopping playback...")) st)
  | PlayerExit returncode =>
      if negb (returncode =? 0) then
        loop_top
          (emit (OutPrint "Player exited with error. Stopping autoplay.") st)
      else if String.eqb (autoplay_mode l) "off" then loop_top st
      else if String.eqb (autoplay_mode l) "playlist" then
        let l := set_index l (current_index l + 1) in
        let st := with_locals l st in
        if current_index l >=? Z.of_nat (List.length (entries l)) then
          let g := page_next g in
          goto AtAutoFetch
               (emit (OutFetch (PLAYLIST_START g) (PLAYLIST_END g))
                     (with_globals g
                        (emit (OutPrint
                                 "End of current list. Fetching next page...")
                              st)))
        else playlist_entry st
      else if String.eqb (autoplay_mode l) "related" then
        goto AtMix
             (emit (OutMix (entry_id (video l)))
                   (emit (OutPrint "Fetching related video...") st))
      else play st
  end.

(** Lines 572-582: the page asked for by playlist autoplay. *)
Definition on_auto_fetch (st : State) (r : option Page) : State :=
  let l := locals st in
  match r with
  | None => loop_top (with_locals (set_page l None (entries l)
                                            (download_images l)) st)
  | Some page =>
      playlist_entry
        (with_locals
           (set_index (set_slot (set_page l r page false) None) 0) st)
  end.

(** Lines 593-609: the mix listing has returned. *)
Definition on_mix (st : State) (r : MixResult) : State :=
  let l := locals st in
  let failed := emit (OutPrint "Failed to fetch related videos.") st in
  let nothing := emit (OutPrint "No related videos found.") st in
  match r with
  | MixInvalid => loop_top failed
  | MixEmpty => loop_top nothing
  | MixEntries mix =>
      match select_related (entry_id (video l)) mix with
      | RelatedFound entry =>
          play (with_locals
                  (set_video (set_slot l None) entry (url entry) (title entry))
                  st)
      | RelatedNone => loop_top nothing
      | RelatedError => loop_top failed
      end
  end.

(** One transition: the blocked call returns [i]. [None] when [i] is not
    an answer to the call the program is blocked on, or the program has
    ended. *)
Definition step (st : State) (i : Input) : option State :=
  match control st, i with
  | AtList, InSelect s => Some (on_list st s)
  | AtFetch, InFetch r => Some (on_fetch st r)
  | AtAction, InSelect s => Some (on_action st s)
  | AtPlayer, InPlayer r => Some (on_player st r)
  | AtAutoFetch, InFetch r => Some (on_auto_fetch st r)
  | AtMix, InMix r => Some (on_mix st r)
  | _, _ => None
  end.

Fixpoint run (st : State) (inputs : list Input) : option State :=
  match inputs with
  | [] => Some st
  | i :: rest =>
      match step st i with
      | Some st' => run st' rest
      | None => None
      end
  end.

Definition unbound_entry : VideoEntry :=
  {| entry_id := None; title := None; url := None |}.

(** Lines 428-436: [playlist_explorer(search_results, url)] is entered
    and runs to its first blocking call. The locals not assigned yet
    hold placeholders; the program assigns each before it reads it. *)
Definition playlist_explorer (g : Globals) (results : option Page) : State :=
  loop_top
    {| control := AtList;
       globals := g;
       locals := {| search_results := results;
                    entries := [];
                    audio_only_mode := load_audio_only (CONFIG g);
                    autoplay_mode := AUTOPLAY_MODE (CONFIG g);
                    download_images := false;
                    current_index := 0;
                    video := unbound_entry;
                    video_slot := None;
                    vid_url := None;
                    clean_title := None |};
       output := [] |}.

(** The states of the autoplay loop (lines 533-609). *)
Definition in_autoplay (c : Control) : bool :=
  match c with
  | AtPlayer | AtAutoFetch | AtMix => true
  | _ => false
  end.

(** ** Vocabulary of the properties *)

(** Lines 43-58: the defaults of the keys modelled. *)
Definition DEFAULT_CONFIG : Config :=
  {| NO_OF_SEARCH_RESULTS := 30;
     AUDIO_ONLY_MODE := "false";
     AUTOPLAY_MODE := "off";
     ENABLE_PREVIEW := "false";
     PREFERRED_SELECTOR := "fzf" |}.

(** The window [start, end] is the page of [P] positions from [start]. *)
Definition window_ok (P : Z) (g : Globals) : Prop :=
  1 <= PLAYLIST_START g /\ PLAYLIST_END g - PLAYLIST_START g = P - 1.

(** The two toggle lines of the action menu, as the menu shows them. *)
Definition toggle_audio_label (l : Locals) : string :=
  nth 1 (media_actions l) "".

Definition toggle_autoplay_label (l : Locals) : string :=
  nth 2 (media_actions l) "".

(** Outputs that start another playback or ask for another listing. *)
Definition advances (o : Output) : bool :=
  match o with
  | OutPlay _ _ | OutFetch _ _ | OutMix _ => true
  | _ => false
  end.

(** A run of digits, as the ordinal put in front of a title. *)
Definition is_ordinal (p : string) : Prop :=
  p <> "" /\ forallb Py.isdigit (Py.chars p) = true.

(** Two titles that are the same text after their ordinals. *)
Definition differ_by_ordinal (t1 t2 : string) : Prop :=
  exists p1 p2 body,
    is_ordinal p1 /\ is_ordinal p2 /\
    t1 = p1 ++ " " ++ body /\ t2 = p2 ++ " " ++ body.

(** Two texts equal character by character, but for positions where one
    has a newline and the other a space. *)
Inductive differ_by_newlines : string -> string -> Prop :=
| dn_nil : differ_by_newlines "" ""
| dn_same c s1 s2 :
    differ_by_newlines s1 s2 ->
    differ_by_newlines (String c s1) (String c s2)
| dn_nl_sp s1 s2 :
    differ_by_newlines s1 s2 ->
    differ_by_newlines (String Py.LF s1) (String Py.SP s2)
| dn_sp_nl s1 s2 :
    differ_by_newlines s1 s2 ->
    differ_by_newlines (String Py.SP s1) (String Py.LF s2).

Definition starts_with_digit (s : string) : bool :=
  match s with
  | String c _ => Py.isdigit c
  | EmptyString => false
  end.

(** A title that begins with an ordinal: digits, then a space, which is
    what line 336 removes. *)
Definition numbered (t : string) : Prop :=
  exists p body, is_ordinal p /\ t = p ++ " " ++ body.

(** The same, computed: [re.match(r'^[0-9]+ ', t)] succeeds. *)
Definition has_ordinal (t : string) : bool :=
  starts_with_digit t
  && match Py.after_digits t with
     | String d _ => Ascii.eqb d Py.SP
     | EmptyString => false
     end.

(** Right after the same leading digits, [t1] has a newline where [t2]
    has a space. *)
Definition newline_after_digits (t1 t2 : string) : Prop :=
  exists p r1 r2,
    is_ordinal p /\
    t1 = p ++ String Py.LF r1 /\ t2 = p ++ String Py.SP r2.

(** A text without a line break. *)
Definition one_line (s : string) : Prop :=
  forallb (fun c => negb (History.is_break c)) (Py.chars s) = true.

(** A search term as [prompt] returns it: stripped, not empty, on one
    line. *)
Definition clean_term (s : string) : Prop :=
  Py.strip s = s /\ s <> "" /\ one_line s.

(** The selector returns the line [label] of the action menu shown. *)
Definition press (label : Locals -> string) (st : State) : option State :=
  step st (InSelect (label (locals st))).

Fixpoint press_times (label : Locals -> string) (n : nat) (st : State)
  : option State :=
  match n with
  | O => Some st
  | S k => match press label st with
           | Some st' => press_times label k st'
           | None => None
           end
  end.

(** An entry of a mix listing that carries the id [vid_id]. *)
Definition is_current (vid_id : option string) (x : option VideoEntry)
  : Prop :=
  exists e, x = Some e /\ entry_id e = vid_id.

(** [e] is the first entry of [mix] whose id differs from [vid_id]. *)
Definition first_other (vid_id : option string) (mix : Page)
           (e : VideoEntry) : Prop :=
  exists before after,
    mix = (before ++ Some e :: after)%list /\
    Forall (is_current vid_id) before /\
    entry_id e <> vid_id.

(** A configuration file with a page size below zero: line 225 converts
    it like any other integer. *)
Definition negative_config : Config :=
  {| NO_OF_SEARCH_RESULTS := -5;
     AUDIO_ONLY_MODE := "false";
     AUTOPLAY_MODE := "off";
     ENABLE_PREVIEW := "false";
     PREFERRED_SELECTOR := "fzf" |}.

(** A page of two entries, for the examples. *)
Definition song_a : VideoEntry :=
  {| entry_id := Some "idA"; title := Some "Song A";
     url := Some "https://www.youtube.com/watch?v=idA" |}.

Definition song_b : VideoEntry :=
  {| entry_id := Some "idB"; title := Some "Song B";
     url := Some "https://www.youtube.com/watch?v=idB" |}.

Definition song_page : Page := [Some song_a; Some song_b].

(** The action menu of the first entry of [song_page], with the default
    preferences. *)
Definition menu_state : State :=
  on_list (playlist_explorer (initial_globals DEFAULT_CONFIG)
                             (Some song_page))
          "01 Song A".

(** Two pages further: Next, an empty page, Next, an empty page. *)
Definition browsing_inputs : list Input :=
  [InSelect "Next"; InFetch (Some []); InSelect "Next"; InFetch (Some [])].

Definition browsing_state : State :=
  on_fetch
    (on_list
       (on_fetch
          (on_list (playlist_explorer (initial_globals DEFAULT_CONFIG)
                                      (Some song_page))
                   "Next")
          (Some []))
       "Next")
    (Some []).

(** A preference file whose autoplay mode is spelled with a capital. *)
Definition capital_off_config : Config :=
  set_autoplay_config DEFAULT_CONFIG "Off".

(** The action menu of the first entry, with that preference file. *)
Definition capital_menu_state : State :=
  on_list (playlist_explorer (initial_globals capital_off_config)
                             (Some song_page))
          "01 Song A".

(** The first entry of [song_page] is being played, in playlist mode. *)
Definition playing_state : State :=
  on_action
    (on_list (playlist_explorer
                (initial_globals (set_autoplay_config DEFAULT_CONFIG "playlist"))
                (Some song_page))
             "01 Song A")
    "Watch".

(** The first entry of [song_page] has been played in related mode and
    the mix listing is awaited. *)
Definition mix_state : State :=
  on_player
    (on_action
       (on_list (playlist_explorer
                   (initial_globals (set_autoplay_config DEFAULT_CONFIG "related"))
                   (Some song_page))
                "01 Song A")
       "Watch")
    (PlayerExit 0).

(** A sequence of searches, each updating the history file. *)
Definition search_all (terms : list string) (file : option string)
  : option string :=
  fold_left (History.update_history "true") terms file.

(** No page size is ever written: a run keeps the configured one, and a
    state that has returned went through lines 631-632. *)
Definition returns_reset (P : Z) (st : State) : Prop :=
  page_size (globals st) = P /\
  (control st = Returned ->
   PLAYLIST_START (globals st) = 1 /\ PLAYLIST_END (globals st) = P).

(** Along a run the mode stays among the three when it was loaded so,
    and stays what was loaded otherwise. *)
Definition mode_tracks (m0 : string) (st : State) : Prop :=
  (In m0 modes -> In (autoplay_mode (locals st)) modes) /\
  (~ In m0 modes -> autoplay_mode (locals st) = m0).

(** The window invariant in a state of the explorer. *)
Definition window_kept (P : Z) (st : State) : Prop :=
  page_size (globals st) = P /\ window_ok P (globals st).

(** ** [launcher] (lines 273-295): what it returns for the selector's
    output *)

Module Launcher.

(** The characters at which [str.splitlines] ends a line (code points
    below 256). *)
Definition is_boundary (c : ascii) : bool :=
  let n := N_of_ascii c in
  (((10 <=? n) && (n <=? 13)) || ((28 <=? n) && (n <=? 30)) || (n =? 133))%N.

(** [s.splitlines()]: a carriage return followed by a line feed ends
    one line; no empty line is added after a final boundary. *)
Fixpoint splitlines (s : string) : list string :=
  match s with
  | EmptyString => []
  | String c r =>
      if is_boundary c then
        EmptyString
          :: splitlines
               (if Ascii.eqb c Py.CR
                then match r with
                     | String d r' => if Ascii.eqb d Py.LF then r' else r
                     | EmptyString => r
                     end
                else r)
      else match splitlines r with
           | l :: ls => String c l :: ls
           | [] => [String c EmptyString]
           end
  end.

(** Lines 274-295. [out] is what the selector printed; [preview_mode]
    tells whether a preview mode was given. *)
Definition launcher (PREFERRED_SELECTOR : string) (preview_mode : bool)
           (out : string) : string :=
  let selector := Py.lower PREFERRED_SELECTOR in
  if String.eqb selector "rofi" then
    let res := Py.strip out in
    if String.eqb res "" then "Exit" else res
  else
    match splitlines out with
    | [] => ""
    | l0 :: rest =>
        if preview_mode then
          match rest with
          | l1 :: _ => l1
          | [] => l0
          end
        else l0
    end.

End Launcher.

(** A text without a character at which [splitlines] ends a line. *)
Definition unbroken (s : string) : Prop :=
  forallb (fun c => negb (Launcher.is_boundary c)) (Py.chars s) = true.

(** ** The configuration file ([save_config], lines 183-190;
    [load_config], lines 192-225) *)

Module ConfigFile.

(** [CONFIG] as a dictionary: keys with their values, in insertion
    order. *)
Definition Dict := list (string * string).


(** [d[k] = v]: the value of an existing key is replaced in place, a new
    key is added at the end. *)
Fixpoint set (d : Dict) (k v : string) : Dict :=
  match d with
  | [] => [(k, v)]
  | (k', v') :: r =>
      if String.eqb k' k then (k', v) :: r else (k', v') :: set r k v
  end.






(** Lines 217-218: the browser name becomes a yt-dlp option. *)
Definition format_browser (PREFERRED_BROWSER : string) : string :=
  if negb (String.eqb PREFERRED_BROWSER "")
     && negb (Py.contains "--cookies-from-browser" PREFERRED_BROWSER)
  then "--cookies-from-browser " ++ PREFERRED_BROWSER
  else PREFERRED_BROWSER.







End ConfigFile.






(** ** Searching ([main_menu], lines 650-685) *)

Module Search.

(** [re.match(r'^![0-9]{1,2}$', s)]: an exclamation mark and one or two
    digits; [$] also matches before a final newline. *)
Definition is_recall (s : string) : bool :=
  match s with
  | String "!" (String d1 r) =>
      Py.isdigit d1
      && match r with
         | EmptyString => true
         | String c EmptyString => Py.isdigit c || Ascii.eqb c Py.LF
         | String d2 (String c EmptyString) =>
             Py.isdigit d2 && Ascii.eqb c Py.LF
         | _ => false
         end
  | _ => false
  end.

(** Lines 652-659: [!n] is replaced by an entry of the history; the term
    stays as typed when there is no history, [n] is above 10, or
    [lines[-n]] raises [IndexError]. [file] is the content of the history
    file, [None] when it does not exist or cannot be read. *)
Definition recall (file : option string) (search_term : string) : string :=
  if is_recall search_term then
    match Py.int (Py.drop 1 search_term), file with
    | Some idx, Some content =>
        let lines := History.stored_lines content in
        match lines with
        | [] => search_term
        | _ :: _ =>
            if idx <=? 10 then
              match Py.index lines (- idx) with
              | Some l => l
              | None => search_term
              end
            else search_term
        end
    | _, _ => search_term
    end
  else search_term.

(** A sequence of classes, each repeated once or more, matched at the
    start of a text as [re] does: each repetition takes as much as it
    can and gives back one character at a time when the rest fails. The
    result is the text each repetition matched. *)
Fixpoint match_runs (classes : list (ascii -> bool))
  : string -> option (list string) :=
  match classes with
  | [] => fun _ => Some []
  | p :: rest =>
      fix run (s : string) : option (list string) :=
        match s with
        | EmptyString => None
        | String c r =>
            if p c then
              match run r with
              | Some (x :: groups) => Some (String c x :: groups)
              | _ =>
                  match match_runs rest r with
                  | Some groups => Some (String c EmptyString :: groups)
                  | None => None
                  end
              end
            else None
        end
  end.

Definition is_lower (c : ascii) : bool :=
  let n := N_of_ascii c in ((97 <=? n) && (n <=? 122))%N.

Definition not_newline (c : ascii) : bool := negb (Ascii.eqb c Py.LF).

(** [re.match(r'^(:[a-z]+)\s+(.+)', s)]: the two groups. *)
Definition match_filter (s : string) : option (string * string) :=
  match s with
  | String ":" r =>
      match match_runs [is_lower; Py.isspace; not_newline] r with
      | Some [letters; _; term] => Some (String ":" letters, term)
      | _ => None
      end
  | _ => None
  end.

(** Lines 663-671: the [sp] parameter and the term searched. *)
Definition parse_filter (search_term : string) : string * string :=
  let sp := "EgIQAQ%253D%253D" in
  match match_filter search_term with
  | Some (filter_cmd, term) =>
      let sp :=
        if String.eqb filter_cmd ":hour" then "EgIIAQ%253D%253D"
        else if String.eqb filter_cmd ":today" then "EgIIAg%253D%253D"
        else if String.eqb filter_cmd ":week" then "EgIIAw%253D%253D"
        else if String.eqb filter_cmd ":month" then "EgIIBA%253D%253D"
        else if String.eqb filter_cmd ":year" then "EgIIBQ%253D%253D"
        else sp in
      (sp, term)
  | None => (sp, search_term)
  end.

(** The bytes [urllib.parse.quote] leaves as they are: letters, digits,
    [_.-~], and [/]. *)
Definition is_safe (b : N) : bool :=
  (((48 <=? b) && (b <=? 57)) || ((65 <=? b) && (b <=? 90))
   || ((97 <=? b) && (b <=? 122))
   || (b =? 95) || (b =? 46) || (b =? 45) || (b =? 126) || (b =? 47))%N.

Definition upper_hex (d : N) : ascii :=
  if (d <? 10)%N then ascii_of_N (48 + d) else ascii_of_N (55 + d).

Fixpoint quote_bytes (bs : list N) : string :=
  match bs with
  | [] => EmptyString
  | b :: r =>
      if is_safe b then String (ascii_of_N b) (quote_bytes r)
      else String "%" (String (upper_hex (N.shiftr b 4))
                         (String (upper_hex (N.land b 15)) (quote_bytes r)))
  end.

(** [urllib.parse.quote(s)] *)
Definition quote (s : string) : string := quote_bytes (Sha256.utf8 s).

(** Lines 683-684. *)
Definition search_url (search_term sp : string) : string :=
  "https://www.youtube.com/results?search_query=" ++ quote search_term
  ++ "&sp=" ++ sp.

(** Lines 650-685. [given] is the term passed on the command line, if
    any; [typed] is what the prompt returns when it is asked. The result
    is the term searched, the listing url, and the history file
    afterwards; [None] when the term is empty and the menu is shown
    again. *)
Definition search (SEARCH_HISTORY : string) (file : option string)
           (given : option string) (typed : string)
  : option (string * string * option string) :=
  let search_term :=
    match given with
    | Some t => if String.eqb t "" then recall file typed else t
    | None => recall file typed
    end in
  if String.eqb search_term "" then None
  else
    let '(sp, search_term) := parse_filter search_term in
    Some (search_term, search_url search_term sp,
          History.update_history SEARCH_HISTORY file search_term).

End Search.

(** The filter tokens line 667-671 know. *)
Definition known_filters : list string :=
  [":hour"; ":today"; ":week"; ":month"; ":year"].

(** A character [quote] can put in its result. *)
Definition quoted_char (c : ascii) : Prop :=
  Search.is_safe (N_of_ascii c) = true \/ c = "%"%char.

(** ** Vocabulary of the further properties *)

(** A listing request for exactly one page of [P] positions. *)
Definition fetch_ok (P : Z) (o : Output) : Prop :=
  match o with
  | OutFetch s e => 1 <= s /\ e - s = P - 1
  | _ => True
  end.












(** The aliasing behind [video_slot]: [entries] is the list of the
    listing held, and the entry [video] refers to is the entry at its
    slot. *)
Definition slot_holds (l : Locals) : Prop :=
  (forall p, search_results l = Some p -> p = entries l) /\
  match video_slot l with
  | Some k => nth_error (entries l) k = Some (Some (video l))
  | None => True
  end.

(** Lines 444-445: the ordinal put in front of the entry at index [i] of
    a page of [n] entries. *)
Definition ordinal (n : nat) (i : Z) : string :=
  let num := Py.str (i + 1) in
  if (n <? 10)%nat && (String.length num <? 2)%nat then "0" ++ num else num.

(** [n] successful playbacks in a row. *)
Definition plays_well (n : nat) : list Input :=
  repeat (InPlayer (PlayerExit 0)) n.

(** What one turn of the autoplay loop prints and starts. *)
Definition play_outputs (l : Locals) : list Output :=
  [ OutPlay (vid_url l) (audio_only_mode l);
    OutPrint ("Now playing: "
              ++ match clean_title l with Some t => t | None => "None" end) ].

(** The configuration written by the most recent [save_config] of a
    run, [on_disk] when the run has saved nothing. *)
Fixpoint last_saved (out : list Output) (on_disk : Config) : Config :=
  match out with
  | [] => on_disk
  | OutSave c :: _ => c
  | _ :: r => last_saved r on_disk
  end.

(** The preferences in use are the ones in [CONFIG], and [CONFIG] is
    what the configuration file holds. *)
Definition preferences_saved (on_disk : Config) (st : State) : Prop :=
  autoplay_mode (locals st) = AUTOPLAY_MODE (CONFIG (globals st)) /\
  audio_only_mode (locals st) = load_audio_only (CONFIG (globals st)) /\
  last_saved (output st) on_disk = CONFIG (globals st) /\
  NO_OF_SEARCH_RESULTS (CONFIG (globals st)) = NO_OF_SEARCH_RESULTS on_disk /\
  ENABLE_PREVIEW (CONFIG (globals st)) = ENABLE_PREVIEW on_disk /\
  PREFERRED_SELECTOR (CONFIG (globals st)) = PREFERRED_SELECTOR on_disk.

(** The number a run of decimal digits denotes, continuing from
    [acc]. *)
Fixpoint uint_value (acc : Z) (d : Decimal.uint) : Z :=
  match d with
  | Decimal.Nil => acc
  | Decimal.D0 l => uint_value (10 * acc + 0) l
  | Decimal.D1 l => uint_value (10 * acc + 1) l
  | Decimal.D2 l => uint_value (10 * acc + 2) l
  | Decimal.D3 l => uint_value (10 * acc + 3) l
  | Decimal.D4 l => uint_value (10 * acc + 4) l
  | Decimal.D5 l => uint_value (10 * acc + 5) l
  | Decimal.D6 l => uint_value (10 * acc + 6) l
  | Decimal.D7 l => uint_value (10 * acc + 7) l
  | Decimal.D8 l => uint_value (10 * acc + 8) l
  | Decimal.D9 l => uint_value (10 * acc + 9) l
  end.

(** States and files for the examples. *)

(** The last entry of [song_page] is being played, in playlist mode. *)
Definition last_playing_state : State :=
  on_action
    (on_list (playlist_explorer
                (initial_globals (set_autoplay_config DEFAULT_CONFIG "playlist"))
                (Some song_page))
             "02 Song B")
    "Watch".

(** The first entry is being played with the capital-letter mode. *)
Definition capital_playing_state : State :=
  on_action capital_menu_state "Watch".

(** A run that toggles both preferences and moves one page on. *)
Definition toggling_inputs : list Input :=
  [InSelect "01 Song A"; InSelect "Toggle Audio Only [ ]";
   InSelect "Toggle Autoplay [Off]"; InSelect "Back"; InSelect "Next";
   InFetch (Some song_page)].

Definition toggling_state : State :=
  on_fetch
    (on_list
       (on_action
          (on_action
             (on_action menu_state "Toggle Audio Only [ ]")
             "Toggle Autoplay [Off]")
          "Back")
       "Next")
    (Some song_page).







Definition example_history : string :=
  History.write_lines ["cats"; "dogs"; "birds"].

(** ** Tactics *)

Ltac break_match :=
  match goal with
  | |- context [match ?x with _ => _ end] => destruct x eqn:?
  end.

Ltac unfold_transitions :=
  unfold on_list, on_fetch, on_action, on_player, on_auto_fetch, on_mix,
    playlist_entry, loop_top, finish, play, action_menu in *.

Ltac window_arith :=
  unfold window_kept, window_ok, page_next, page_previous, page_reset,
    page_size, set_window, set_config in *; simpl in *;
  repeat match goal with
         | |- context [?a <=? ?b] => destruct (Z.leb_spec a b)
         | |- context [?a <? ?b] => destruct (Z.ltb_spec a b)
         end;
  lia.

Ltac fetch_arith :=
  repeat match goal with
         | |- Forall _ (_ :: _) => constructor
         | |- Forall _ [] => constructor
         | |- fetch_ok _ _ => unfold fetch_ok
         | |- _ /\ _ => split
         end;
  try assumption; try exact I; try window_arith.

(* ================================================================== *)
(** * Part II: properties *)
(* ================================================================== *)

(** ** The pagination window *)

Lemma page_size_next g : page_size (page_next g) = page_size g.
Proof. reflexivity. Qed.

Lemma page_size_previous g : page_size (page_previous g) = page_size g.
Proof. reflexivity. Qed.

Lemma page_size_navigate g n : page_size (navigate g n) = page_size g.
Proof. destruct n; reflexivity. Qed.

Lemma window_ok_initial c :
  window_ok (NO_OF_SEARCH_RESULTS c) (initial_globals c).
Proof. unfold window_ok; simpl; lia. Qed.

Lemma window_ok_reset g : window_ok (page_size g) (page_reset g).
Proof. unfold window_ok, page_reset; simpl; lia. Qed.

Lemma window_ok_next g :
  0 <= page_size g ->
  window_ok (page_size g) g -> window_ok (page_size g) (page_next g).
Proof.
  unfold window_ok, page_next; simpl; intros HP [Hs He]; lia.
Qed.

Lemma window_ok_previous g :
  window_ok (page_size g) g -> window_ok (page_size g) (page_previous g).
Proof.
  unfold window_ok, page_previous; simpl; intros [Hs He].
  destruct (Z.leb_spec (PLAYLIST_START g - page_size g) 0);
    destruct (Z.ltb_spec (PLAYLIST_END g - page_size g) (page_size g)); lia.
Qed.

Lemma window_ok_navigate g n :
  0 <= page_size g ->
  window_ok (page_size g) g -> window_ok (page_size g) (navigate g n).
Proof.
  intros HP H; destruct n; simpl.
  - now apply window_ok_next.
  - now apply window_ok_previous.
Qed.

Lemma navigate_all_invariant navs : forall g,
  0 <= page_size g ->
  window_ok (page_size g) g ->
  page_size (navigate_all navs g) = page_size g /\
  window_ok (page_size g) (navigate_all navs g).
Proof.
  induction navs as [|n navs IH]; intros g HP H; simpl.
  - split; [reflexivity | exact H].
  - destruct (IH (navigate g n)) as [E W].
    + now rewrite page_size_navigate.
    + rewrite page_size_navigate. now apply window_ok_navigate.
    + rewrite page_size_navigate in E, W. split; assumption.
Qed.

(** The explorer moves the window by [page_next], [page_previous] and
    [page_reset] only (lines 468-478, 570-571, 631-632). *)
Lemma step_window_kept P st i st' :
  0 <= P -> window_kept P st -> step st i = Some st' -> window_kept P st'.
Proof.
  intros HP HW Hstep. unfold step in Hstep.
  destruct (control st), i; try discriminate;
    injection Hstep as <-; unfold_transitions;
    repeat break_match; window_arith.
Qed.

Lemma run_window_kept P inputs : forall st st',
  0 <= P -> window_kept P st -> run st inputs = Some st' -> window_kept P st'.
Proof.
  induction inputs as [|i rest IH]; simpl; intros st st' HP H Hrun.
  - now injection Hrun as <-.
  - destruct (step st i) as [st1|] eqn:Hs; [|discriminate].
    apply (IH st1 st' HP); [|exact Hrun].
    now apply (step_window_kept P st i).
Qed.

Lemma playlist_explorer_window_kept P g results :
  0 <= P -> page_size g = P -> window_ok P g ->
  window_kept P (playlist_explorer g results).
Proof.
  intros HP Hg HW. unfold playlist_explorer. unfold_transitions.
  repeat break_match; window_arith.
Qed.

(** C1, as the specification states it, fails already in the initial
    state: with the default page size 30 the window is [1, 30], so
    [end - start] is 29 and not the page size. *)
Lemma C1_width_is_not_page_size :
  let g := navigate_all [] (initial_globals DEFAULT_CONFIG) in
  PLAYLIST_START g = 1 /\ PLAYLIST_END g = 30 /\ page_size g = 30 /\
  ~ (1 <= PLAYLIST_START g /\
     PLAYLIST_END g - PLAYLIST_START g = page_size g).
Proof.
  cbn. repeat split; try reflexivity. intros [_ H]. discriminate H.
Qed.

(** C1 (amended): for every sequence of Next and Previous steps from the
    initial window, and a page size that is not negative, [start >= 1]
    and [end - start] is the page size minus one: the inclusive window
    [start, end] spans exactly one page. As the sequence is arbitrary
    this holds after every step, the initial state included; and it
    holds in every state a run of the explorer reaches from the initial
    window, whatever the inputs. *)
Theorem C1_window_invariant
        (c : Config) (navs : list Nav)
        (results : option Page) (inputs : list Input) (st : State) :
  0 <= NO_OF_SEARCH_RESULTS c ->
  (let g := navigate_all navs (initial_globals c) in
   1 <= PLAYLIST_START g /\
   PLAYLIST_END g - PLAYLIST_START g = NO_OF_SEARCH_RESULTS c - 1 /\
   page_size g = NO_OF_SEARCH_RESULTS c) /\
  (run (playlist_explorer (initial_globals c) results) inputs = Some st ->
   1 <= PLAYLIST_START (globals st) /\
   PLAYLIST_END (globals st) - PLAYLIST_START (globals st)
   = NO_OF_SEARCH_RESULTS c - 1).
Proof.
  intros HP. split.
  - intros g.
    destruct (navigate_all_invariant navs (initial_globals c)) as [E [Hs He]].
    + exact HP.
    + apply window_ok_initial.
    + subst g. cbn in E, Hs, He |- *. repeat split; assumption.
  - intros Hrun.
    assert (H0 : window_kept (NO_OF_SEARCH_RESULTS c)
                   (playlist_explorer (initial_globals c) results)).
    { apply playlist_explorer_window_kept;
        [exact HP | reflexivity | apply window_ok_initial]. }
    destruct (run_window_kept _ _ _ _ HP H0 Hrun) as [_ W]. exact W.
Qed.

Lemma C1_window_invariant_witness :
  0 <= NO_OF_SEARCH_RESULTS DEFAULT_CONFIG /\
  (let g := navigate_all [Next; Next; Previous]
                         (initial_globals DEFAULT_CONFIG) in
   1 <= PLAYLIST_START g /\
   PLAYLIST_END g - PLAYLIST_START g = 30 - 1 /\
   page_size g = 30) /\
  1 <= PLAYLIST_START (globals browsing_state) /\
  PLAYLIST_END (globals browsing_state)
  - PLAYLIST_START (globals browsing_state) = 30 - 1.
Proof.
  assert (HP : 0 <= NO_OF_SEARCH_RESULTS DEFAULT_CONFIG) by (simpl; lia).
  assert (Hrun : run (playlist_explorer (initial_globals DEFAULT_CONFIG)
                                        (Some song_page))
                     browsing_inputs = Some browsing_state)
    by (vm_compute; reflexivity).
  destruct (C1_window_invariant
              DEFAULT_CONFIG [Next; Next; Previous] (Some song_page)
              browsing_inputs browsing_state HP) as [Hn Hr].
  split; [exact HP|]. split; [exact Hn | exact (Hr Hrun)].
Defined.

(** The scenario of the specification: page size 30, Next twice gives
    [61, 90], Previous from there gives [31, 60]. *)
Example next_next_previous :
  let g2 := navigate_all [Next; Next] (initial_globals DEFAULT_CONFIG) in
  let g3 := navigate g2 Previous in
  (PLAYLIST_START g2, PLAYLIST_END g2) = (61, 90) /\
  (PLAYLIST_START g3, PLAYLIST_END g3) = (31, 60).
Proof. split; reflexivity. Qed.

(** C3, as the specification states it, fails for a page size below
    zero, which [load_config] accepts (line 225 converts ["-5"] like any
    integer): the first window is then [1, -5], and Previous moves
    [start] from 1 up to 6 instead of leaving it, in [page_previous] and
    in the explorer when Previous is chosen. *)
Lemma C3_negative_page_size_moves_start :
  let g := initial_globals negative_config in
  Py.int "-5" = Some (page_size g) /\
  PLAYLIST_START g = 1 /\ PLAYLIST_END g = page_size g /\
  PLAYLIST_START (page_previous g) = 6 /\
  PLAYLIST_END (page_previous g) = 0 /\
  exists st,
    step (playlist_explorer g (Some song_page)) (InSelect "Previous")
    = Some st /\
    PLAYLIST_START (globals st) = 6 /\
    hd_error (output st) = Some (OutFetch 6 0).
Proof.
  cbv zeta. repeat (split; [reflexivity|]).
  eexists. split; [reflexivity|]. split; reflexivity.
Qed.

(** C3 (amended): Previous subtracts the page size from both bounds and
    clamps: [start] becomes [max 1 (start - P)] and [end] becomes
    [max P (end - P)], so [start] never drops below 1 and [end] never
    below [P]. With a page size that is not negative, at the first
    window, [start = 1] and [end = P], it leaves both where they are;
    with a page size below zero it moves [start] from 1 to [1 - P]. *)
Theorem C3_previous_clamps (g : Globals) :
  let g' := page_previous g in
  PLAYLIST_START g' = Z.max 1 (PLAYLIST_START g - page_size g) /\
  PLAYLIST_END g' = Z.max (page_size g) (PLAYLIST_END g - page_size g) /\
  1 <= PLAYLIST_START g' /\
  page_size g <= PLAYLIST_END g' /\
  (0 <= page_size g ->
   (PLAYLIST_START g = 1 -> PLAYLIST_START g' = 1) /\
   (PLAYLIST_END g = page_size g -> PLAYLIST_END g' = page_size g)) /\
  (page_size g < 0 ->
   PLAYLIST_START g = 1 -> PLAYLIST_START g' = 1 - page_size g).
Proof.
  intros g'. subst g'. unfold page_previous.
  cbn [PLAYLIST_START PLAYLIST_END set_window].
  destruct (Z.leb_spec (PLAYLIST_START g - page_size g) 0);
    destruct (Z.ltb_spec (PLAYLIST_END g - page_size g) (page_size g));
    (split; [lia|]); (split; [lia|]); (split; [lia|]); (split; [lia|]);
    (split; [intros HP; split; intros; lia | intros; lia]).
Qed.

Lemma C3_previous_clamps_witness :
  let g := initial_globals DEFAULT_CONFIG in
  let g' := page_previous g in
  0 <= page_size g /\
  PLAYLIST_START g = 1 /\ PLAYLIST_END g = page_size g /\
  PLAYLIST_START g' = 1 /\ PLAYLIST_END g' = page_size g.
Proof.
  cbv zeta.
  assert (HP : 0 <= page_size (initial_globals DEFAULT_CONFIG))
    by (unfold page_size; simpl; lia).
  destruct (C3_previous_clamps (initial_globals DEFAULT_CONFIG))
    as (_ & _ & _ & _ & K & _).
  destruct (K HP) as [S E].
  split; [exact HP|]. split; [reflexivity|]. split; [reflexivity|].
  split; [exact (S eq_refl) | exact (E eq_refl)].
Defined.

(** ** The transition system: frame facts *)

Lemma loop_top_returns_reset P st :
  page_size (globals st) = P -> returns_reset P (loop_top st).
Proof.
  intros HP. unfold returns_reset. unfold_transitions.
  repeat break_match; unfold page_size in *; simpl;
    (split; [assumption | intros; try discriminate; auto]).
Qed.

Lemma step_returns_reset P st i st' :
  page_size (globals st) = P ->
  step st i = Some st' -> returns_reset P st'.
Proof.
  intros HP Hstep. unfold step in Hstep.
  destruct (control st), i; try discriminate;
    injection Hstep as <-; unfold returns_reset;
    unfold_transitions;
    repeat break_match; unfold page_size in *; simpl;
    (split; [assumption | intros; try discriminate; auto]).
Qed.

Lemma run_returns_reset P inputs : forall st st',
  returns_reset P st ->
  run st inputs = Some st' -> returns_reset P st'.
Proof.
  induction inputs as [|i rest IH]; simpl; intros st st' H Hrun.
  - now injection Hrun as <-.
  - destruct (step st i) as [st1|] eqn:Hs; [|discriminate].
    apply (IH st1 st'); [|exact Hrun].
    apply (step_returns_reset P st i); [apply H | exact Hs].
Qed.

(** The three ways back to the caller: Back, an empty selection, and a
    page that could not be fetched. *)
Lemma back_returns st :
  control st = AtList ->
  exists st', step st (InSelect "Back") = Some st' /\ control st' = Returned.
Proof.
  intros H. unfold step. rewrite H. eexists. split; [reflexivity|].
  reflexivity.
Qed.

Lemma empty_selection_returns st :
  control st = AtList ->
  exists st', step st (InSelect "") = Some st' /\ control st' = Returned.
Proof.
  intros H. unfold step. rewrite H. eexists. split; [reflexivity|].
  reflexivity.
Qed.

Lemma unfetchable_page_returns st :
  control st = AtFetch ->
  exists st', step st (InFetch None) = Some st' /\ control st' = Returned.
Proof.
  intros H. unfold step. rewrite H. eexists. split; [reflexivity|].
  reflexivity.
Qed.

Lemma no_results_returns g :
  control (playlist_explorer g None) = Returned.
Proof. reflexivity. Qed.

(** C9: in every state a run of [playlist_explorer] reaches, whatever
    the navigation before: once the function has returned to its caller
    the window is [start = 1] and [end] = the configured page size,
    which no run changes; and it does return, with that window, on Back
    or an empty selection in the video list, and on a page that could
    not be fetched. *)
Theorem C9_return_resets_window
        (g : Globals) (results : option Page) (inputs : list Input)
        (st : State) :
  run (playlist_explorer g results) inputs = Some st ->
  let reset s :=
    control s = Returned /\
    PLAYLIST_START (globals s) = 1 /\
    PLAYLIST_END (globals s) = NO_OF_SEARCH_RESULTS (CONFIG g) /\
    page_size (globals s) = NO_OF_SEARCH_RESULTS (CONFIG g) in
  (control st = Returned -> reset st) /\
  (control st = AtList ->
   (exists st', step st (InSelect "Back") = Some st' /\ reset st') /\
   (exists st', step st (InSelect "") = Some st' /\ reset st')) /\
  (control st = AtFetch ->
   exists st', step st (InFetch None) = Some st' /\ reset st').
Proof.
  intros Hrun reset.
  assert (H0 : returns_reset (page_size g) (playlist_explorer g results)).
  { apply loop_top_returns_reset. reflexivity. }
  destruct (run_returns_reset _ _ _ _ H0 Hrun) as [HP HR].
  assert (Hstep : forall i st', step st i = Some st' ->
                                control st' = Returned -> reset st').
  { intros i st' Hs Hc.
    destruct (step_returns_reset _ _ _ _ HP Hs) as [HP' HR'].
    destruct (HR' Hc) as [Hs' He']. repeat split; assumption. }
  split; [|split].
  - intros Hret. destruct (HR Hret) as [Hs He]. repeat split; assumption.
  - intros Hc. split.
    + destruct (back_returns st Hc) as (st' & S & R).
      exists st'. split; [exact S | exact (Hstep _ _ S R)].
    + destruct (empty_selection_returns st Hc) as (st' & S & R).
      exists st'. split; [exact S | exact (Hstep _ _ S R)].
  - intros Hc. destruct (unfetchable_page_returns st Hc) as (st' & S & R).
    exists st'. split; [exact S | exact (Hstep _ _ S R)].
Qed.

Lemma C9_return_resets_window_witness :
  run (playlist_explorer (initial_globals DEFAULT_CONFIG) (Some song_page))
      browsing_inputs = Some browsing_state /\
  control browsing_state = AtList /\
  PLAYLIST_START (globals browsing_state) = 61 /\
  exists st',
    step browsing_state (InSelect "Back") = Some st' /\
    control st' = Returned /\
    PLAYLIST_START (globals st') = 1 /\
    PLAYLIST_END (globals st') = 30.
Proof.
  assert (Hrun : run (playlist_explorer (initial_globals DEFAULT_CONFIG)
                                        (Some song_page))
                     browsing_inputs = Some browsing_state)
    by (vm_compute; reflexivity).
  assert (Hc : control browsing_state = AtList) by reflexivity.
  destruct (C9_return_resets_window
              (initial_globals DEFAULT_CONFIG) (Some song_page)
              browsing_inputs browsing_state Hrun)
    as (_ & HL & _).
  destruct (HL Hc) as [(st' & S & R & S1 & E1 & _) _].
  split; [exact Hrun|]. split; [exact Hc|]. split; [reflexivity|].
  exists st'. repeat split; assumption.
Defined.

(** ** Preferences *)

Lemma toggle_autoplay_cases m :
  (m = "off" /\ toggle_autoplay m = Some "playlist") \/
  (m = "playlist" /\ toggle_autoplay m = Some "related") \/
  (m = "related" /\ toggle_autoplay m = Some "off") \/
  (~ In m modes /\ toggle_autoplay m = None).
Proof.
  unfold toggle_autoplay, modes; cbn -[String.eqb].
  destruct (String.eqb_spec "off" m) as [E|N1]; [subst; auto|].
  destruct (String.eqb_spec "playlist" m) as [E|N2]; [subst; auto|].
  destruct (String.eqb_spec "related" m) as [E|N3]; [subst; auto 6|].
  right; right; right. split; [|reflexivity].
  intros [H|[H|[H|[]]]]; congruence.
Qed.

Lemma toggle_autoplay_in_modes m m' :
  toggle_autoplay m = Some m' -> In m modes /\ In m' modes.
Proof.
  intros H.
  destruct (toggle_autoplay_cases m) as [[E T]|[[E T]|[[E T]|[E T]]]];
    rewrite T in H; try discriminate; injection H as <-; subst;
    simpl; auto 6.
Qed.

(** A transition leaves the autoplay mode alone, or is the toggle. *)
Lemma step_autoplay_mode st i st' :
  step st i = Some st' ->
  autoplay_mode (locals st') = autoplay_mode (locals st) \/
  toggle_autoplay (autoplay_mode (locals st))
  = Some (autoplay_mode (locals st')).
Proof.
  intros Hstep. unfold step in Hstep.
  destruct (control st), i; try discriminate;
    injection Hstep as <-; unfold_transitions;
    repeat break_match; simpl; auto.
Qed.

Lemma step_mode_tracks m0 st i st' :
  mode_tracks m0 st -> step st i = Some st' -> mode_tracks m0 st'.
Proof.
  intros [Hin Hout] Hstep.
  destruct (step_autoplay_mode _ _ _ Hstep) as [E|T]; split; intros H.
  - rewrite E; auto.
  - rewrite E; auto.
  - apply (toggle_autoplay_in_modes _ _ T).
  - exfalso. apply toggle_autoplay_in_modes in T. destruct T as [T _].
    rewrite (Hout H) in T. contradiction.
Qed.

Lemma run_mode_tracks m0 inputs : forall st st',
  mode_tracks m0 st -> run st inputs = Some st' -> mode_tracks m0 st'.
Proof.
  induction inputs as [|i rest IH]; simpl; intros st st' H Hrun.
  - now injection Hrun as <-.
  - destruct (step st i) as [st1|] eqn:Hs; [|discriminate].
    apply (IH st1 st'); [|exact Hrun].
    now apply (step_mode_tracks m0 st i).
Qed.

Lemma playlist_explorer_mode g results :
  autoplay_mode (locals (playlist_explorer g results))
  = AUTOPLAY_MODE (CONFIG g).
Proof.
  unfold playlist_explorer. unfold_transitions.
  repeat break_match; reflexivity.
Qed.

Lemma toggle_autoplay_label_cases l :
  toggle_autoplay_label l = "Toggle Autoplay [Off]" \/
  toggle_autoplay_label l = "Toggle Autoplay [Playlist]" \/
  toggle_autoplay_label l = "Toggle Autoplay [Related]".
Proof.
  unfold toggle_autoplay_label, media_actions. cbn [nth].
  destruct (autoplay_mode l =? "playlist")%string; auto.
  destruct (autoplay_mode l =? "related")%string; auto.
Qed.

(** Choosing the autoplay line of the menu runs lines 521-527. *)
Lemma on_action_toggle_autoplay st :
  on_action st (toggle_autoplay_label (locals st)) =
  match toggle_autoplay (autoplay_mode (locals st)) with
  | None => goto (Raised ValueError) st
  | Some m =>
      let c := set_autoplay_config (CONFIG (globals st)) m in
      action_menu
        (emit (OutSave c)
           (with_globals (set_config (globals st) c)
              (with_locals
                 (set_prefs (locals st) (audio_only_mode (locals st)) m) st)))
  end.
Proof.
  unfold on_action.
  destruct (toggle_autoplay_label_cases (locals st)) as [E|[E|E]];
    rewrite E; reflexivity.
Qed.

(** Choosing the audio line of the menu runs lines 515-519. *)
Lemma on_action_toggle_audio st :
  on_action st (toggle_audio_label (locals st)) =
  let a := toggle_audio_only (audio_only_mode (locals st)) in
  let c := set_audio_config (CONFIG (globals st)) (Py.bool_lower a) in
  action_menu
    (emit (OutSave c)
       (with_globals (set_config (globals st) c)
          (with_locals (set_prefs (locals st) a (autoplay_mode (locals st)))
             st))).
Proof.
  unfold on_action, toggle_audio_label, media_actions. cbn [nth].
  destruct (audio_only_mode (locals st)); reflexivity.
Qed.

Lemma press_audio st :
  control st = AtAction ->
  exists st',
    press toggle_audio_label st = Some st' /\
    control st' = AtAction /\
    audio_only_mode (locals st') = negb (audio_only_mode (locals st)) /\
    load_audio_only (CONFIG (globals st')) = audio_only_mode (locals st') /\
    autoplay_mode (locals st') = autoplay_mode (locals st) /\
    output st' = OutLauncher (media_actions (locals st'))
                 :: OutSave (CONFIG (globals st')) :: output st.
Proof.
  intros H. unfold press, step. rewrite H.
  rewrite on_action_toggle_audio. eexists. split; [reflexivity|].
  destruct (audio_only_mode (locals st)); repeat split; reflexivity.
Qed.

Lemma press_autoplay st m :
  control st = AtAction ->
  toggle_autoplay (autoplay_mode (locals st)) = Some m ->
  exists st',
    press toggle_autoplay_label st = Some st' /\
    control st' = AtAction /\
    autoplay_mode (locals st') = m /\
    AUTOPLAY_MODE (CONFIG (globals st')) = m /\
    audio_only_mode (locals st') = audio_only_mode (locals st) /\
    output st' = OutLauncher (media_actions (locals st'))
                 :: OutSave (CONFIG (globals st')) :: output st.
Proof.
  intros H T. unfold press, step. rewrite H.
  rewrite on_action_toggle_autoplay, T. eexists. split; [reflexivity|].
  repeat split; reflexivity.
Qed.

(** C5: from any action menu whose autoplay mode is one of off, playlist
    and related: choosing the audio-only toggle twice brings the flag
    back (and the preference saved then loads as that flag); choosing the
    autoplay toggle three times brings the mode back, in the local state
    and in the saved preference; one toggle follows
    off -> playlist -> related -> off. *)
Theorem C5_toggles_cycle (st : State) :
  control st = AtAction ->
  In (autoplay_mode (locals st)) modes ->
  (exists st2,
      press_times toggle_audio_label 2 st = Some st2 /\
      control st2 = AtAction /\
      audio_only_mode (locals st2) = audio_only_mode (locals st) /\
      load_audio_only (CONFIG (globals st2)) = audio_only_mode (locals st) /\
      autoplay_mode (locals st2) = autoplay_mode (locals st)) /\
  (exists st3,
      press_times toggle_autoplay_label 3 st = Some st3 /\
      control st3 = AtAction /\
      autoplay_mode (locals st3) = autoplay_mode (locals st) /\
      AUTOPLAY_MODE (CONFIG (globals st3)) = autoplay_mode (locals st) /\
      audio_only_mode (locals st3) = audio_only_mode (locals st)) /\
  toggle_autoplay "off" = Some "playlist" /\
  toggle_autoplay "playlist" = Some "related" /\
  toggle_autoplay "related" = Some "off" /\
  toggle_audio_only (toggle_audio_only (audio_only_mode (locals st)))
  = audio_only_mode (locals st).
Proof.
  intros H Hin. split; [|split].
  - destruct (press_audio st H) as (s1 & P1 & C1 & A1 & _ & M1 & _).
    destruct (press_audio s1 C1) as (s2 & P2 & C2 & A2 & L2 & M2 & _).
    exists s2. cbn [press_times]. rewrite P1, P2.
    rewrite A1, negb_involutive in A2.
    repeat split; try congruence.
  - assert (Hcyc : forall s a b c,
               control s = AtAction ->
               autoplay_mode (locals s) = a ->
               toggle_autoplay a = Some b -> toggle_autoplay b = Some c ->
               toggle_autoplay c = Some a ->
               exists s3,
                 press_times toggle_autoplay_label 3 s = Some s3 /\
                 control s3 = AtAction /\
                 autoplay_mode (locals s3) = a /\
                 AUTOPLAY_MODE (CONFIG (globals s3)) = a /\
                 audio_only_mode (locals s3) = audio_only_mode (locals s)).
    { intros s a b c Hc Ha Tab Tbc Tca. rewrite <- Ha in Tab.
      destruct (press_autoplay s b Hc Tab) as (s1 & P1 & C1 & M1 & _ & A1 & _).
      rewrite <- M1 in Tbc.
      destruct (press_autoplay s1 c C1 Tbc) as (s2 & P2 & C2 & M2 & _ & A2 & _).
      rewrite <- M2 in Tca.
      destruct (press_autoplay s2 a C2 Tca) as (s3 & P3 & C3 & M3 & K3 & A3 & _).
      exists s3. cbn [press_times]. rewrite P1, P2, P3.
      repeat split; congruence. }
    destruct Hin as [E|[E|[E|[]]]]; symmetry in E.
    + destruct (Hcyc st "off" "playlist" "related" H E) as (s3 & R);
        try reflexivity. exists s3. rewrite E. exact R.
    + destruct (Hcyc st "playlist" "related" "off" H E) as (s3 & R);
        try reflexivity. exists s3. rewrite E. exact R.
    + destruct (Hcyc st "related" "off" "playlist" H E) as (s3 & R);
        try reflexivity. exists s3. rewrite E. exact R.
  - repeat split; try reflexivity.
    unfold toggle_audio_only. apply negb_involutive.
Qed.

Lemma C5_toggles_cycle_witness :
  control menu_state = AtAction /\
  In (autoplay_mode (locals menu_state)) modes /\
  (exists st2,
      press_times toggle_audio_label 2 menu_state = Some st2 /\
      audio_only_mode (locals st2) = false) /\
  (exists st3,
      press_times toggle_autoplay_label 3 menu_state = Some st3 /\
      autoplay_mode (locals st3) = "off").
Proof.
  assert (Hc : control menu_state = AtAction) by reflexivity.
  assert (Hm : In (autoplay_mode (locals menu_state)) modes)
    by (left; reflexivity).
  destruct (C5_toggles_cycle menu_state Hc Hm)
    as [(s2 & P2 & _ & A2 & _) [(s3 & P3 & _ & M3 & _) _]].
  split; [exact Hc|]. split; [exact Hm|]. split.
  - exists s2. split; [exact P2 | exact A2].
  - exists s3. split; [exact P3 | exact M3].
Defined.

(** C10: the autoplay mode is taken from the preference store as it is
    (line 432). In every action menu a run of [playlist_explorer]
    reaches, choosing the autoplay toggle goes on to the menu with the
    next mode when the loaded mode was off, playlist or related; for any
    other loaded string the mode is still that string and the lookup of
    line 523 raises [ValueError], which nothing catches. *)
Theorem C10_toggle_autoplay_partial
        (g : Globals) (results : option Page) (inputs : list Input)
        (st : State) :
  run (playlist_explorer g results) inputs = Some st ->
  control st = AtAction ->
  exists st',
    press toggle_autoplay_label st = Some st' /\
    (In (AUTOPLAY_MODE (CONFIG g)) modes ->
     control st' = AtAction /\
     toggle_autoplay (autoplay_mode (locals st))
     = Some (autoplay_mode (locals st'))) /\
    (~ In (AUTOPLAY_MODE (CONFIG g)) modes ->
     autoplay_mode (locals st) = AUTOPLAY_MODE (CONFIG g) /\
     toggle_autoplay (autoplay_mode (locals st)) = None /\
     control st' = Raised ValueError).
Proof.
  intros Hrun Hc.
  assert (H0 : mode_tracks (AUTOPLAY_MODE (CONFIG g))
                           (playlist_explorer g results)).
  { rewrite <- (playlist_explorer_mode g results).
    split; intros; [assumption | reflexivity]. }
  destruct (run_mode_tracks _ _ _ _ H0 Hrun) as [Hin Hout].
  unfold press, step. rewrite Hc. rewrite on_action_toggle_autoplay.
  eexists. split; [reflexivity|]. split; intros H.
  - specialize (Hin H).
    destruct (toggle_autoplay_cases (autoplay_mode (locals st)))
      as [[E T]|[[E T]|[[E T]|[E T]]]]; try contradiction;
      rewrite T; split; reflexivity.
  - specialize (Hout H).
    destruct (toggle_autoplay_cases (autoplay_mode (locals st)))
      as [[E T]|[[E T]|[[E T]|[E T]]]];
      try (exfalso; apply H; rewrite <- Hout, E; simpl; auto 6; fail).
    rewrite T. repeat split; assumption || reflexivity.
Qed.

Lemma C10_toggle_autoplay_partial_witness :
  run (playlist_explorer (initial_globals capital_off_config) (Some song_page))
      [InSelect "01 Song A"] = Some capital_menu_state /\
  control capital_menu_state = AtAction /\
  ~ In (AUTOPLAY_MODE (CONFIG (initial_globals capital_off_config))) modes /\
  exists st',
    press toggle_autoplay_label capital_menu_state = Some st' /\
    autoplay_mode (locals capital_menu_state) = "Off" /\
    control st' = Raised ValueError.
Proof.
  assert (Hrun : run (playlist_explorer (initial_globals capital_off_config)
                                        (Some song_page))
                     [InSelect "01 Song A"] = Some capital_menu_state)
    by (vm_compute; reflexivity).
  assert (Hc : control capital_menu_state = AtAction) by reflexivity.
  assert (Hn : ~ In (AUTOPLAY_MODE (CONFIG (initial_globals capital_off_config)))
                    modes).
  { simpl. intros [H|[H|[H|[]]]]; discriminate H. }
  destruct (C10_toggle_autoplay_partial
              (initial_globals capital_off_config) (Some song_page)
              [InSelect "01 Song A"] capital_menu_state Hrun Hc)
    as (st' & P & _ & Hbad).
  destruct (Hbad Hn) as (M & _ & R).
  split; [exact Hrun|]. split; [exact Hc|]. split; [exact Hn|].
  exists st'. split; [exact P|]. split; [exact M | exact R].
Defined.

(** ** The autoplay loop *)

(** Numbering the entry [video] refers to changes its title only. *)
Lemma renumbered_same_entry n l :
  entry_id (renumbered n l) = entry_id (video l) /\
  url (renumbered n l) = url (video l).
Proof.
  unfold renumbered. destruct (video_slot l); split; reflexivity.
Qed.

(** Falling back to the head of the list loop shows the list again or
    returns; it plays nothing, asks for no listing, and leaves the
    current video (its id and url), the index and the preferences
    alone. *)
Lemma loop_top_summary st :
  exists new,
    output (loop_top st) = (new ++ output st)%list /\
    forallb (fun o => negb (advances o)) new = true /\
    (control (loop_top st) = AtList /\ globals (loop_top st) = globals st \/
     control (loop_top st) = Returned /\
     globals (loop_top st) = page_reset (globals st)) /\
    (entry_id (video (locals (loop_top st))) = entry_id (video (locals st)) /\
     url (video (locals (loop_top st))) = url (video (locals st))) /\
    current_index (locals (loop_top st)) = current_index (locals st) /\
    autoplay_mode (locals (loop_top st)) = autoplay_mode (locals st) /\
    audio_only_mode (locals (loop_top st)) = audio_only_mode (locals st).
Proof.
  unfold loop_top, finish.
  destruct (search_results (locals st)) as [page|].
  - assert (V : forall b : bool,
               entry_id (if b then renumbered (List.length page) (locals st)
                         else video (locals st))
               = entry_id (video (locals st)) /\
               url (if b then renumbered (List.length page) (locals st)
                    else video (locals st))
               = url (video (locals st))).
    { intros [|]; [apply renumbered_same_entry | split; reflexivity]. }
    destruct ((ENABLE_PREVIEW (CONFIG (globals st)) =? "true")%string
              && (PREFERRED_SELECTOR (CONFIG (globals st)) =? "fzf")%string
              && negb (download_images (locals st))).
    + eexists [_; _]. cbn. repeat split; auto; apply V.
    + eexists [_]. cbn. repeat split; auto; apply V.
  - exists []. cbn. repeat split; auto.
Qed.

Lemma loop_top_leaves_autoplay st : in_autoplay (control (loop_top st)) = false.
Proof.
  destruct (loop_top_summary st) as (_ & _ & _ & [[C _]|[C _]] & _);
    rewrite C; reflexivity.
Qed.

(** C8: when the player returns a non-zero exit code, whatever the
    autoplay mode, the loop is left at once: the program prints the
    error, plays nothing more and asks for no further listing, keeps the
    current video (its id and url; its title is numbered again with the
    page when the list is shown) and the index, and is back in the
    session, either at the video list with the window untouched or
    returning to the main menu; it neither exits nor raises. *)
Theorem C8_player_failure_stops (st : State) (returncode : Z) :
  control st = AtPlayer ->
  returncode <> 0 ->
  exists st' new,
    step st (InPlayer (PlayerExit returncode)) = Some st' /\
    in_autoplay (control st') = false /\
    (control st' = AtList /\ globals st' = globals st \/
     control st' = Returned /\ globals st' = page_reset (globals st)) /\
    output st' = (new ++ output st)%list /\
    forallb (fun o => negb (advances o)) new = true /\
    In (OutPrint "Player exited with error. Stopping autoplay.") new /\
    entry_id (video (locals st')) = entry_id (video (locals st)) /\
    url (video (locals st')) = url (video (locals st)) /\
    current_index (locals st') = current_index (locals st) /\
    autoplay_mode (locals st') = autoplay_mode (locals st) /\
    (forall e, control st' <> Raised e) /\
    (forall code, control st' <> Exited code).
Proof.
  intros Hc Hrc. unfold step. rewrite Hc. unfold on_player.
  destruct (Z.eqb_spec returncode 0) as [E|_]; [contradiction|].
  cbn [negb].
  set (st1 := emit (OutPrint "Player exited with error. Stopping autoplay.")
                   st).
  destruct (loop_top_summary st1)
    as (new & Ho & Hf & Hg & [Hv Hu] & Hi & Hm & _).
  exists (loop_top st1),
         (new ++ [OutPrint "Player exited with error. Stopping autoplay."])%list.
  split; [reflexivity|].
  split; [apply loop_top_leaves_autoplay|].
  split; [exact Hg|].
  split; [rewrite Ho; subst st1; cbn; now rewrite <- app_assoc|].
  split; [rewrite forallb_app, Hf; reflexivity|].
  split; [apply in_or_app; right; left; reflexivity|].
  split; [exact Hv|]. split; [exact Hu|]. split; [exact Hi|].
  split; [exact Hm|].
  split; intros x Hx; destruct Hg as [[C _]|[C _]]; rewrite C in Hx;
    discriminate Hx.
Qed.

Lemma C8_player_failure_stops_witness :
  control playing_state = AtPlayer /\
  autoplay_mode (locals playing_state) = "playlist" /\
  1 <> 0 /\
  exists st' new,
    step playing_state (InPlayer (PlayerExit 1)) = Some st' /\
    in_autoplay (control st') = false /\
    output st' = (new ++ output playing_state)%list /\
    forallb (fun o => negb (advances o)) new = true.
Proof.
  assert (Hc : control playing_state = AtPlayer) by reflexivity.
  assert (Hrc : 1 <> 0) by discriminate.
  destruct (C8_player_failure_stops playing_state 1 Hc Hrc)
    as (st' & new & S & A & _ & O & F & _).
  split; [exact Hc|]. split; [reflexivity|]. split; [exact Hrc|].
  exists st', new. repeat split; assumption.
Defined.

(** The video played is the entry of the page itself: when the list is
    shown again after a failed playback, with previews off, line 447 has
    numbered its title once more. *)
Example failed_playback_numbers_video_again :
  exists st',
    step playing_state (InPlayer (PlayerExit 1)) = Some st' /\
    control st' = AtList /\
    title (video (locals playing_state)) = Some "01 Song A" /\
    title (video (locals st')) = Some "01 01 Song A" /\
    nth_error (entries (locals st')) 0 = Some (Some (video (locals st'))).
Proof. eexists. repeat split; reflexivity. Qed.

Lemma opt_eqb_eq a b : opt_eqb a b = true <-> a = b.
Proof.
  destruct a as [x|], b as [y|]; simpl; split; intros H;
    try discriminate; try reflexivity.
  - apply String.eqb_eq in H. now subst.
  - injection H as ->. apply String.eqb_refl.
Qed.

Lemma opt_eqb_neq a b : opt_eqb a b = false <-> a <> b.
Proof.
  split; intros H.
  - intros E. apply opt_eqb_eq in E. congruence.
  - destruct (opt_eqb a b) eqn:E; [|reflexivity].
    apply opt_eqb_eq in E. contradiction.
Qed.

(** Lines 597-603 pick the first entry with another id. *)
Lemma select_related_found vid_id mix e :
  select_related vid_id mix = RelatedFound e <-> first_other vid_id mix e.
Proof.
  split.
  - induction mix as [|[x|] r IH]; simpl; intros H; try discriminate.
    destruct (opt_eqb (entry_id x) vid_id) eqn:E; simpl in H.
    + destruct (IH H) as (before & after & -> & Hb & Hn).
      exists (Some x :: before), after. repeat split; auto.
      constructor; [|exact Hb]. exists x. split; [reflexivity|].
      now apply opt_eqb_eq.
    + injection H as ->. exists [], r. repeat split; auto.
      now apply opt_eqb_neq.
  - intros (before & after & -> & Hb & Hn).
    induction Hb as [|x before (y & -> & Hy) _ IH]; simpl.
    + apply opt_eqb_neq in Hn. now rewrite Hn.
    + apply opt_eqb_eq in Hy. rewrite Hy. simpl. exact IH.
Qed.

Lemma select_related_none vid_id mix :
  select_related vid_id mix = RelatedNone <-> Forall (is_current vid_id) mix.
Proof.
  split.
  - induction mix as [|[x|] r IH]; simpl; intros H; try discriminate.
    + constructor.
    + destruct (opt_eqb (entry_id x) vid_id) eqn:E; simpl in H;
        [|discriminate].
      constructor; [|auto]. exists x. split; [reflexivity|].
      now apply opt_eqb_eq.
  - induction 1 as [|x r (y & -> & Hy) _ IH]; simpl; [reflexivity|].
    apply opt_eqb_eq in Hy. now rewrite Hy.
Qed.

(** In a listing without holes that holds an entry with another id, an
    entry is selected. *)
Lemma select_related_total vid_id mix :
  Forall (fun x => x <> None) mix ->
  Exists (fun x => ~ is_current vid_id x) mix ->
  exists e, select_related vid_id mix = RelatedFound e.
Proof.
  induction 1 as [|[x|] r Hx Hr IH]; intros He.
  - inversion He.
  - simpl. destruct (opt_eqb (entry_id x) vid_id) eqn:E; simpl.
    + apply IH. inversion He as [? ? H|]; subst; [|assumption].
      exfalso. apply H. exists x. split; [reflexivity|].
      now apply opt_eqb_eq.
    + now exists x.
  - contradiction.
Qed.

(** C6: when the mix listing arrives in related mode, the entry selected
    and played next is the first entry of the listing whose id differs
    from the current one: every entry before it carries the current id,
    and its own id is not the current one, so the current video is never
    selected again. A listing without holes that holds an entry with
    another id always selects one. When no entry qualifies, or the
    listing cannot be read (a hole met in the listing included), the
    autoplay loop is left with a message and the current video (its id
    and url) is kept. *)
Theorem C6_related_selection (st : State) (r : MixResult) :
  control st = AtMix ->
  let vid_id := entry_id (video (locals st)) in
  exists st',
    step st (InMix r) = Some st' /\
    ((exists mix e,
         r = MixEntries mix /\ first_other vid_id mix e /\
         control st' = AtPlayer /\
         video (locals st') = e /\
         entry_id (video (locals st')) <> vid_id /\
         hd_error (output st')
         = Some (OutPlay (url e) (audio_only_mode (locals st))))
     \/
     ((forall mix e, r = MixEntries mix -> ~ first_other vid_id mix e) /\
      in_autoplay (control st') = false /\
      entry_id (video (locals st')) = vid_id /\
      url (video (locals st')) = url (video (locals st)) /\
      exists msg new,
        output st' = (new ++ OutPrint msg :: output st)%list /\
        forallb (fun o => negb (advances o)) new = true)) /\
    (forall mix,
        r = MixEntries mix ->
        Forall (fun x => x <> None) mix ->
        Exists (fun x => ~ is_current vid_id x) mix ->
        control st' = AtPlayer).
Proof.
  intros Hc vid_id. unfold step. rewrite Hc. eexists. split; [reflexivity|].
  assert (Hstop : forall msg,
             in_autoplay (control (loop_top (emit (OutPrint msg) st))) = false /\
             entry_id (video (locals (loop_top (emit (OutPrint msg) st))))
             = vid_id /\
             url (video (locals (loop_top (emit (OutPrint msg) st))))
             = url (video (locals st)) /\
             exists msg0 new,
               output (loop_top (emit (OutPrint msg) st))
               = (new ++ OutPrint msg0 :: output st)%list /\
               forallb (fun o => negb (advances o)) new = true).
  { intros msg.
    destruct (loop_top_summary (emit (OutPrint msg) st))
      as (new & Ho & Hf & _ & [Hv Hu] & _).
    split; [apply loop_top_leaves_autoplay|]. split; [exact Hv|].
    split; [exact Hu|].
    exists msg, new. split; assumption. }
  unfold on_mix. destruct r as [| |mix].
  - split; [right; split; [discriminate | apply Hstop] | discriminate].
  - split; [right; split; [discriminate | apply Hstop] | discriminate].
  - fold vid_id. destruct (select_related vid_id mix) as [e| |] eqn:S.
    + assert (F : first_other vid_id mix e) by now apply select_related_found.
      split; [|reflexivity].
      left. exists mix, e. repeat split; try assumption.
      destruct F as (_ & _ & _ & _ & Hn). exact Hn.
    + split.
      * right. split; [|apply Hstop].
        intros mix0 e0 E F. injection E as <-.
        apply select_related_found in F. congruence.
      * intros mix0 E Hw He. injection E as <-.
        destruct (select_related_total vid_id mix Hw He) as (e & Se).
        congruence.
    + split.
      * right. split; [|apply Hstop].
        intros mix0 e0 E F. injection E as <-.
        apply select_related_found in F. congruence.
      * intros mix0 E Hw He. injection E as <-.
        destruct (select_related_total vid_id mix Hw He) as (e & Se).
        congruence.
Qed.

Lemma C6_related_selection_witness :
  control mix_state = AtMix /\
  entry_id (video (locals mix_state)) = Some "idA" /\
  exists st',
    step mix_state (InMix (MixEntries [Some song_a; Some song_a; Some song_b]))
    = Some st' /\
    control st' = AtPlayer /\
    video (locals st') = song_b.
Proof.
  assert (Hc : control mix_state = AtMix) by reflexivity.
  destruct (C6_related_selection
              mix_state (MixEntries [Some song_a; Some song_a; Some song_b]) Hc)
    as (st' & S & _ & T).
  split; [exact Hc|]. split; [reflexivity|].
  exists st'. split; [exact S|].
  split.
  - apply (T [Some song_a; Some song_a; Some song_b]); [reflexivity| |].
    + repeat constructor; discriminate.
    + apply Exists_cons_tl, Exists_cons_tl, Exists_cons_hd.
      intros (e & E & I). injection E as <-. discriminate I.
  - vm_compute in S. injection S as <-. reflexivity.
Defined.

(** ** Relative upload time *)

(** C7: for a difference [d >= 0] in seconds the relative time is
    "just now" below 60, then whole minutes below 3600, whole hours below
    86400, whole days below 604800, whole weeks below 2635200, whole
    months below 31622400, and whole years from there on, each count an
    integer quotient; 5000 seconds give "1 hours ago". *)
Theorem C7_relative_time_buckets (d : Z) :
  0 <= d ->
  (d < 60 -> Preview.relative_time d = "just now") /\
  (60 <= d < 3600 ->
   Preview.relative_time d = Py.str (d / 60) ++ " minutes ago") /\
  (3600 <= d < 86400 ->
   Preview.relative_time d = Py.str (d / 3600) ++ " hours ago") /\
  (86400 <= d < 604800 ->
   Preview.relative_time d = Py.str (d / 86400) ++ " days ago") /\
  (604800 <= d < 2635200 ->
   Preview.relative_time d = Py.str (d / 604800) ++ " weeks ago") /\
  (2635200 <= d < 31622400 ->
   Preview.relative_time d = Py.str (d / 2635200) ++ " months ago") /\
  (31622400 <= d ->
   Preview.relative_time d = Py.str (d / 31622400) ++ " years ago") /\
  Preview.relative_time 5000 = "1 hours ago".
Proof.
  intros Hd. unfold Preview.relative_time.
  repeat split; try reflexivity; intros H;
    repeat match goal with
           | |- context [?a <? ?b] => destruct (Z.ltb_spec a b); try lia
           end; reflexivity.
Qed.

Lemma C7_relative_time_buckets_witness :
  0 <= 5000 /\ 3600 <= 5000 < 86400 /\
  Preview.relative_time 5000 = Py.str (5000 / 3600) ++ " hours ago" /\
  Py.str (5000 / 3600) = "1".
Proof.
  assert (H0 : 0 <= 5000) by lia.
  assert (H1 : 3600 <= 5000 < 86400) by lia.
  destruct (C7_relative_time_buckets 5000 H0) as (_ & _ & Hh & _).
  split; [exact H0|]. split; [exact H1|].
  split; [exact (Hh H1) | reflexivity].
Defined.

(** The string is empty without a timestamp; with one, the difference
    to the current time is bucketed. *)
Lemma timestamp_str_relative now ts :
  ts <> 0 ->
  Preview.timestamp_str now (Some ts) = Preview.relative_time (now - ts).
Proof.
  intros H. unfold Preview.timestamp_str.
  destruct (Z.eqb_spec ts 0); [contradiction | reflexivity].
Qed.

(** ** The key of a text artifact *)

Lemma after_digits_ordinal p b :
  forallb Py.isdigit (Py.chars p) = true ->
  Py.after_digits (p ++ String Py.SP b) = String Py.SP b.
Proof.
  induction p as [|c p IH]; simpl; intros H.
  - reflexivity.
  - apply andb_prop in H. destruct H as [Hc Hp]. rewrite Hc. now apply IH.
Qed.

(** Line 336 removes exactly the ordinal and the space after it. *)
Lemma strip_ordinal_prefixed p b :
  is_ordinal p -> Py.strip_ordinal (p ++ " " ++ b) = b.
Proof.
  intros [Hne Hd]. destruct p as [|c p]; [contradiction|].
  change (String c p ++ " " ++ b) with (String c (p ++ String Py.SP b)).
  unfold Py.strip_ordinal.
  simpl in Hd. apply andb_prop in Hd. destruct Hd as [Hc Hp].
  rewrite Hc.
  change (String c (p ++ String Py.SP b)) with (String c p ++ String Py.SP b).
  rewrite after_digits_ordinal; [reflexivity|].
  simpl. now rewrite Hc, Hp.
Qed.

Lemma strip_ordinal_plain t :
  starts_with_digit t = false -> Py.strip_ordinal t = t.
Proof.
  destruct t as [|c t]; simpl; intros H; [reflexivity|]. now rewrite H.
Qed.

Lemma replace_newlines_differ s1 s2 :
  differ_by_newlines s1 s2 ->
  Py.replace_newlines s1 = Py.replace_newlines s2.
Proof.
  induction 1 as [|c s1 s2 _ IH|s1 s2 _ IH|s1 s2 _ IH]; simpl.
  - reflexivity.
  - now rewrite IH.
  - now rewrite IH.
  - now rewrite IH.
Qed.

Lemma after_digits_split t :
  exists p,
    forallb Py.isdigit (Py.chars p) = true /\ t = p ++ Py.after_digits t.
Proof.
  induction t as [|c r (p & Hp & E)].
  - exists "". split; reflexivity.
  - cbn [Py.after_digits]. destruct (Py.isdigit c) eqn:Hc.
    + exists (String c p). split.
      * cbn [Py.chars forallb]. now rewrite Hc, Hp.
      * cbn [append]. now rewrite <- E.
    + exists "". split; reflexivity.
Qed.

Lemma after_digits_stop p c r :
  forallb Py.isdigit (Py.chars p) = true -> Py.isdigit c = false ->
  Py.after_digits (p ++ String c r) = String c r.
Proof.
  induction p as [|d p IH]; cbn [append Py.chars forallb Py.after_digits];
    intros H Hc.
  - now rewrite Hc.
  - apply andb_prop in H. destruct H as [Hd Hp]. rewrite Hd. now apply IH.
Qed.

Lemma strip_ordinal_cases t :
  Py.strip_ordinal t
  = if has_ordinal t then Py.drop 1 (Py.after_digits t) else t.
Proof.
  unfold Py.strip_ordinal, has_ordinal, starts_with_digit.
  destruct t as [|c r]; [reflexivity|].
  destruct (Py.isdigit c); [|reflexivity]. cbn [andb].
  destruct (Py.after_digits (String c r)) as [|d rest]; [reflexivity|].
  destruct (Ascii.eqb d Py.SP); reflexivity.
Qed.

Lemma has_ordinal_numbered t : has_ordinal t = true <-> numbered t.
Proof.
  split.
  - unfold has_ordinal. intros H. apply andb_prop in H. destruct H as [Hs Ha].
    destruct (after_digits_split t) as (p & Hp & E).
    destruct (Py.after_digits t) as [|d rest]; [discriminate Ha|].
    apply Ascii.eqb_eq in Ha. subst d.
    exists p, rest. split; [split; [|exact Hp] | exact E].
    intros ->. rewrite E in Hs. discriminate Hs.
  - intros (p & body & [Hne Hd] & ->). unfold has_ordinal.
    change (p ++ " " ++ body) with (p ++ String Py.SP body).
    rewrite (after_digits_ordinal p body Hd), Ascii.eqb_refl, andb_true_r.
    destruct p as [|c p]; [contradiction|].
    cbn [Py.chars forallb] in Hd. apply andb_prop in Hd. exact (proj1 Hd).
Qed.

Lemma numbered_iff_has_ordinal b1 b2 :
  (numbered b1 <-> numbered b2) <-> has_ordinal b1 = has_ordinal b2.
Proof.
  rewrite <- !has_ordinal_numbered.
  destruct (has_ordinal b1), (has_ordinal b2); intuition congruence.
Qed.

Lemma differ_length s1 s2 :
  differ_by_newlines s1 s2 -> String.length s1 = String.length s2.
Proof. induction 1; cbn [String.length]; congruence. Qed.

Lemma differ_after_digits s1 s2 :
  differ_by_newlines s1 s2 ->
  differ_by_newlines (Py.after_digits s1) (Py.after_digits s2) /\
  starts_with_digit s1 = starts_with_digit s2.
Proof.
  induction 1 as [|c s1 s2 H [IH _]|s1 s2 H _|s1 s2 H _].
  - split; [constructor | reflexivity].
  - cbn [Py.after_digits starts_with_digit]. split; [|reflexivity].
    destruct (Py.isdigit c); [exact IH | now constructor].
  - split; [now constructor | reflexivity].
  - split; [now constructor | reflexivity].
Qed.

Lemma replace_newlines_length s :
  String.length (Py.replace_newlines s) = String.length s.
Proof. induction s; cbn [Py.replace_newlines String.length]; congruence. Qed.

Lemma after_digits_length s :
  (String.length (Py.after_digits s) <= String.length s)%nat.
Proof.
  induction s as [|c s IH]; cbn [Py.after_digits]; [lia|].
  destruct (Py.isdigit c); cbn [String.length]; lia.
Qed.

(** Line 336 shortens exactly the titles that begin with an ordinal. *)
Lemma clean_title_length t :
  if has_ordinal t
  then (String.length (Preview.clean_title t) < String.length t)%nat
  else String.length (Preview.clean_title t) = String.length t.
Proof.
  unfold Preview.clean_title.
  rewrite replace_newlines_length, strip_ordinal_cases.
  destruct (has_ordinal t) eqn:H; [|reflexivity].
  unfold has_ordinal in H. apply andb_prop in H. destruct H as [_ H].
  pose proof (after_digits_length t) as L.
  destruct (Py.after_digits t) as [|d rest]; [discriminate H|].
  cbn [Py.drop String.length] in *. lia.
Qed.

(** A newline for a space leaves the cleaned title alone when both
    titles, or neither, begin with an ordinal. *)
Lemma clean_title_differ b1 b2 :
  differ_by_newlines b1 b2 -> has_ordinal b1 = has_ordinal b2 ->
  Preview.clean_title b1 = Preview.clean_title b2.
Proof.
  intros Hb Ho. unfold Preview.clean_title.
  rewrite !strip_ordinal_cases, <- Ho.
  destruct (has_ordinal b1) eqn:H1; [|now apply replace_newlines_differ].
  symmetry in Ho. unfold has_ordinal in H1, Ho.
  apply andb_prop in H1. destruct H1 as [_ H1].
  apply andb_prop in Ho. destruct Ho as [_ H2].
  destruct (differ_after_digits b1 b2 Hb) as [D _].
  destruct (Py.after_digits b1) as [|d1 r1]; [discriminate H1|].
  destruct (Py.after_digits b2) as [|d2 r2]; [discriminate H2|].
  cbn [Py.drop]. apply replace_newlines_differ.
  inversion D; subst; try assumption; discriminate.
Qed.

Lemma differ_prefix p : forall x s2,
  forallb Py.isdigit (Py.chars p) = true ->
  differ_by_newlines (p ++ x) s2 ->
  exists x', s2 = p ++ x' /\ differ_by_newlines x x'.
Proof.
  induction p as [|c p IH]; intros x s2 Hp H.
  - exists s2. split; [reflexivity | exact H].
  - cbn [Py.chars forallb] in Hp. apply andb_prop in Hp.
    destruct Hp as [Hc Hp]. cbn [append] in H.
    inversion H as [|c' a b Hab|a b Hab|a b Hab]; subst.
    + destruct (IH x b Hp Hab) as (x' & -> & Hx).
      exists x'. split; [reflexivity | exact Hx].
    + discriminate Hc.
    + discriminate Hc.
Qed.

Lemma differ_by_newlines_sym s1 s2 :
  differ_by_newlines s1 s2 -> differ_by_newlines s2 s1.
Proof. induction 1; now constructor. Qed.

(** Two titles that differ only by newlines versus spaces disagree on
    beginning with an ordinal exactly when one has a newline and the
    other a space right after their leading digits. *)
Lemma has_ordinal_differ b1 b2 :
  differ_by_newlines b1 b2 ->
  has_ordinal b1 = false -> has_ordinal b2 = true ->
  newline_after_digits b1 b2.
Proof.
  intros Hb H1 H2.
  apply has_ordinal_numbered in H2. destruct H2 as (p & r2 & Hp & ->).
  destruct (differ_prefix p (" " ++ r2) b1 (proj2 Hp)
                          (differ_by_newlines_sym _ _ Hb)) as (x & -> & Hx).
  change (" " ++ r2) with (String Py.SP r2) in Hx.
  inversion Hx as [|c a b Hab|a b Hab|a b Hab]; subst.
  - exfalso. assert (N : numbered (p ++ String Py.SP b)).
    { exists p, b. split; [exact Hp | reflexivity]. }
    apply has_ordinal_numbered in N. congruence.
  - exists p, b, r2. split; [exact Hp|]. split; reflexivity.
Qed.

Lemma newline_after_digits_ordinal b1 b2 :
  newline_after_digits b1 b2 ->
  has_ordinal b1 = false /\ has_ordinal b2 = true.
Proof.
  intros (p & r1 & r2 & Hp & -> & ->). split.
  - unfold has_ordinal.
    rewrite (after_digits_stop p Py.LF r1 (proj2 Hp) eq_refl).
    apply andb_false_r.
  - apply has_ordinal_numbered. exists p, r2. split; [exact Hp | reflexivity].
Qed.

(** C4, as the specification states it, fails in two ways, both for
    titles that begin with digits. Line 336 strips the ordinal before
    it replaces newlines, so of two titles that differ only by a newline
    versus a space right after leading digits, one keeps its digits and
    the other loses them (titles of a direct call: the explorer replaces
    newlines before it hashes). And a title that itself begins with
    digits and a space keeps them under the ordinal the explorer puts in
    front: the entries titled "Intro" and "01 Intro" are hashed as
    "01 Intro" and "01 01 Intro", two titles that differ only by a
    leading ordinal, under different keys. *)
Lemma C4_leading_digits_change_key :
  let t1 := String "1" (String Py.LF "A") in
  let t2 := "1 A" in
  let intro := set_title song_a "Intro" in
  let track := set_title song_a "01 Intro" in
  (differ_by_newlines t1 t2 /\
   Preview.clean_title t1 = "1 A" /\
   Preview.clean_title t2 = "A" /\
   Preview.filename_hash t1 <> Preview.filename_hash t2) /\
  (annotated_titles (annotate [Some intro]) = ["01 Intro"] /\
   annotated_titles (annotate [Some track]) = ["01 01 Intro"] /\
   is_ordinal "01" /\
   "01 01 Intro" = "01" ++ " " ++ "01 Intro" /\
   Preview.clean_title "01 Intro" = "Intro" /\
   Preview.clean_title "01 01 Intro" = "01 Intro" /\
   Preview.filename_hash "01 Intro" <> Preview.filename_hash "01 01 Intro").
Proof.
  cbv zeta. split.
  - split; [apply dn_same, dn_nl_sp, dn_same, dn_nil|].
    split; [reflexivity|]. split; [reflexivity|].
    intros H. vm_compute in H. discriminate H.
  - split; [reflexivity|]. split; [reflexivity|].
    split; [split; [discriminate | reflexivity]|].
    split; [reflexivity|]. split; [reflexivity|]. split; [reflexivity|].
    intros H. vm_compute in H. discriminate H.
Qed.

(** C4 (amended): the key is a function of the title, and for two
    bodies that differ only by newlines versus spaces:
    - with an ordinal (digits, then a space) in front of each, whatever
      the ordinals, the cleaned titles and the keys are the same;
    - by themselves they have the same key when both or neither begin
      with an ordinal, and different cleaned titles otherwise, which is
      exactly when one has a newline and the other a space right after
      the same leading digits;
    - a body has the key of the same body with an ordinal in front when
      it does not itself begin with an ordinal, and another cleaned
      title when it does. *)
Theorem C4_key_normalization_stable (p1 p2 b1 b2 : string) :
  is_ordinal p1 ->
  is_ordinal p2 ->
  differ_by_newlines b1 b2 ->
  Preview.clean_title (p1 ++ " " ++ b1) = Preview.clean_title (p2 ++ " " ++ b2) /\
  Preview.filename_hash (p1 ++ " " ++ b1)
  = Preview.filename_hash (p2 ++ " " ++ b2) /\
  ((numbered b1 <-> numbered b2) ->
   Preview.filename_hash b1 = Preview.filename_hash b2) /\
  (~ (numbered b1 <-> numbered b2) ->
   Preview.clean_title b1 <> Preview.clean_title b2) /\
  (~ (numbered b1 <-> numbered b2) <->
   newline_after_digits b1 b2 \/ newline_after_digits b2 b1) /\
  (~ numbered b1 ->
   Preview.filename_hash b1 = Preview.filename_hash (p1 ++ " " ++ b1) /\
   Preview.filename_hash b1 = Preview.filename_hash (p2 ++ " " ++ b2)) /\
  (numbered b1 ->
   Preview.clean_title b1 <> Preview.clean_title (p1 ++ " " ++ b1)).
Proof.
  intros H1 H2 Hb.
  assert (E : Preview.clean_title (p1 ++ " " ++ b1)
              = Preview.clean_title (p2 ++ " " ++ b2)).
  { unfold Preview.clean_title.
    rewrite (strip_ordinal_prefixed p1 b1 H1), (strip_ordinal_prefixed p2 b2 H2).
    now apply replace_newlines_differ. }
  assert (L : forall p b, is_ordinal p ->
                String.length (Preview.clean_title (p ++ " " ++ b))
                = String.length b).
  { intros p b Hp. unfold Preview.clean_title.
    rewrite (strip_ordinal_prefixed p b Hp). apply replace_newlines_length. }
  assert (D : has_ordinal b1 <> has_ordinal b2 ->
              Preview.clean_title b1 <> Preview.clean_title b2).
  { intros N Ec. apply (f_equal String.length) in Ec.
    pose proof (clean_title_length b1) as L1.
    pose proof (clean_title_length b2) as L2.
    pose proof (differ_length b1 b2 Hb) as Lb.
    destruct (has_ordinal b1), (has_ordinal b2); try congruence; lia. }
  split; [exact E|]. split; [unfold Preview.filename_hash; now rewrite E|].
  split; [|split; [|split; [|split]]].
  - intros I. apply numbered_iff_has_ordinal in I.
    unfold Preview.filename_hash. now rewrite (clean_title_differ b1 b2 Hb I).
  - intros N. apply D. intros I. apply N. now apply numbered_iff_has_ordinal.
  - rewrite numbered_iff_has_ordinal. split.
    + intros N. destruct (has_ordinal b1) eqn:O1, (has_ordinal b2) eqn:O2;
        try (exfalso; apply N; reflexivity).
      * right. apply has_ordinal_differ;
          [apply differ_by_newlines_sym, Hb | exact O2 | exact O1].
      * left. now apply has_ordinal_differ.
    + intros [N|N]; apply newline_after_digits_ordinal in N;
        destruct N as [A B]; rewrite A, B; discriminate.
  - intros N.
    assert (O : has_ordinal b1 = false).
    { destruct (has_ordinal b1) eqn:O; [|reflexivity].
      exfalso. apply N. now apply has_ordinal_numbered. }
    assert (C : Preview.clean_title b1 = Preview.clean_title (p1 ++ " " ++ b1)).
    { unfold Preview.clean_title.
      rewrite (strip_ordinal_prefixed p1 b1 H1), strip_ordinal_cases, O.
      reflexivity. }
    unfold Preview.filename_hash. rewrite <- E, <- C. split; reflexivity.
  - intros N Ec. apply has_ordinal_numbered in N.
    apply (f_equal String.length) in Ec. rewrite (L p1 b1 H1) in Ec.
    pose proof (clean_title_length b1) as L1. rewrite N in L1. lia.
Qed.

Lemma differ_by_newlines_refl s : differ_by_newlines s s.
Proof. induction s; constructor; assumption. Qed.

(** Two numbered titles with the same text after their ordinals share
    one text artifact. *)
Lemma ordinal_prefix_same_key t1 t2 :
  differ_by_ordinal t1 t2 ->
  Preview.filename_hash t1 = Preview.filename_hash t2.
Proof.
  intros (p1 & p2 & body & H1 & H2 & -> & ->).
  unfold Preview.filename_hash, Preview.clean_title.
  now rewrite (strip_ordinal_prefixed p1 body H1),
    (strip_ordinal_prefixed p2 body H2).
Qed.

Lemma C4_key_normalization_stable_witness :
  is_ordinal "01" /\ is_ordinal "17" /\
  differ_by_newlines "3D Movie" (String "3" (String "D" (String Py.LF "Movie"))) /\
  ~ numbered "3D Movie" /\
  Preview.filename_hash "01 3D Movie"
  = Preview.filename_hash
      ("17 " ++ String "3" (String "D" (String Py.LF "Movie"))) /\
  Preview.filename_hash "3D Movie"
  = Preview.filename_hash (String "3" (String "D" (String Py.LF "Movie"))) /\
  Preview.filename_hash "3D Movie" = Preview.filename_hash "01 3D Movie" /\
  Preview.filename_hash "01 Song A"
  = "7fafe396b822015bdeead995a3fcbe3614ba7bb54a325b50069d3de7a57d414a".
Proof.
  assert (H1 : is_ordinal "01") by (split; [discriminate | reflexivity]).
  assert (H2 : is_ordinal "17") by (split; [discriminate | reflexivity]).
  assert (Hb : differ_by_newlines
                 "3D Movie" (String "3" (String "D" (String Py.LF "Movie")))).
  { do 2 apply dn_same. apply dn_sp_nl. apply differ_by_newlines_refl. }
  assert (N1 : ~ numbered "3D Movie").
  { intros N. apply has_ordinal_numbered in N. discriminate N. }
  assert (N2 : ~ numbered (String "3" (String "D" (String Py.LF "Movie")))).
  { intros N. apply has_ordinal_numbered in N. discriminate N. }
  destruct (C4_key_normalization_stable
              "01" "17" "3D Movie"
              (String "3" (String "D" (String Py.LF "Movie"))) H1 H2 Hb)
    as (_ & K & S & _ & _ & P & _).
  split; [exact H1|]. split; [exact H2|]. split; [exact Hb|].
  split; [exact N1|]. split; [exact K|].
  split; [apply S; split; intros N; contradiction|].
  split; [exact (proj1 (P N1))|]. vm_compute. reflexivity.
Defined.

Example same_song_same_key :
  Preview.filename_hash "01 Song A" = Preview.filename_hash "17 Song A".
Proof. reflexivity. Qed.

(** ** Strings: stripping and lines *)

Lemma of_chars_chars s : Py.of_chars (Py.chars s) = s.
Proof. induction s as [|c s IH]; simpl; [reflexivity | now rewrite IH]. Qed.

Lemma chars_of_chars l : Py.chars (Py.of_chars l) = l.
Proof. induction l as [|c l IH]; simpl; [reflexivity | now rewrite IH]. Qed.

Lemma append_assoc (s t u : string) : (s ++ t) ++ u = s ++ (t ++ u).
Proof. induction s as [|c s IH]; simpl; [reflexivity | now rewrite IH]. Qed.

Lemma drop_space_idem l : Py.drop_space (Py.drop_space l) = Py.drop_space l.
Proof.
  induction l as [|c l IH]; simpl; [reflexivity|].
  destruct (Py.isspace c) eqn:E; [exact IH | simpl; now rewrite E].
Qed.

Lemma drop_space_snoc l c :
  Py.isspace c = false ->
  Py.drop_space (l ++ [c]) = (Py.drop_space l ++ [c])%list.
Proof.
  intros Hc. induction l as [|d l IH]; simpl.
  - now rewrite Hc.
  - destruct (Py.isspace d); [exact IH | reflexivity].
Qed.

(** What [strip] returns has no space at either end. *)
Lemma strip_ends l :
  let t := rev (Py.drop_space (rev (Py.drop_space l))) in
  Py.drop_space t = t /\ Py.drop_space (rev t) = rev t.
Proof.
  cbv zeta. split.
  - destruct (Py.drop_space l) as [|c u] eqn:E; [reflexivity|].
    assert (Hc : Py.isspace c = false).
    { pose proof (drop_space_idem l) as H. rewrite E in H. simpl in H.
      destruct (Py.isspace c); [|reflexivity].
      exfalso. assert (L : List.length (Py.drop_space u) = S (List.length u))
        by now rewrite H.
      clear -L. revert L.
      assert (G : forall v, (List.length (Py.drop_space v) <= List.length v)%nat).
      { induction v as [|d v IH]; simpl; [lia|].
        destruct (Py.isspace d); simpl; lia. }
      specialize (G u). lia. }
    change (rev (c :: u)) with (rev u ++ [c])%list.
    rewrite (drop_space_snoc _ _ Hc), rev_app_distr. simpl. now rewrite Hc.
  - rewrite rev_involutive. apply drop_space_idem.
Qed.

Lemma strip_idem s : Py.strip (Py.strip s) = Py.strip s.
Proof.
  unfold Py.strip at 1.
  destruct (strip_ends (Py.chars s)) as [H1 H2].
  unfold Py.strip. rewrite chars_of_chars.
  rewrite H1, H2, rev_involutive. reflexivity.
Qed.

Lemma forallb_drop_space (p : ascii -> bool) l :
  forallb p l = true -> forallb p (Py.drop_space l) = true.
Proof.
  induction l as [|c l IH]; simpl; intros H; [reflexivity|].
  apply andb_prop in H. destruct H as [Hc Hl].
  destruct (Py.isspace c); [auto | simpl; now rewrite Hc, Hl].
Qed.

Lemma forallb_rev_true (p : ascii -> bool) l :
  forallb p l = true -> forallb p (rev l) = true.
Proof.
  rewrite !forallb_forall. intros H x Hx. apply H. now apply in_rev.
Qed.

Lemma one_line_strip s : one_line s -> one_line (Py.strip s).
Proof.
  unfold one_line, Py.strip. intros H. rewrite chars_of_chars.
  now apply forallb_rev_true, forallb_drop_space, forallb_rev_true,
    forallb_drop_space.
Qed.

Lemma split_lines_not_nil s : History.split_lines s <> [].
Proof.
  destruct s as [|c s]; simpl; [discriminate|].
  destruct (History.is_break c); [discriminate|].
  destruct (History.split_lines s); discriminate.
Qed.

Lemma split_lines_one_line s : Forall one_line (History.split_lines s).
Proof.
  induction s as [|c s IH]; simpl.
  - repeat constructor.
  - destruct (History.is_break c) eqn:E.
    + constructor; [reflexivity | exact IH].
    + destruct (History.split_lines s) as [|l ls].
      * repeat constructor. unfold one_line. simpl. now rewrite E.
      * inversion IH as [|? ? Hl Hls]; subst. constructor; [|exact Hls].
        unfold one_line in *. simpl. now rewrite E, Hl.
Qed.

(** A line, a line feed, then the rest: the line is the first piece. *)
Lemma split_lines_line x rest :
  one_line x ->
  History.split_lines (x ++ String Py.LF rest)
  = x :: History.split_lines rest.
Proof.
  unfold one_line. induction x as [|c x IH]; simpl; intros H.
  - reflexivity.
  - apply andb_prop in H. destruct H as [Hc Hx].
    apply negb_true_iff in Hc. rewrite Hc. now rewrite (IH Hx).
Qed.

Lemma write_lines_one x : History.write_lines [x] = x ++ String Py.LF "".
Proof. reflexivity. Qed.

Lemma write_lines_cons x y ls :
  History.write_lines (x :: y :: ls)
  = x ++ String Py.LF (History.write_lines (y :: ls)).
Proof.
  unfold History.write_lines.
  change (String.concat (String Py.LF "") (x :: y :: ls))
    with (x ++ String Py.LF "" ++ String.concat (String Py.LF "") (y :: ls)).
  rewrite append_assoc. reflexivity.
Qed.

Lemma split_lines_write ls :
  Forall one_line ls -> ls <> [] ->
  History.split_lines (History.write_lines ls) = (ls ++ [""])%list.
Proof.
  induction ls as [|x ls IH]; intros Hl Hne; [contradiction|].
  inversion Hl as [|? ? Hx Hls]; subst.
  destruct ls as [|y ls].
  - rewrite write_lines_one. now rewrite split_lines_line.
  - rewrite write_lines_cons, split_lines_line by exact Hx.
    rewrite IH by (assumption || discriminate). reflexivity.
Qed.

(** ** Search history *)

(** The lines read from any file are clean terms. *)
Lemma stored_lines_clean content :
  Forall clean_term (History.stored_lines content).
Proof.
  unfold History.stored_lines. apply Forall_forall. intros l Hl.
  apply filter_In in Hl. destruct Hl as [Hin Hne].
  apply in_map_iff in Hin. destruct Hin as (piece & <- & Hp).
  repeat split.
  - apply strip_idem.
  - unfold History.nonempty in Hne. apply negb_true_iff in Hne.
    now apply String.eqb_neq in Hne.
  - apply one_line_strip.
    pose proof (split_lines_one_line content) as H.
    rewrite Forall_forall in H. now apply H.
Qed.

Lemma strip_clean_lines ls :
  Forall clean_term ls ->
  filter History.nonempty (map Py.strip ls) = ls.
Proof.
  induction 1 as [|y r (Hs & Hn & _) _ IH]; simpl; [reflexivity|].
  rewrite Hs. unfold History.nonempty at 1.
  apply String.eqb_neq in Hn. rewrite Hn. simpl. now rewrite IH.
Qed.

(** Clean lines are read back as they were written. *)
Lemma stored_lines_write ls :
  Forall clean_term ls ->
  History.stored_lines (History.write_lines ls) = ls.
Proof.
  intros H. destruct ls as [|x ls]; [reflexivity|].
  unfold History.stored_lines.
  rewrite split_lines_write.
  - rewrite map_app, filter_app, (strip_clean_lines _ H).
    change (filter History.nonempty (map Py.strip [""])) with (@nil string).
    apply app_nil_r.
  - eapply Forall_impl; [|exact H]. intros a (_ & _ & Ha). exact Ha.
  - discriminate.
Qed.

Lemma updated_lines_clean file term :
  clean_term term -> Forall clean_term (History.updated_lines file term).
Proof.
  intros Ht. unfold History.updated_lines. apply Forall_app. split.
  - destruct file as [content|]; [|constructor].
    apply Forall_forall. intros l Hl. apply filter_In in Hl.
    destruct Hl as [Hl _].
    pose proof (stored_lines_clean content) as H.
    rewrite Forall_forall in H. now apply H.
  - repeat constructor; apply Ht.
Qed.

(** Lines 673-681 on the history held by the file: the entries equal to
    the term are removed and the term is put last. *)
Lemma entries_after_update file term :
  clean_term term ->
  History.entries (History.update_history "true" file term)
  = (filter (fun l => negb (String.eqb l term)) (History.entries file)
     ++ [term])%list.
Proof.
  intros Ht. unfold History.update_history. simpl.
  rewrite stored_lines_write by now apply updated_lines_clean.
  unfold History.updated_lines, History.entries.
  destruct file; reflexivity.
Qed.

Lemma not_in_filter_neq term l :
  ~ In term (filter (fun x => negb (String.eqb x term)) l).
Proof.
  intros H. apply filter_In in H. destruct H as [_ H].
  rewrite String.eqb_refl in H. discriminate H.
Qed.

Lemma filter_neq_id term l :
  ~ In term l -> filter (fun x => negb (String.eqb x term)) l = l.
Proof.
  induction l as [|x l IH]; simpl; intros H; [reflexivity|].
  destruct (String.eqb_spec x term) as [E|N]; simpl.
  - exfalso. apply H. now left.
  - rewrite IH; [reflexivity|]. intros Hin. apply H. now right.
Qed.

Lemma last_n_length {A} k (l : list A) :
  (List.length (Py.last_n k l) <= k)%nat.
Proof. unfold Py.last_n. rewrite length_skipn. lia. Qed.

Lemma last_n_snoc {A} k (l : list A) x :
  exists keep, Py.last_n (S k) (l ++ [x]) = (keep ++ [x])%list /\
               keep = Py.last_n k l.
Proof.
  unfold Py.last_n. exists (skipn (List.length l - k) l). split; [|reflexivity].
  rewrite length_app. simpl.
  replace (List.length l + 1 - S k)%nat with (List.length l - k)%nat by lia.
  rewrite skipn_app.
  replace (List.length l - k - List.length l)%nat with 0%nat by lia.
  reflexivity.
Qed.

(** C2, as the specification states it, fails on the cap: the update of
    lines 673-681 writes every remaining line back and truncates
    nothing, so an eleventh distinct term leaves eleven entries in the
    file. *)
Lemma C2_history_outgrows_ten :
  let file := Some (History.write_lines
                      ["a"; "b"; "c"; "d"; "e"; "f"; "g"; "h"; "i"; "j"]) in
  let file' := History.update_history "true" file "k" in
  List.length (History.entries file) = 10%nat /\
  History.entries file'
  = ["a"; "b"; "c"; "d"; "e"; "f"; "g"; "h"; "i"; "j"; "k"] /\
  ~ (List.length (History.entries file') <= 10)%nat.
Proof.
  cbv zeta. split; [reflexivity|]. split; [reflexivity|].
  intros H. vm_compute in H. lia.
Qed.

(** C2 (amended): after the history update of a search whose term is a
    stripped, non-empty single line (as the prompt returns it), the
    persisted history is the former one without the entries equal to
    the term, followed by the term: the term is last and occurs once, a
    history without duplicates stays without duplicates, and nothing is
    dropped from the file (a new term makes it one entry longer, beyond
    ten too). The limit of ten is applied by the prompt only: it shows
    the last ten entries of the file, most recent first, the older ones
    left out. *)
Theorem C2_history_update (file : option string) (search_term : string) :
  clean_term search_term ->
  let old := History.entries file in
  let file' := History.update_history "true" file search_term in
  let new := History.entries file' in
  new = (filter (fun l => negb (String.eqb l search_term)) old
         ++ [search_term])%list /\
  last new "" = search_term /\
  count_occ string_dec new search_term = 1%nat /\
  (NoDup old -> NoDup new) /\
  (~ In search_term old -> List.length new = S (List.length old)) /\
  (exists content,
      file' = Some content /\
      History.prompt_history content = rev (Py.last_n 10 new) /\
      (List.length (History.prompt_history content) <= 10)%nat /\
      hd_error (History.prompt_history content) = Some search_term).
Proof.
  intros Ht old file' new.
  assert (E : new = (filter (fun l => negb (String.eqb l search_term)) old
                     ++ [search_term])%list)
    by now apply entries_after_update.
  split; [exact E|]. split; [|split; [|split; [|split]]].
  - rewrite E. apply last_last.
  - rewrite E, count_occ_app.
    pose proof (not_in_filter_neq search_term old) as Hn.
    apply (count_occ_not_In string_dec) in Hn. rewrite Hn. simpl.
    destruct (string_dec search_term search_term); [reflexivity | contradiction].
  - intros Hold. rewrite E. apply NoDup_app.
    + now apply NoDup_filter.
    + repeat constructor. intros [].
    + intros a Ha [Hb|[]]. subst a.
      now apply (not_in_filter_neq search_term old).
  - intros Hnew. rewrite E, (filter_neq_id _ _ Hnew), length_app. simpl. lia.
  - exists (History.write_lines (History.updated_lines file search_term)).
    split; [reflexivity|].
    assert (P : History.prompt_history
                  (History.write_lines
                     (History.updated_lines file search_term))
                = rev (Py.last_n 10 new)) by reflexivity.
    split; [exact P|]. rewrite P. split.
    + rewrite length_rev. apply last_n_length.
    + rewrite E.
      destruct (last_n_snoc 9 (filter (fun l => negb (String.eqb l search_term)) old)
                            search_term) as (keep & K & _).
      rewrite K, rev_app_distr. reflexivity.
Qed.

Lemma C2_history_update_witness :
  let file := Some (History.write_lines ["cats"; "dogs"; "birds"]) in
  let file' := History.update_history "true" file "cats" in
  clean_term "cats" /\
  NoDup (History.entries file) /\
  History.entries file' = ["dogs"; "birds"; "cats"] /\
  NoDup (History.entries file') /\
  last (History.entries file') "" = "cats".
Proof.
  cbv zeta.
  assert (Ht : clean_term "cats").
  { split; [reflexivity|]. split; [discriminate | reflexivity]. }
  assert (Hold : NoDup (History.entries
                          (Some (History.write_lines ["cats"; "dogs"; "birds"])))).
  { change (NoDup ["cats"; "dogs"; "birds"]).
    repeat constructor; simpl; intros H;
      repeat (destruct H as [H|H]; try discriminate H); exact H. }
  destruct (C2_history_update
              (Some (History.write_lines ["cats"; "dogs"; "birds"])) "cats" Ht)
    as (E & L & _ & N & _).
  split; [exact Ht|]. split; [exact Hold|]. split; [exact E|].
  split; [exact (N Hold) | exact L].
Defined.

(** Along any sequence of searches with clean terms, starting from a
    history without duplicates (an absent file for one), the history
    never holds two identical entries. *)
Lemma search_all_no_duplicates terms : forall file,
  Forall clean_term terms ->
  NoDup (History.entries file) ->
  NoDup (History.entries (search_all terms file)).
Proof.
  induction terms as [|t terms IH]; intros file Ht Hf; simpl; [exact Hf|].
  inversion Ht as [|? ? H1 H2]; subst.
  apply IH; [exact H2|].
  rewrite entries_after_update by exact H1.
  apply NoDup_app.
  - now apply NoDup_filter.
  - repeat constructor. intros [].
  - intros a Ha [Hb|[]]. subst a. now apply (not_in_filter_neq t (History.entries file)).
Qed.

(** The term must be stripped for the removal of line 678 to find its
    earlier entry: a term given with a leading space is written next to
    it, and both read back as the same text. *)
Example unstripped_term_is_not_deduplicated :
  History.entries
    (History.update_history "true" (Some (History.write_lines ["cats"]))
                            " cats")
  = ["cats"; "cats"].
Proof. reflexivity. Qed.

(* ================================================================== *)
(** * Part III: further properties of the code *)
(* ================================================================== *)

(** ** The listings requested *)

Lemma step_fetches_pages P st i st' :
  0 <= P ->
  window_kept P st /\ Forall (fetch_ok P) (output st) ->
  step st i = Some st' ->
  window_kept P st' /\ Forall (fetch_ok P) (output st').
Proof.
  intros HP [HW HF] Hstep.
  split; [exact (step_window_kept P st i st' HP HW Hstep)|].
  unfold step in Hstep.
  destruct (control st), i; try discriminate;
    injection Hstep as <-; unfold_transitions;
    repeat break_match; simpl; fetch_arith.
Qed.

Lemma run_fetches_pages P inputs : forall st st',
  0 <= P ->
  window_kept P st /\ Forall (fetch_ok P) (output st) ->
  run st inputs = Some st' ->
  window_kept P st' /\ Forall (fetch_ok P) (output st').
Proof.
  induction inputs as [|i rest IH]; simpl; intros st st' HP H Hrun.
  - now injection Hrun as <-.
  - destruct (step st i) as [st1|] eqn:Hs; [|discriminate].
    apply (IH st1 st' HP); [|exact Hrun].
    now apply (step_fetches_pages P st i).
Qed.

(** Every listing a run asks the metadata tool for is one page: its
    window [start, end] has [start >= 1] and spans the page size. *)
Theorem fetches_are_pages
        (c : Config) (results : option Page) (inputs : list Input)
        (st : State) :
  0 <= NO_OF_SEARCH_RESULTS c ->
  run (playlist_explorer (initial_globals c) results) inputs = Some st ->
  forall s e, In (OutFetch s e) (output st) ->
              1 <= s /\ e - s = NO_OF_SEARCH_RESULTS c - 1.
Proof.
  intros HP Hrun s e Hin.
  assert (H0 : window_kept (NO_OF_SEARCH_RESULTS c)
                 (playlist_explorer (initial_globals c) results) /\
               Forall (fetch_ok (NO_OF_SEARCH_RESULTS c))
                 (output (playlist_explorer (initial_globals c) results))).
  { split.
    - apply playlist_explorer_window_kept;
        [exact HP | reflexivity | apply window_ok_initial].
    - unfold playlist_explorer. unfold_transitions.
      repeat break_match; simpl; fetch_arith. }
  destruct (run_fetches_pages _ _ _ _ HP H0 Hrun) as [_ HF].
  rewrite Forall_forall in HF. exact (HF _ Hin).
Qed.

(** ** Indexing and numbering *)

Lemma index_some {A} (l : list A) i x :
  Py.index l i = Some x ->
  - Z.of_nat (List.length l) <= i < Z.of_nat (List.length l) /\ In x l.
Proof.
  unfold Py.index. intros H.
  destruct (Z.leb_spec 0 i);
    destruct (Z.ltb_spec i (Z.of_nat (List.length l)));
    destruct (Z.leb_spec (- Z.of_nat (List.length l)) i);
    destruct (Z.ltb_spec i 0); simpl in H; try discriminate; try lia;
    (split; [lia | eapply nth_error_In; exact H]).
Qed.

Lemma index_in_bounds {A} (l : list A) i :
  - Z.of_nat (List.length l) <= i < Z.of_nat (List.length l) ->
  exists x, Py.index l i = Some x.
Proof.
  intros H. unfold Py.index.
  destruct (Z.leb_spec 0 i);
    destruct (Z.ltb_spec i (Z.of_nat (List.length l)));
    destruct (Z.leb_spec (- Z.of_nat (List.length l)) i);
    destruct (Z.ltb_spec i 0); simpl; try lia;
    match goal with
    | |- exists x, nth_error ?l ?n = Some x =>
        destruct (nth_error l n) eqn:E; [eauto|];
        apply nth_error_None in E; lia
    end.
Qed.

(** ** No exception over complete listings *)

















(** ** Playlist autoplay *)

(** In playlist mode, after a playback that succeeded on the last entry
    of the page, the window moves one page forward and that page is
    asked for. If it has a first entry, playback goes on with it at
    index 0; if it cannot be fetched the explorer returns, its window
    reset; if it is empty the (empty) list is shown. *)
Theorem playlist_autoplay_crosses_page (st : State) :
  control st = AtPlayer ->
  autoplay_mode (locals st) = "playlist" ->
  current_index (locals st) + 1 >= Z.of_nat (List.length (entries (locals st))) ->
  exists st1,
    step st (InPlayer (PlayerExit 0)) = Some st1 /\
    control st1 = AtAutoFetch /\
    globals st1 = page_next (globals st) /\
    hd_error (output st1)
    = Some (OutFetch (PLAYLIST_START (globals st) + page_size (globals st))
                     (PLAYLIST_END (globals st) + page_size (globals st))) /\
    (forall v rest,
        exists st2,
          step st1 (InFetch (Some (Some v :: rest))) = Some st2 /\
          control st2 = AtPlayer /\
          current_index (locals st2) = 0 /\
          video (locals st2) = v /\
          entries (locals st2) = Some v :: rest /\
          hd_error (output st2)
          = Some (OutPlay (url v) (audio_only_mode (locals st)))) /\
    (exists st2,
        step st1 (InFetch None) = Some st2 /\
        control st2 = Returned /\
        globals st2 = page_reset (globals st)) /\
    (exists st2,
        step st1 (InFetch (Some [])) = Some st2 /\
        control st2 = AtList /\
        entries (locals st2) = []).
Proof.
  intros Hc Hm Hi. unfold step at 1. rewrite Hc. unfold on_player.
  cbn [negb Z.eqb]. rewrite Hm. cbn [String.eqb Ascii.eqb Bool.eqb].
  cbn [current_index set_index entries locals with_locals].
  destruct (Z.geb_spec (current_index (locals st) + 1)
                       (Z.of_nat (List.length (entries (locals st)))))
    as [_|N]; [|lia].
  eexists. split; [reflexivity|]. split; [reflexivity|].
  split; [reflexivity|]. split; [reflexivity|]. split; [|split].
  - intros v rest. eexists. split; [reflexivity|].
    repeat split; reflexivity.
  - eexists. split; [reflexivity|]. split; reflexivity.
  - eexists. split; [reflexivity|].
    unfold on_auto_fetch, playlist_entry, loop_top. cbn.
    destruct ((ENABLE_PREVIEW (CONFIG (globals st)) =? "true")%string
              && (PREFERRED_SELECTOR (CONFIG (globals st)) =? "fzf")%string);
      split; reflexivity.
Qed.

(** In playlist mode, after a playback that succeeded on an entry that
    is not the last of the page, the next entry of the page is played:
    no listing is asked for and the window stays. A null entry at that
    position raises [AttributeError] (line 580), which nothing catches. *)
Theorem playlist_autoplay_next_entry (st : State) :
  control st = AtPlayer ->
  autoplay_mode (locals st) = "playlist" ->
  - Z.of_nat (List.length (entries (locals st))) <= current_index (locals st) ->
  current_index (locals st) + 1 < Z.of_nat (List.length (entries (locals st))) ->
  exists st1 x,
    step st (InPlayer (PlayerExit 0)) = Some st1 /\
    Py.index (entries (locals st)) (current_index (locals st) + 1) = Some x /\
    globals st1 = globals st /\
    match x with
    | Some v =>
        control st1 = AtPlayer /\
        current_index (locals st1) = current_index (locals st) + 1 /\
        video (locals st1) = v /\
        output st1
        = (play_outputs (locals st1) ++ output st)%list /\
        vid_url (locals st1) = url v
    | None => control st1 = Raised AttributeError
    end.
Proof.
  intros Hc Hm Hlo Hhi. unfold step. rewrite Hc. unfold on_player.
  cbn [negb Z.eqb]. rewrite Hm. cbn [String.eqb Ascii.eqb Bool.eqb].
  cbn [current_index set_index entries locals with_locals].
  destruct (Z.geb_spec (current_index (locals st) + 1)
                       (Z.of_nat (List.length (entries (locals st)))))
    as [N|_]; [lia|].
  unfold playlist_entry.
  cbn [current_index set_index entries locals with_locals].
  destruct (Z.ltb_spec (current_index (locals st) + 1)
                       (Z.of_nat (List.length (entries (locals st)))))
    as [_|N]; [|lia].
  destruct (index_in_bounds (entries (locals st))
                            (current_index (locals st) + 1)) as (x & Ex);
    [lia|].
  rewrite Ex. eexists. exists x. split; [reflexivity|].
  split; [reflexivity|].
  destruct x as [v|]; [|split; reflexivity].
  split; [reflexivity|]. repeat split; reflexivity.
Qed.

Lemma not_in_modes m :
  ~ In m modes ->
  (m =? "off")%string = false /\ (m =? "playlist")%string = false /\
  (m =? "related")%string = false.
Proof.
  intros H. repeat split; apply String.eqb_neq; intros ->; apply H;
    simpl; auto.
Qed.

Lemma concat_repeat_shift {A} (x : list A) n rest :
  (List.concat (repeat x n) ++ x ++ rest)%list
  = (x ++ List.concat (repeat x n) ++ rest)%list.
Proof.
  induction n as [|n IH]; [reflexivity|].
  cbn [repeat List.concat]. rewrite <- !app_assoc. now rewrite IH.
Qed.

(** With an autoplay mode that is none of the three, a playback that
    succeeded is followed by the same video again, as long as the player
    succeeds: [n] successes start it [n] more times and nothing else. *)
Theorem unknown_mode_replays (n : nat) : forall st,
  control st = AtPlayer ->
  ~ In (autoplay_mode (locals st)) modes ->
  exists st',
    run st (plays_well n) = Some st' /\
    control st' = AtPlayer /\
    locals st' = locals st /\
    globals st' = globals st /\
    output st'
    = (List.concat (repeat (play_outputs (locals st)) n) ++ output st)%list.
Proof.
  induction n as [|n IH]; intros st Hc Hm.
  - exists st. repeat split; auto.
  - destruct (not_in_modes _ Hm) as (E1 & E2 & E3).
    assert (S1 : step st (InPlayer (PlayerExit 0)) = Some (play st)).
    { unfold step. rewrite Hc. unfold on_player. cbn [negb Z.eqb].
      now rewrite E1, E2, E3. }
    destruct (IH (play st)) as (st' & R & C & L & G & O);
      [reflexivity | exact Hm |].
    exists st'. cbn [plays_well repeat run]. fold (plays_well n).
    rewrite S1. split; [exact R|]. split; [exact C|].
    split; [exact L|]. split; [exact G|].
    rewrite O. cbn [repeat List.concat].
    change (output (play st)) with (play_outputs (locals st) ++ output st)%list.
    change (locals (play st)) with (locals st).
    rewrite <- app_assoc. apply concat_repeat_shift.
Qed.

(** ** Numbering the page *)

Lemma uint_digits d :
  forallb Py.isdigit (Py.chars (NilEmpty.string_of_uint d)) = true.
Proof. induction d; simpl; auto. Qed.

Lemma str_is_ordinal n : 0 <= n -> is_ordinal (Py.str n).
Proof.
  intros Hn. unfold Py.str.
  destruct n as [|p|p]; [split; [discriminate | reflexivity] | | lia].
  cbn [Z.to_int NilZero.string_of_int].
  unfold NilZero.string_of_uint.
  destruct (Pos.to_uint p) eqn:E;
    try (split; [discriminate | simpl; apply uint_digits]).
  split; [discriminate | reflexivity].
Qed.

Lemma ordinal_is_ordinal n i : 0 <= i -> is_ordinal (ordinal n i).
Proof.
  intros Hi. unfold ordinal.
  destruct (str_is_ordinal (i + 1)) as [Hne Hd]; [lia|].
  destruct ((n <? 10)%nat && (String.length (Py.str (i + 1)) <? 2)%nat).
  - split; [discriminate | simpl; exact Hd].
  - split; assumption.
Qed.

Lemma replace_newlines_idem s :
  Py.replace_newlines (Py.replace_newlines s) = Py.replace_newlines s.
Proof.
  induction s as [|c s IH]; simpl; [reflexivity|]. rewrite IH.
  destruct (Ascii.eqb c Py.LF) eqn:E; [reflexivity | now rewrite E].
Qed.

Lemma replace_newlines_append s t :
  Py.replace_newlines (s ++ t)
  = Py.replace_newlines s ++ Py.replace_newlines t.
Proof. induction s as [|c s IH]; simpl; [reflexivity | now rewrite IH]. Qed.

Lemma replace_newlines_digits p :
  forallb Py.isdigit (Py.chars p) = true -> Py.replace_newlines p = p.
Proof.
  induction p as [|c p IH]; simpl; intros H; [reflexivity|].
  apply andb_prop in H. destruct H as [Hc Hp]. rewrite (IH Hp).
  destruct (Ascii.eqb_spec c Py.LF) as [->|_]; [discriminate Hc | reflexivity].
Qed.

Lemma annotate_from_length n es : forall i,
  List.length (annotate_from n i es) = List.length es.
Proof.
  induction es as [|[e|] r IH]; intros i; simpl; auto.
Qed.

Lemma annotate_from_nth n es : forall i k,
  nth_error (annotate_from n i es) k
  = match nth_error es k with
    | Some (Some e) =>
        Some (Some (set_title e
                      (ordinal n (i + Z.of_nat k) ++ " "
                       ++ Py.replace_newlines (get_or (title e) ""))))
    | Some None => Some None
    | None => None
    end.
Proof.
  induction es as [|x r IH]; intros i k.
  - destruct k; reflexivity.
  - destruct k as [|k].
    + destruct x as [e|]; simpl; [|reflexivity].
      rewrite Z.add_0_r. reflexivity.
    + replace (i + Z.of_nat (S k)) with (i + 1 + Z.of_nat k) by lia.
      destruct x as [e|]; simpl; apply IH.
Qed.

(** Lines 442-447: numbering keeps the length and the holes of a page,
    and gives the entry at position [k] its ordinal, a space, and its
    title with newlines replaced; id and url are kept. *)
Lemma annotate_nth page k :
  nth_error (annotate page) k
  = match nth_error page k with
    | Some (Some e) =>
        Some (Some (set_title e
                      (ordinal (List.length page) (Z.of_nat k) ++ " "
                       ++ Py.replace_newlines (get_or (title e) ""))))
    | Some None => Some None
    | None => None
    end.
Proof. unfold annotate. now rewrite annotate_from_nth. Qed.

(** The text artifact of a numbered entry is named by the hash of the
    entry's own title, newlines replaced: the ordinal the explorer put
    in front does not reach the key, whatever the position of the entry
    and whether or not the title itself begins with digits. *)
Theorem numbered_entry_key (page : Page) (k : nat) (e : VideoEntry) :
  nth_error page k = Some (Some e) ->
  exists e',
    nth_error (annotate page) k = Some (Some e') /\
    entry_id e' = entry_id e /\ url e' = url e /\
    title e'
    = Some (ordinal (List.length page) (Z.of_nat k) ++ " "
            ++ Py.replace_newlines (get_or (title e) "")) /\
    Preview.clean_title (get_or (title e') "")
    = Py.replace_newlines (get_or (title e) "") /\
    Preview.filename_hash (get_or (title e') "")
    = generate_sha256 (Some (Py.replace_newlines (get_or (title e) ""))).
Proof.
  intros H. rewrite <- (Nat2Z.id k) in H at 1. rewrite Nat2Z.id in H.
  eexists. rewrite annotate_nth, H. split; [reflexivity|].
  split; [reflexivity|]. split; [reflexivity|]. split; [reflexivity|].
  assert (E : Preview.clean_title
                (ordinal (List.length page) (Z.of_nat k) ++ " "
                 ++ Py.replace_newlines (get_or (title e) ""))
              = Py.replace_newlines (get_or (title e) "")).
  { unfold Preview.clean_title.
    rewrite strip_ordinal_prefixed by (apply ordinal_is_ordinal; lia).
    apply replace_newlines_idem. }
  split; [exact E|].
  unfold Preview.filename_hash. cbn [title set_title get_or]. now rewrite E.
Qed.

Lemma preview_off_loop_top st page :
  search_results (locals st) = Some page ->
  download_images (locals st) = false ->
  (ENABLE_PREVIEW (CONFIG (globals st)) =? "true")%string = false ->
  control (loop_top st) = AtList /\
  entries (locals (loop_top st)) = annotate page /\
  search_results (locals (loop_top st)) = Some (annotate page) /\
  download_images (locals (loop_top st)) = false /\
  globals (loop_top st) = globals st /\
  hd_error (output (loop_top st))
  = Some (OutLauncher (annotated_titles (annotate page)
                       ++ ["Next"; "Previous"; "Back"; "Exit"])).
Proof.
  intros Hs Hd He. unfold loop_top. rewrite Hs, Hd, He. cbn.
  repeat split; reflexivity.
Qed.

Lemma loop_top_not_action st : control (loop_top st) <> AtAction.
Proof.
  destruct (loop_top_summary st) as (_ & _ & _ & [[C _]|[C _]] & _);
    rewrite C; discriminate.
Qed.

(** Choosing an entry changes neither the page nor the window. *)
Lemma on_list_to_action st sel :
  control (on_list st sel) = AtAction ->
  search_results (locals (on_list st sel)) = search_results (locals st) /\
  entries (locals (on_list st sel)) = entries (locals st) /\
  download_images (locals (on_list st sel)) = download_images (locals st) /\
  globals (on_list st sel) = globals st.
Proof.
  unfold on_list.
  repeat break_match; intros Hc;
    try (exfalso; exact (loop_top_not_action _ Hc));
    try discriminate Hc; repeat split; reflexivity.
Qed.

(** With previews off the page is numbered again each time the explorer
    comes back to the list: after choosing an entry and going back, the
    entry at position [k] carries its ordinal twice, and the title the
    explorer would play or download it under (line 490) still has one. *)
Theorem titles_are_numbered_again
        (g : Globals) (page : Page) (sel : string) (k : nat)
        (e : VideoEntry) :
  (ENABLE_PREVIEW (CONFIG g) =? "true")%string = false ->
  control (on_list (playlist_explorer g (Some page)) sel) = AtAction ->
  nth_error page k = Some (Some e) ->
  let st := on_action (on_list (playlist_explorer g (Some page)) sel) "Back" in
  let num := ordinal (List.length page) (Z.of_nat k) in
  let t := Py.replace_newlines (get_or (title e) "") in
  control st = AtList /\
  entries (locals st) = annotate (annotate page) /\
  exists e',
    nth_error (entries (locals st)) k = Some (Some e') /\
    title e' = Some (num ++ " " ++ num ++ " " ++ t) /\
    Py.strip_ordinal (get_or (title e') "") = num ++ " " ++ t.
Proof.
  intros He Hc Hk st num t.
  set (st0 := playlist_explorer g (Some page)) in *.
  assert (P0 : control st0 = AtList /\
               entries (locals st0) = annotate page /\
               search_results (locals st0) = Some (annotate page) /\
               download_images (locals st0) = false /\
               globals st0 = g).
  { subst st0. unfold playlist_explorer.
    match goal with
    | |- context [loop_top ?s] =>
        destruct (preview_off_loop_top s page eq_refl eq_refl He)
          as (C0 & E0 & S0 & D0 & G0 & _)
    end.
    repeat split; assumption. }
  destruct P0 as (C0 & E0 & S0 & D0 & G0).
  destruct (on_list_to_action st0 sel Hc) as (S1 & _ & D1 & G1).
  rewrite S0 in S1. rewrite D0 in D1. rewrite G0 in G1.
  assert (B : st = loop_top (on_list st0 sel)) by reflexivity.
  destruct (preview_off_loop_top (on_list st0 sel) (annotate page) S1 D1)
    as (C2 & E2 & _); [rewrite G1; exact He|].
  rewrite B. split; [exact C2|]. split; [exact E2|].
  rewrite E2.
  assert (Hlen : List.length (annotate page) = List.length page)
    by apply annotate_from_length.
  eexists. rewrite annotate_nth, annotate_nth, Hk, Hlen.
  split; [reflexivity|]. cbn [title set_title get_or]. subst num t.
  assert (R : Py.replace_newlines
                (ordinal (List.length page) (Z.of_nat k) ++ " "
                 ++ Py.replace_newlines (get_or (title e) ""))
              = ordinal (List.length page) (Z.of_nat k) ++ " "
                ++ Py.replace_newlines (get_or (title e) "")).
  { destruct (ordinal_is_ordinal (List.length page) (Z.of_nat k)) as [_ Hd];
      [lia|].
    rewrite replace_newlines_append, (replace_newlines_digits _ Hd).
    cbn [Py.replace_newlines append].
    now rewrite replace_newlines_idem. }
  rewrite R. split; [reflexivity|].
  apply strip_ordinal_prefixed. apply ordinal_is_ordinal. lia.
Qed.

(** ** The entry played and the page *)

Lemma index_position {A} (l : list A) i x :
  Py.index l i = Some x -> nth_error l (Py.position l i) = Some x.
Proof.
  unfold Py.index, Py.position.
  destruct (0 <=? i) eqn:E0; cbn [andb].
  - destruct (i <? Z.of_nat (List.length l)); [intros H; exact H|].
    apply Z.leb_le in E0.
    destruct (Z.ltb_spec i 0); [lia|]. rewrite andb_false_r. discriminate.
  - destruct ((- Z.of_nat (List.length l) <=? i) && (i <? 0));
      [intros H; exact H | discriminate].
Qed.

Lemma renumbered_slot n l k :
  video_slot l = Some k ->
  renumbered n l
  = set_title (video l)
              (ordinal n (Z.of_nat k) ++ " "
               ++ Py.replace_newlines (get_or (title (video l)) "")).
Proof. intros H. unfold renumbered. rewrite H. reflexivity. Qed.

Lemma loop_top_locals st page :
  search_results (locals st) = Some page ->
  let page' := if negb (download_images (locals st))
               then annotate page else page in
  video_slot (locals (loop_top st)) = video_slot (locals st) /\
  entries (locals (loop_top st)) = page' /\
  search_results (locals (loop_top st)) = Some page' /\
  video (locals (loop_top st))
  = if negb (download_images (locals st))
    then renumbered (List.length page) (locals st) else video (locals st).
Proof.
  intros H. unfold loop_top. rewrite H.
  destruct ((ENABLE_PREVIEW (CONFIG (globals st)) =? "true")%string
            && (PREFERRED_SELECTOR (CONFIG (globals st)) =? "fzf")%string
            && negb (download_images (locals st)));
    cbn; repeat split; reflexivity.
Qed.

(** The head of the list loop takes [entries] from the listing held;
    a listing just fetched holds no entry seen before. *)
Lemma loop_top_slot_holds st :
  slot_holds (locals st) \/ video_slot (locals st) = None ->
  slot_holds (locals (loop_top st)).
Proof.
  intros H. destruct (search_results (locals st)) as [page|] eqn:Es.
  - destruct (loop_top_locals st page Es) as (S & E & R & V).
    unfold slot_holds. rewrite S, E, R, V.
    split; [intros p [= <-]; reflexivity|].
    destruct (video_slot (locals st)) as [k|] eqn:Ek; [|exact I].
    destruct H as [[Hp Hn]|H]; [|discriminate H].
    rewrite Ek in Hn. rewrite (Hp page Es).
    destruct (negb (download_images (locals st))); [|exact Hn].
    rewrite annotate_nth, Hn, (renumbered_slot _ _ k Ek). reflexivity.
  - unfold loop_top. rewrite Es. cbn [locals finish goto with_globals].
    split; [intros p E; congruence|].
    destruct H as [[_ H]|H]; [exact H | now rewrite H].
Qed.

Lemma playlist_entry_slot_holds st :
  (forall p, search_results (locals st) = Some p -> p = entries (locals st)) ->
  slot_holds (locals st) \/ video_slot (locals st) = None ->
  slot_holds (locals (playlist_entry st)).
Proof.
  intros Hp H. unfold playlist_entry.
  destruct (current_index (locals st)
            <? Z.of_nat (List.length (entries (locals st))));
    [|now apply loop_top_slot_holds].
  assert (W : slot_holds (locals st)).
  { destruct H as [H|H]; [exact H|]. split; [exact Hp | now rewrite H]. }
  destruct (Py.index (entries (locals st)) (current_index (locals st)))
    as [[v|]|] eqn:Ex; try exact W.
  split; [exact Hp | exact (index_position _ _ _ Ex)].
Qed.

Lemma step_slot_holds st i st' :
  slot_holds (locals st) -> step st i = Some st' -> slot_holds (locals st').
Proof.
  intros H Hstep. unfold step in Hstep.
  destruct (control st), i as [s|r|r|r]; try discriminate;
    injection Hstep as <-.
  - unfold on_list.
    repeat match goal with
           | |- context [if ?b then _ else _] => destruct b
           end; try exact H.
    destruct (Py.int _) as [sel_id|]; [|apply loop_top_slot_holds; now left].
    cbn [current_index set_index entries locals with_locals].
    destruct (Py.index (entries (locals st)) (sel_id - 1)) as [[v|]|] eqn:Ex;
      try exact H; [|apply loop_top_slot_holds; now left].
    destruct (title v); [|exact H].
    split; [exact (proj1 H) | exact (index_position _ _ _ Ex)].
  - apply loop_top_slot_holds. now right.
  - unfold on_action. repeat break_match;
      try exact H; apply loop_top_slot_holds; now left.
  - unfold on_player. destruct r as [returncode| |]; try exact H;
      [|apply loop_top_slot_holds; now left].
    repeat match goal with
           | |- context [if ?b then _ else _] => destruct b
           end; try exact H; try (apply loop_top_slot_holds; now left).
    apply playlist_entry_slot_holds; [exact (proj1 H) | left; exact H].
  - unfold on_auto_fetch. destruct r as [page|].
    + apply playlist_entry_slot_holds; [|now right].
      intros p [= <-]. reflexivity.
    + apply loop_top_slot_holds. left. split; [intros p E; discriminate E|].
      exact (proj2 H).
  - unfold on_mix. destruct r as [| |mix];
      try (apply loop_top_slot_holds; now left).
    destruct (select_related _ mix);
      try (apply loop_top_slot_holds; now left).
    split; [exact (proj1 H) | exact I].
Qed.

(** Along every run, [video] is the entry at its slot of the page: what
    line 447 writes into that entry is what [video] shows. *)
Lemma video_in_its_slot g results inputs : forall st,
  run (playlist_explorer g results) inputs = Some st ->
  slot_holds (locals st).
Proof.
  assert (R : forall inputs st st',
             slot_holds (locals st) -> run st inputs = Some st' ->
             slot_holds (locals st')).
  { clear inputs. induction inputs as [|i rest IH]; simpl;
      intros st st' H Hrun.
    - now injection Hrun as <-.
    - destruct (step st i) as [st1|] eqn:Hs; [|discriminate].
      apply (IH st1 st'); [|exact Hrun].
      now apply (step_slot_holds st i). }
  intros st. apply R. unfold playlist_explorer.
  apply loop_top_slot_holds. now right.
Qed.

(** ** Choosing a line of the list *)

Lemma int_digits_uint d : forall acc seen,
  seen = true \/ d <> Decimal.Nil ->
  Py.int_digits acc seen (NilEmpty.string_of_uint d)
  = Some (uint_value acc d).
Proof.
  induction d; intros acc seen H;
    try (cbn [NilEmpty.string_of_uint Py.int_digits uint_value];
         change (Py.isdigit _) with true; cbn iota;
         rewrite IHd by (left; reflexivity); reflexivity).
  destruct H as [->|H]; [reflexivity | contradiction].
Qed.

Lemma uint_value_pos d : forall a,
  uint_value (Zpos a) d = Zpos (Pos.of_uint_acc d a).
Proof.
  induction d; intros a; cbn [uint_value Pos.of_uint_acc];
    try reflexivity;
    match goal with
    | |- uint_value ?x _ = Zpos (Pos.of_uint_acc _ ?y) =>
        replace x with (Zpos y) by lia; apply IHd
    end.
Qed.

Lemma uint_value_zero d : uint_value 0 d = Z.of_N (Pos.of_uint d).
Proof.
  induction d; cbn [uint_value Pos.of_uint]; try reflexivity;
    try (exact IHd);
    match goal with
    | |- uint_value ?x _ = Z.of_N (Npos (Pos.of_uint_acc _ ?y)) =>
        change x with (Zpos y); apply uint_value_pos
    end.
Qed.

Lemma to_uint_not_nil p : Pos.to_uint p <> Decimal.Nil.
Proof.
  intros E. pose proof (DecimalPos.Unsigned.of_to p) as H.
  rewrite E in H. discriminate H.
Qed.

(** [int(str(n))] on the digits alone, with or without a zero in
    front. *)
Lemma int_digits_str n :
  0 < n ->
  Py.int_digits 0 false (Py.str n) = Some n /\
  Py.int_digits 0 false ("0" ++ Py.str n) = Some n.
Proof.
  intros Hn. destruct n as [|p|p]; try lia.
  unfold Py.str. cbn [Z.to_int NilZero.string_of_int].
  assert (E : NilZero.string_of_uint (Pos.to_uint p)
              = NilEmpty.string_of_uint (Pos.to_uint p)).
  { unfold NilZero.string_of_uint.
    destruct (Pos.to_uint p) eqn:T; try reflexivity.
    exfalso. exact (to_uint_not_nil p T). }
  rewrite E.
  assert (V : uint_value 0 (Pos.to_uint p) = Zpos p).
  { rewrite uint_value_zero, DecimalPos.Unsigned.of_to. reflexivity. }
  split.
  - rewrite int_digits_uint by (right; apply to_uint_not_nil). now rewrite V.
  - cbn [append Py.int_digits]. change (Py.isdigit "0") with true. cbn iota.
    change (10 * 0 + Py.digit_value "0") with 0.
    rewrite int_digits_uint by (left; reflexivity). now rewrite V.
Qed.

Lemma digit_not_space c : Py.isdigit c = true -> Py.int_space c = false.
Proof.
  destruct c as [[] [] [] [] [] [] [] []]; intros H;
    try reflexivity; discriminate H.
Qed.

(** [int] finds no white space to skip around digits. *)
Lemma strip_digits s :
  forallb Py.isdigit (Py.chars s) = true ->
  Py.of_chars (rev (Py.drop_int_space (rev (Py.drop_int_space (Py.chars s)))))
  = s.
Proof.
  intros H.
  assert (F : forall l, forallb Py.isdigit l = true ->
                        Py.drop_int_space l = l).
  { intros [|c l] Hl; [reflexivity|]. simpl in *.
    apply andb_prop in Hl. destruct Hl as [Hc _].
    now rewrite (digit_not_space c Hc). }
  rewrite (F _ H).
  rewrite (F (rev (Py.chars s))).
  - rewrite rev_involutive. apply of_chars_chars.
  - rewrite forallb_forall in *. intros x Hx. apply H. now apply in_rev.
Qed.

Lemma int_of_digits s :
  forallb Py.isdigit (Py.chars s) = true ->
  Py.int s = Py.int_digits 0 false s.
Proof.
  intros H. unfold Py.int. rewrite (strip_digits s H).
  destruct s as [|c r]; [reflexivity|].
  simpl in H. apply andb_prop in H. destruct H as [Hc _].
  destruct c as [[] [] [] [] [] [] [] []]; try discriminate Hc; reflexivity.
Qed.

Lemma int_ordinal n i : 0 <= i -> Py.int (ordinal n i) = Some (i + 1).
Proof.
  intros Hi. destruct (ordinal_is_ordinal n i Hi) as [_ Hd].
  rewrite (int_of_digits _ Hd). unfold ordinal.
  destruct (int_digits_str (i + 1)) as [A B]; [lia|].
  destruct ((n <? 10)%nat && (String.length (Py.str (i + 1)) <? 2)%nat);
    assumption.
Qed.

Lemma first_field_digits p t :
  forallb Py.isdigit (Py.chars p) = true ->
  Py.first_field (p ++ String Py.SP t) = p.
Proof.
  induction p as [|c p IH]; simpl; intros H; [reflexivity|].
  apply andb_prop in H. destruct H as [Hc Hp]. rewrite (IH Hp).
  destruct c as [[] [] [] [] [] [] [] []]; try discriminate Hc; reflexivity.
Qed.

Lemma digit_line_is_no_command s :
  starts_with_digit s = true ->
  Py.strip_icon s = s /\
  (s =? "Next")%string = false /\ (s =? "Previous")%string = false /\
  (s =? "Exit")%string = false /\ (s =? "Back")%string = false /\
  (s =? "")%string = false.
Proof.
  destruct s as [|c s]; simpl; intros H; [discriminate|].
  split.
  - unfold Py.strip_icon. cbn [Py.icon_match]. now rewrite H.
  - destruct c as [[] [] [] [] [] [] [] []]; try discriminate H;
      repeat split; reflexivity.
Qed.

Lemma nth_error_index {A} (l : list A) k x :
  nth_error l k = Some x -> Py.index l (Z.of_nat k) = Some x.
Proof.
  intros H. unfold Py.index.
  assert (L : (k < List.length l)%nat)
    by (apply nth_error_Some; congruence).
  destruct (Z.leb_spec 0 (Z.of_nat k)); [|lia].
  destruct (Z.ltb_spec (Z.of_nat k) (Z.of_nat (List.length l))); [|lia].
  cbn [andb]. now rewrite Nat2Z.id.
Qed.

(** Lines 464-491 on a line that is an ordinal, a space and a text. *)
Lemma on_list_numbered_line st k e' n t :
  nth_error (entries (locals st)) k = Some (Some e') ->
  title e' = Some (ordinal n (Z.of_nat k) ++ " " ++ t) ->
  on_list st (ordinal n (Z.of_nat k) ++ " " ++ t)
  = action_menu
      (with_locals
         (set_video (set_slot (set_index (locals st) (Z.of_nat k)) (Some k)) e'
                    (vid_url (locals st)) (Some t))
         st).
Proof.
  intros Hk Ht.
  destruct (ordinal_is_ordinal n (Z.of_nat k)) as [Hne Hd]; [lia|].
  assert (Hs : starts_with_digit (ordinal n (Z.of_nat k) ++ " " ++ t) = true).
  { destruct (ordinal n (Z.of_nat k)) as [|c r]; [contradiction|].
    simpl in Hd |- *. now apply andb_prop in Hd. }
  destruct (digit_line_is_no_command _ Hs) as (I & E1 & E2 & E3 & E4 & E5).
  unfold on_list. rewrite I, E1, E2, E3, E4, E5. cbn [orb].
  change (" " ++ t) with (String Py.SP t).
  rewrite (first_field_digits _ t Hd), int_ordinal by lia.
  replace (Z.of_nat k + 1 - 1) with (Z.of_nat k) by lia.
  cbn [current_index set_index entries].
  rewrite (nth_error_index _ _ _ Hk), Ht.
  change (String Py.SP t) with (" " ++ t).
  rewrite (strip_ordinal_prefixed _ t (conj Hne Hd)).
  unfold Py.position. destruct (Z.leb_spec 0 (Z.of_nat k)); [|lia].
  now rewrite Nat2Z.id.
Qed.

Lemma annotated_titles_nth p : forall k e',
  nth_error p k = Some (Some e') ->
  In (get_or (title e') "") (annotated_titles p).
Proof.
  induction p as [|[x|] r IH]; intros k e' H.
  - destruct k; discriminate H.
  - destruct k as [|k]; simpl in *.
    + injection H as ->. now left.
    + right. eapply IH; exact H.
  - destruct k as [|k]; simpl in *; [discriminate H|]. eapply IH; exact H.
Qed.

(** Every title is among the lines given to the selector. *)
Lemma options_titles b titles x : In x titles -> In x (options b titles).
Proof.
  intros H. unfold options. apply in_or_app. left.
  destruct b; [|exact H]. destruct titles; [contradiction | exact H].
Qed.

(** The line the explorer shows for an entry selects that entry: for
    the entry at position [k] of the page, the list offers its ordinal,
    a space and its title; choosing that line opens the action menu on
    this entry, with index [k] and the title without the ordinal. *)
Theorem choosing_a_line_selects_its_entry
        (g : Globals) (page : Page) (k : nat) (e : VideoEntry) :
  nth_error page k = Some (Some e) ->
  let line := ordinal (List.length page) (Z.of_nat k) ++ " "
              ++ Py.replace_newlines (get_or (title e) "") in
  let st := playlist_explorer g (Some page) in
  control st = AtList /\
  (exists options,
      hd_error (output st) = Some (OutLauncher options) /\ In line options) /\
  exists st',
    step st (InSelect line) = Some st' /\
    control st' = AtAction /\
    video (locals st') = set_title e line /\
    current_index (locals st') = Z.of_nat k /\
    clean_title (locals st')
    = Some (Py.replace_newlines (get_or (title e) "")) /\
    globals st' = g.
Proof.
  intros Hk line st.
  assert (P : control st = AtList /\ entries (locals st) = annotate page /\
              globals st = g /\
              hd_error (output st)
              = Some (OutLauncher
                        (options (ENABLE_PREVIEW (CONFIG g) =? "true")%string
                                 (annotated_titles (annotate page))))).
  { subst st. unfold playlist_explorer, loop_top. cbn.
    destruct ((ENABLE_PREVIEW (CONFIG g) =? "true")%string
              && (PREFERRED_SELECTOR (CONFIG g) =? "fzf")%string);
      repeat split; reflexivity. }
  destruct P as (C & E & G & O).
  assert (N : nth_error (entries (locals st)) k = Some (Some (set_title e line))).
  { rewrite E, annotate_nth, Hk. reflexivity. }
  split; [exact C|]. split.
  - eexists. split; [exact O|]. apply options_titles.
    change line with (get_or (title (set_title e line)) "").
    apply (annotated_titles_nth _ k). rewrite <- E. exact N.
  - unfold step. rewrite C. eexists. split; [reflexivity|].
    subst line.
    rewrite (on_list_numbered_line st k _ (List.length page) _ N eq_refl).
    repeat split; try reflexivity. exact G.
Qed.

(** ** Preferences on disk *)

Lemma load_audio_only_saved c b :
  load_audio_only (set_audio_config c (Py.bool_lower b)) = b.
Proof. destruct b; reflexivity. Qed.

Lemma step_preferences_saved d st i st' :
  preferences_saved d st -> step st i = Some st' -> preferences_saved d st'.
Proof.
  intros (Hm & Ha & Hs & Hn & He & Hp) Hstep. unfold step in Hstep.
  destruct (control st), i; try discriminate;
    injection Hstep as <-; unfold preferences_saved;
    unfold_transitions;
    repeat break_match; simpl;
    rewrite ?load_audio_only_saved;
    repeat split; auto.
Qed.

Lemma run_preferences_saved d inputs : forall st st',
  preferences_saved d st -> run st inputs = Some st' ->
  preferences_saved d st'.
Proof.
  induction inputs as [|i rest IH]; simpl; intros st st' H Hrun.
  - now injection Hrun as <-.
  - destruct (step st i) as [st1|] eqn:Hs; [|discriminate].
    apply (IH st1 st'); [|exact Hrun].
    now apply (step_preferences_saved d st i).
Qed.

(** In every state of a run the audio-only flag and the autoplay mode in
    use are the ones [CONFIG] holds, and [CONFIG] is what the last
    [save_config] wrote (or what was loaded, if nothing was saved): a
    toggle never leaves the file behind. The other keys are never
    changed. *)
Theorem preferences_stay_saved
        (g : Globals) (results : option Page) (inputs : list Input)
        (st : State) :
  run (playlist_explorer g results) inputs = Some st ->
  autoplay_mode (locals st) = AUTOPLAY_MODE (CONFIG (globals st)) /\
  audio_only_mode (locals st) = load_audio_only (CONFIG (globals st)) /\
  last_saved (output st) (CONFIG g) = CONFIG (globals st) /\
  NO_OF_SEARCH_RESULTS (CONFIG (globals st)) = NO_OF_SEARCH_RESULTS (CONFIG g) /\
  ENABLE_PREVIEW (CONFIG (globals st)) = ENABLE_PREVIEW (CONFIG g) /\
  PREFERRED_SELECTOR (CONFIG (globals st)) = PREFERRED_SELECTOR (CONFIG g).
Proof.
  intros Hrun.
  assert (H0 : preferences_saved (CONFIG g) (playlist_explorer g results)).
  { unfold preferences_saved, playlist_explorer. unfold_transitions.
    repeat break_match; simpl; repeat split; reflexivity. }
  exact (run_preferences_saved _ _ _ _ H0 Hrun).
Qed.

(** ** Leaving the autoplay loop *)

(** A keyboard interrupt during playback, in any mode, and the end of a
    playback in mode off both leave the autoplay loop: nothing more is
    played or fetched, the current video (its id and url) and the index
    are kept, and the explorer is back at the list (or returns). *)
Theorem playback_stops (st : State) (r : PlayerResult) :
  control st = AtPlayer ->
  r = PlayerInterrupt \/
  (exists returncode, r = PlayerExit returncode) /\
  autoplay_mode (locals st) = "off" ->
  exists st' new,
    step st (InPlayer r) = Some st' /\
    in_autoplay (control st') = false /\
    (control st' = AtList /\ globals st' = globals st \/
     control st' = Returned /\ globals st' = page_reset (globals st)) /\
    output st' = (new ++ output st)%list /\
    forallb (fun o => negb (advances o)) new = true /\
    entry_id (video (locals st')) = entry_id (video (locals st)) /\
    url (video (locals st')) = url (video (locals st)) /\
    current_index (locals st') = current_index (locals st).
Proof.
  intros Hc Hr. unfold step. rewrite Hc.
  assert (G : forall st1 extra,
             output st1 = (extra ++ output st)%list ->
             forallb (fun o => negb (advances o)) extra = true ->
             globals st1 = globals st -> locals st1 = locals st ->
             exists st' new,
               Some (loop_top st1) = Some st' /\
               in_autoplay (control st') = false /\
               (control st' = AtList /\ globals st' = globals st \/
                control st' = Returned /\
                globals st' = page_reset (globals st)) /\
               output st' = (new ++ output st)%list /\
               forallb (fun o => negb (advances o)) new = true /\
               entry_id (video (locals st')) = entry_id (video (locals st)) /\
               url (video (locals st')) = url (video (locals st)) /\
               current_index (locals st') = current_index (locals st)).
  { intros st1 extra Ho Hf Hg Hl.
    destruct (loop_top_summary st1) as (new & O & F & K & [V U] & I & _).
    exists (loop_top st1), (new ++ extra)%list.
    split; [reflexivity|]. split; [apply loop_top_leaves_autoplay|].
    rewrite Hg in K. split; [exact K|].
    split; [rewrite O, Ho; apply app_assoc|].
    split; [rewrite forallb_app, F, Hf; reflexivity|].
    rewrite V, U, I, Hl. repeat split; reflexivity. }
  unfold on_player. destruct Hr as [->|[[returncode ->] Hm]].
  - apply (G _ [OutPrint (String Py.LF "Stopping playback...")]); reflexivity.
  - destruct (negb (returncode =? 0)).
    + apply (G _ [OutPrint "Player exited with error. Stopping autoplay."]);
        reflexivity.
    + rewrite Hm. cbn [String.eqb Ascii.eqb Bool.eqb].
      apply (G st []); reflexivity.
Qed.

(** ** The launcher *)

Lemma splitlines_line x rest :
  unbroken x ->
  Launcher.splitlines (x ++ String Py.LF rest)
  = x :: Launcher.splitlines rest.
Proof.
  unfold unbroken. induction x as [|c x IH]; intros H.
  - reflexivity.
  - cbn [Py.chars forallb] in H. apply andb_prop in H. destruct H as [Hc Hx].
    apply negb_true_iff in Hc.
    cbn [append Launcher.splitlines]. rewrite Hc. now rewrite (IH Hx).
Qed.

(** What [launcher] makes of the lines fzf prints: without a preview
    the first line is the choice; with a preview fzf prints the key
    pressed and then the choice, and the second line is returned; when
    only one line came it is returned. Nothing printed gives the empty
    choice. *)
Theorem launcher_fzf_lines (selector key choice : string) :
  Py.lower selector <> "rofi" ->
  unbroken key -> unbroken choice ->
  let stop := String Py.LF "" in
  Launcher.launcher selector true (key ++ stop ++ choice ++ stop) = choice /\
  Launcher.launcher selector false (choice ++ stop) = choice /\
  Launcher.launcher selector true (choice ++ stop) = choice /\
  Launcher.launcher selector true "" = "" /\
  Launcher.launcher selector false "" = "".
Proof.
  intros Hs Hk Hc stop. subst stop. unfold Launcher.launcher.
  apply String.eqb_neq in Hs. rewrite Hs. cbn [append].
  rewrite !splitlines_line by assumption.
  repeat split; reflexivity.
Qed.

(** Cancelling the selector: rofi prints nothing and [launcher] turns
    that into "Exit", so the program exits with code 0 from the video
    list and from the action menu alike; fzf prints nothing and the
    empty choice goes back one level instead. *)
Theorem cancelling_the_selector
        (st : State) (selector : string) (preview_mode : bool) :
  control st = AtList \/ control st = AtAction ->
  (Py.lower selector = "rofi" ->
   forall out, Py.strip out = "" ->
     exists st',
       step st (InSelect (Launcher.launcher selector preview_mode out))
       = Some st' /\
       control st' = Exited 0) /\
  (Py.lower selector <> "rofi" ->
   exists st',
     step st (InSelect (Launcher.launcher selector preview_mode ""))
     = Some st' /\
     (control st = AtList -> control st' = Returned) /\
     (control st = AtAction ->
      control st' = AtList \/ control st' = Returned)).
Proof.
  intros Hc. split.
  - intros Hs out Ho. unfold Launcher.launcher.
    rewrite Hs, Ho. cbn [String.eqb Ascii.eqb Bool.eqb].
    unfold step. destruct Hc as [Hc|Hc]; rewrite Hc;
      eexists; (split; [reflexivity|]); reflexivity.
  - intros Hs. unfold Launcher.launcher.
    apply String.eqb_neq in Hs. rewrite Hs.
    cbn [Launcher.splitlines].
    unfold step. destruct Hc as [Hc|Hc]; rewrite Hc;
      eexists; (split; [reflexivity|]).
    + split; [reflexivity | discriminate].
    + split; [discriminate | intros _].
      change (on_action st "") with (loop_top st).
      destruct (loop_top_summary st) as (_ & _ & _ & [[C _]|[C _]] & _);
        rewrite C; auto.
Qed.

(** ** The configuration file *)




















(** Formatting the browser option twice is formatting it once: the
    option a toggle saves (already a yt-dlp option) is loaded back as it
    is, and an empty setting stays empty. *)
Theorem format_browser_idempotent (b : string) :
  ConfigFile.format_browser (ConfigFile.format_browser b)
  = ConfigFile.format_browser b /\
  (b = "" -> ConfigFile.format_browser b = "") /\
  (b <> "" ->
   Py.contains "--cookies-from-browser" (ConfigFile.format_browser b) = true).
Proof.
  assert (P : forall x,
             ConfigFile.format_browser ("--cookies-from-browser " ++ x)
             = "--cookies-from-browser " ++ x) by reflexivity.
  destruct (String.eqb_spec b "") as [->|N].
  - split; [reflexivity|]. split; [reflexivity|]. intros H. contradiction.
  - destruct (Py.contains "--cookies-from-browser" b) eqn:C.
    + assert (E : ConfigFile.format_browser b = b).
      { unfold ConfigFile.format_browser. rewrite C.
        now destruct (negb (b =? "")%string). }
      rewrite !E. split; [reflexivity|].
      split; [intros; contradiction | intros _; exact C].
    + assert (E : ConfigFile.format_browser b
                  = "--cookies-from-browser " ++ b).
      { unfold ConfigFile.format_browser. rewrite C.
        apply String.eqb_neq in N. now rewrite N. }
      rewrite !E, P. split; [reflexivity|].
      split; [intros; contradiction | reflexivity].
Qed.

(** ** Recalling a search *)

Lemma recall_syntax n :
  0 <= n <= 10 ->
  Search.is_recall ("!" ++ Py.str n) = true /\
  Py.int (Py.drop 1 ("!" ++ Py.str n)) = Some n.
Proof.
  intros H.
  assert (B : (Z.to_nat n <= 10)%nat) by lia.
  replace n with (Z.of_nat (Z.to_nat n)) by lia.
  revert B. generalize (Z.to_nat n) as k. intros k B.
  do 11 (destruct k as [|k]; [split; vm_compute; reflexivity|]).
  lia.
Qed.

Lemma index_from_end {A} (l : list A) n :
  1 <= n <= Z.of_nat (List.length l) ->
  Py.index l (- n) = nth_error l (List.length l - Z.to_nat n).
Proof.
  intros H. unfold Py.index.
  destruct (Z.leb_spec 0 (- n)); [lia|]. cbn [andb].
  destruct (Z.leb_spec (- Z.of_nat (List.length l)) (- n)); [|lia].
  destruct (Z.ltb_spec (- n) 0); [|lia]. cbn [andb].
  f_equal. lia.
Qed.

Lemma last_n_nth {A} (l : list A) (k i : nat) :
  (i < k)%nat -> (i < List.length l)%nat ->
  nth_error (rev (Py.last_n k l)) i = nth_error l (List.length l - S i).
Proof.
  intros Hk Hl. unfold Py.last_n.
  rewrite nth_error_rev, length_skipn.
  destruct (Nat.ltb_spec i (List.length l - (List.length l - k))); [|lia].
  rewrite nth_error_skipn. f_equal. lia.
Qed.

(** The number shown in front of an entry by the prompt is the number
    that recalls it: for [n] from 1 to 10 and within the history, [!n]
    is replaced by the [n]-th entry the prompt lists (1 the most
    recent). *)
Theorem recall_matches_prompt (content : string) (n : Z) :
  1 <= n <= 10 ->
  n <= Z.of_nat (List.length (History.stored_lines content)) ->
  nth_error (History.prompt_history content) (Z.to_nat n - 1)
  = Some (Search.recall (Some content) ("!" ++ Py.str n)).
Proof.
  intros Hn Hl. destruct (recall_syntax n) as [R I]; [lia|].
  unfold Search.recall. rewrite R, I.
  destruct (History.stored_lines content) as [|x l] eqn:E;
    [simpl in Hl; lia|].
  rewrite <- E in *.
  destruct (Z.leb_spec n 10); [|lia].
  rewrite index_from_end by lia.
  unfold History.prompt_history. rewrite last_n_nth by lia.
  replace (List.length (History.stored_lines content) - S (Z.to_nat n - 1))%nat
    with (List.length (History.stored_lines content) - Z.to_nat n)%nat by lia.
  destruct (nth_error (History.stored_lines content)
                      (List.length (History.stored_lines content) - Z.to_nat n))
    eqn:N; [reflexivity|].
  apply nth_error_None in N. lia.
Qed.

(** Where recall gives the term back as typed, or something else than
    the prompt suggests: a number beyond the history or above 10 leaves
    [!n] to be searched literally, as does a missing history file; and
    [!0] is replaced by the oldest entry of the file. *)
Theorem recall_out_of_range (file : option string) (n : Z) :
  0 <= n <= 10 ->
  let lines := History.entries file in
  (Z.of_nat (List.length lines) < n ->
   Search.recall file ("!" ++ Py.str n) = "!" ++ Py.str n) /\
  (forall first rest,
      lines = first :: rest -> Search.recall file "!0" = first) /\
  (lines = [] -> Search.recall file ("!" ++ Py.str n) = "!" ++ Py.str n) /\
  Search.recall file "!11" = "!11".
Proof.
  intros Hn lines. destruct (recall_syntax n Hn) as [R I].
  split; [|split; [|split]].
  - intros Hl. unfold Search.recall. rewrite R, I.
    destruct file as [content|]; [|reflexivity].
    cbn [History.entries] in lines. subst lines.
    destruct (History.stored_lines content) as [|x l] eqn:E; [reflexivity|].
    rewrite <- E in *.
    destruct (n <=? 10); [|reflexivity].
    destruct (Py.index (History.stored_lines content) (- n)) eqn:X;
      [|reflexivity].
    apply index_some in X. lia.
  - intros first rest E. destruct file as [content|]; [|discriminate E].
    cbn [History.entries] in lines. subst lines.
    unfold Search.recall.
    change (Search.is_recall "!0") with true.
    change (Py.int (Py.drop 1 "!0")) with (Some 0).
    cbn iota. rewrite E. reflexivity.
  - intros E. unfold Search.recall. rewrite R, I.
    destruct file as [content|]; [|reflexivity].
    cbn [History.entries] in lines. subst lines. now rewrite E.
  - unfold Search.recall.
    change (Search.is_recall "!11") with true.
    change (Py.int (Py.drop 1 "!11")) with (Some 11).
    cbn iota. destruct file as [content|]; [|reflexivity].
    destruct (History.stored_lines content); reflexivity.
Qed.

(** Searching [!1] searches the most recent term again and leaves the
    history as it was, when the history has no duplicates and that term
    does not itself begin with a filter. *)
Theorem recall_last_keeps_history (content : string) (older : list string)
        (x : string) :
  History.stored_lines content = (older ++ [x])%list ->
  NoDup (History.stored_lines content) ->
  Search.match_filter x = None ->
  exists file',
    Search.search "true" (Some content) None "!1"
    = Some (x, Search.search_url x "EgIQAQ%253D%253D", file') /\
    History.entries file' = History.stored_lines content.
Proof.
  intros E Hn Hf.
  assert (Hc : clean_term x).
  { pose proof (stored_lines_clean content) as H. rewrite E in H.
    apply Forall_app in H. destruct H as [_ H]. now inversion H. }
  assert (R : Search.recall (Some content) "!1" = x).
  { unfold Search.recall.
    change (Search.is_recall "!1") with true.
    change (Py.int (Py.drop 1 "!1")) with (Some 1).
    cbn iota. rewrite E.
    destruct (older ++ [x])%list as [|y l] eqn:El;
      [destruct older; discriminate El|].
    rewrite <- El. change (1 <=? 10) with true. cbn iota.
    rewrite index_from_end by (rewrite length_app; simpl; lia).
    rewrite length_app. simpl.
    replace (List.length older + 1 - Pos.to_nat 1)%nat
      with (List.length older) by lia.
    rewrite nth_error_app2 by lia. now rewrite Nat.sub_diag. }
  eexists. unfold Search.search. rewrite R.
  destruct Hc as (Hs & Hne & Hl).
  apply String.eqb_neq in Hne. rewrite Hne.
  unfold Search.parse_filter. rewrite Hf. split; [reflexivity|].
  rewrite entries_after_update
    by (repeat split; try assumption; now apply String.eqb_neq).
  cbn [History.entries]. rewrite E in *. rewrite filter_app.
  apply NoDup_remove in Hn. rewrite app_nil_r in Hn. destruct Hn as [_ Hx].
  rewrite (filter_neq_id x older Hx). cbn [filter].
  rewrite String.eqb_refl. cbn [negb]. now rewrite app_nil_r.
Qed.

(** ** The time filter *)

Lemma match_runs_greedy (p : ascii -> bool) rest x : forall y groups,
  x <> "" ->
  forallb p (Py.chars x) = true ->
  (match y with String c _ => p c = false | EmptyString => True end) ->
  Search.match_runs rest y = Some groups ->
  Search.match_runs (p :: rest) (x ++ y) = Some (x :: groups).
Proof.
  induction x as [|c x IH]; intros y groups Hne Hx Hy Hr; [contradiction|].
  cbn [Py.chars forallb] in Hx. apply andb_prop in Hx. destruct Hx as [Hc Hx].
  cbn [append Search.match_runs]. rewrite Hc.
  destruct x as [|d x].
  - cbn [append].
    assert (N : (fix run (s : string) : option (list string) :=
                   match s with
                   | "" => None
                   | String c0 r =>
                       if p c0
                       then
                         match run r with
                         | Some (x :: groups0) => Some (String c0 x :: groups0)
                         | _ =>
                             match Search.match_runs rest r with
                             | Some groups0 => Some (String c0 "" :: groups0)
                             | None => None
                             end
                         end
                       else None
                   end) y = None).
    { destruct y as [|e y]; [reflexivity|]. now rewrite Hy. }
    rewrite N, Hr. reflexivity.
  - specialize (IH y groups). cbn [Search.match_runs] in IH.
    rewrite IH; [reflexivity | discriminate | exact Hx | exact Hy | exact Hr].
Qed.

Lemma space_not_lower c : Py.isspace c = true -> Search.is_lower c = false.
Proof.
  destruct c as [[] [] [] [] [] [] [] []]; intros H;
    try reflexivity; discriminate H.
Qed.

Lemma space_is_newline_or c :
  Py.isspace c = false -> Search.not_newline c = true.
Proof.
  destruct c as [[] [] [] [] [] [] [] []]; intros H;
    try reflexivity; discriminate H.
Qed.

Lemma append_empty_r s : s ++ "" = s.
Proof. induction s as [|c s IH]; simpl; [reflexivity | now rewrite IH]. Qed.

(** A filter token, whitespace, and a term. *)
Lemma match_filter_token tok ws c term :
  tok <> "" -> forallb Search.is_lower (Py.chars tok) = true ->
  ws <> "" -> forallb Py.isspace (Py.chars ws) = true ->
  Py.isspace c = false ->
  forallb Search.not_newline (Py.chars term) = true ->
  Search.match_filter (":" ++ tok ++ ws ++ String c term)
  = Some (":" ++ tok, String c term).
Proof.
  intros Ht Hl Hw Hs Hc Hn. unfold Search.match_filter. cbn [append].
  rewrite (match_runs_greedy Search.is_lower _ tok (ws ++ String c term)
             [ws; String c term]); [reflexivity | exact Ht | exact Hl | |].
  - destruct ws as [|w ws]; [contradiction|]. cbn [append].
    cbn [Py.chars forallb] in Hs. apply andb_prop in Hs.
    now apply space_not_lower.
  - apply (match_runs_greedy Py.isspace _ ws (String c term) [String c term]);
      [exact Hw | exact Hs | exact Hc |].
    rewrite <- (append_empty_r (String c term)) at 1.
    apply (match_runs_greedy Search.not_newline [] (String c term) "" []);
      [discriminate | | exact I | reflexivity].
    cbn [Py.chars forallb]. now rewrite (space_is_newline_or c Hc), Hn.
Qed.

Lemma match_runs_no_second (p q : ascii -> bool) rest x :
  (forall c, p c = true -> q c = false) ->
  forallb p (Py.chars x) = true ->
  Search.match_runs (p :: q :: rest) x = None.
Proof.
  intros Hpq. induction x as [|c x IH]; intros Hx; [reflexivity|].
  cbn [Py.chars forallb] in Hx. apply andb_prop in Hx. destruct Hx as [Hc Hx].
  specialize (IH Hx). cbn [Search.match_runs] in IH |- *.
  rewrite Hc, IH.
  destruct x as [|d x]; [reflexivity|].
  cbn [Py.chars forallb] in Hx. apply andb_prop in Hx. destruct Hx as [Hd _].
  now rewrite (Hpq d Hd).
Qed.

Lemma lower_not_space c : Search.is_lower c = true -> Py.isspace c = false.
Proof.
  destruct c as [[] [] [] [] [] [] [] []]; intros H;
    try reflexivity; discriminate H.
Qed.

(** A term that begins with a colon, lower-case letters and whitespace
    is split there: what follows the whitespace is searched, and the
    token chooses the [sp] parameter. A token that is none of the five
    known is dropped all the same and the default parameter is used. *)
Theorem filter_token_parsing (tok ws : string) (c : ascii) (term : string) :
  tok <> "" -> forallb Search.is_lower (Py.chars tok) = true ->
  ws <> "" -> forallb Py.isspace (Py.chars ws) = true ->
  Py.isspace c = false ->
  forallb Search.not_newline (Py.chars term) = true ->
  let typed := ":" ++ tok ++ ws ++ String c term in
  snd (Search.parse_filter typed) = String c term /\
  (~ In (":" ++ tok) known_filters ->
   fst (Search.parse_filter typed) = "EgIQAQ%253D%253D") /\
  (tok = "hour" -> fst (Search.parse_filter typed) = "EgIIAQ%253D%253D") /\
  (tok = "today" -> fst (Search.parse_filter typed) = "EgIIAg%253D%253D") /\
  (tok = "week" -> fst (Search.parse_filter typed) = "EgIIAw%253D%253D") /\
  (tok = "month" -> fst (Search.parse_filter typed) = "EgIIBA%253D%253D") /\
  (tok = "year" -> fst (Search.parse_filter typed) = "EgIIBQ%253D%253D").
Proof.
  intros Ht Hl Hw Hs Hc Hn typed. subst typed.
  unfold Search.parse_filter.
  rewrite (match_filter_token tok ws c term Ht Hl Hw Hs Hc Hn).
  split; [reflexivity|]. split.
  - intros Hk. unfold known_filters in Hk. cbn [fst].
    repeat match goal with
           | |- context [String.eqb ?a ?b] =>
               destruct (String.eqb_spec a b) as [E|_];
               [exfalso; apply Hk; rewrite E; simpl; auto 6|]
           end.
    reflexivity.
  - repeat split; intros ->; reflexivity.
Qed.

(** A term that does not begin with a colon, or that is only a colon and
    lower-case letters, is searched as it is with the default [sp]
    parameter. *)
Theorem no_filter_is_literal (s : string) :
  (String.prefix ":" s = false \/
   exists tok, s = ":" ++ tok /\
               forallb Search.is_lower (Py.chars tok) = true) ->
  Search.parse_filter s = ("EgIQAQ%253D%253D", s).
Proof.
  intros H. unfold Search.parse_filter.
  assert (M : Search.match_filter s = None).
  { destruct H as [H|(tok & -> & Hl)].
    - unfold Search.match_filter. destruct s as [|c s]; [reflexivity|].
      cbn [String.prefix] in H.
      destruct c as [[] [] [] [] [] [] [] []]; try reflexivity.
      destruct s; discriminate H.
    - unfold Search.match_filter. cbn [append].
      now rewrite (match_runs_no_second Search.is_lower Py.isspace
                     [Search.not_newline] tok lower_not_space Hl). }
  now rewrite M.
Qed.

(** ** The listing url *)

Lemma utf8_bytes s : Forall (fun b => (b < 256)%N) (Sha256.utf8 s).
Proof.
  induction s as [|c s IH]; cbn [Sha256.utf8]; [constructor|].
  destruct (N.ltb_spec (N_of_ascii c) 128).
  - constructor; [lia | exact IH].
  - constructor; [|constructor; [|exact IH]];
      destruct c as [[] [] [] [] [] [] [] []]; reflexivity.
Qed.

Lemma is_safe_bound b : Search.is_safe b = true -> (b < 256)%N.
Proof.
  unfold Search.is_safe. intros H.
  repeat (apply orb_prop in H; destruct H as [H|H]);
    try (apply andb_prop in H; destruct H as [H1 H2]);
    repeat match goal with
           | H : (_ <=? _)%N = true |- _ => apply N.leb_le in H
           | H : (_ =? _)%N = true |- _ => apply N.eqb_eq in H
           end; lia.
Qed.

Lemma upper_hex_safe d :
  (d < 16)%N -> Search.is_safe (N_of_ascii (Search.upper_hex d)) = true.
Proof.
  intros H.
  assert (E : (d = 0 \/ d = 1 \/ d = 2 \/ d = 3 \/ d = 4 \/ d = 5 \/ d = 6 \/
               d = 7 \/ d = 8 \/ d = 9 \/ d = 10 \/ d = 11 \/ d = 12 \/
               d = 13 \/ d = 14 \/ d = 15)%N) by lia.
  repeat (destruct E as [->|E]; [reflexivity|]). subst d. reflexivity.
Qed.

Lemma quote_bytes_chars bs :
  Forall (fun b => (b < 256)%N) bs ->
  Forall quoted_char (Py.chars (Search.quote_bytes bs)).
Proof.
  induction 1 as [|b r Hb _ IH]; cbn [Search.quote_bytes]; [constructor|].
  destruct (Search.is_safe b) eqn:S; cbn [Py.chars].
  - constructor; [|exact IH]. left.
    rewrite N_ascii_embedding by exact Hb. exact S.
  - assert (Hhi : (N.shiftr b 4 < 16)%N).
    { rewrite N.shiftr_div_pow2. change (2 ^ 4)%N with 16%N.
      apply N.Div0.div_lt_upper_bound. lia. }
    assert (Hlo : (N.land b 15 < 16)%N).
    { change 15%N with (N.ones 4). rewrite N.land_ones.
      apply N.mod_lt. discriminate. }
    constructor; [now right|].
    constructor; [left; now apply upper_hex_safe|].
    constructor; [left; now apply upper_hex_safe | exact IH].
Qed.

(** A quoted term is made of letters, digits, [_ . - ~ /] and [%] only:
    whatever is typed, no space, line break, [&], [=], [#], [?] or [+]
    reaches the url, so the term cannot end the query or add a
    parameter to it. *)
Theorem quoted_term_is_inert (s : string) (c : ascii) :
  In c (Py.chars (Search.quote s)) ->
  quoted_char c /\
  c <> " "%char /\ c <> Py.LF /\ c <> Py.CR /\ c <> "&"%char /\
  c <> "="%char /\ c <> "#"%char /\ c <> "?"%char /\ c <> "+"%char.
Proof.
  intros Hin.
  pose proof (quote_bytes_chars _ (utf8_bytes s)) as H.
  rewrite Forall_forall in H. specialize (H c Hin).
  split; [exact H|].
  destruct H as [H| ->].
  - repeat split; intros ->; discriminate H.
  - repeat split; discriminate.
Qed.

(** ** Examples of the further properties *)

Lemma fetches_are_pages_witness :
  0 <= NO_OF_SEARCH_RESULTS DEFAULT_CONFIG /\
  run (playlist_explorer (initial_globals DEFAULT_CONFIG) (Some song_page))
      browsing_inputs = Some browsing_state /\
  In (OutFetch 61 90) (output browsing_state) /\
  1 <= 61 /\ 90 - 61 = NO_OF_SEARCH_RESULTS DEFAULT_CONFIG - 1.
Proof.
  assert (HP : 0 <= NO_OF_SEARCH_RESULTS DEFAULT_CONFIG) by (simpl; lia).
  assert (Hrun : run (playlist_explorer (initial_globals DEFAULT_CONFIG)
                                        (Some song_page))
                     browsing_inputs = Some browsing_state)
    by (vm_compute; reflexivity).
  assert (Hin : In (OutFetch 61 90) (output browsing_state))
    by (vm_compute; auto).
  split; [exact HP|]. split; [exact Hrun|]. split; [exact Hin|].
  exact (fetches_are_pages DEFAULT_CONFIG (Some song_page) browsing_inputs
           browsing_state HP Hrun 61 90 Hin).
Defined.




Lemma playlist_autoplay_crosses_page_witness :
  control last_playing_state = AtPlayer /\
  current_index (locals last_playing_state) = 1 /\
  exists st1,
    step last_playing_state (InPlayer (PlayerExit 0)) = Some st1 /\
    control st1 = AtAutoFetch /\
    hd_error (output st1) = Some (OutFetch 31 60).
Proof.
  assert (Hc : control last_playing_state = AtPlayer) by reflexivity.
  assert (Hm : autoplay_mode (locals last_playing_state) = "playlist")
    by reflexivity.
  assert (Hi : current_index (locals last_playing_state) + 1
               >= Z.of_nat (List.length (entries (locals last_playing_state))))
    by (vm_compute; discriminate).
  destruct (playlist_autoplay_crosses_page last_playing_state Hc Hm Hi)
    as (st1 & S & C & _ & O & _).
  split; [exact Hc|]. split; [reflexivity|].
  exists st1. split; [exact S|]. split; [exact C | exact O].
Defined.

Lemma playlist_autoplay_next_entry_witness :
  control playing_state = AtPlayer /\
  exists st1,
    step playing_state (InPlayer (PlayerExit 0)) = Some st1 /\
    globals st1 = globals playing_state /\
    control st1 = AtPlayer /\
    url (video (locals st1)) = url song_b.
Proof.
  assert (Hc : control playing_state = AtPlayer) by reflexivity.
  assert (Hm : autoplay_mode (locals playing_state) = "playlist")
    by reflexivity.
  assert (Hlo : - Z.of_nat (List.length (entries (locals playing_state)))
                <= current_index (locals playing_state))
    by (vm_compute; discriminate).
  assert (Hhi : current_index (locals playing_state) + 1
                < Z.of_nat (List.length (entries (locals playing_state))))
    by (vm_compute; reflexivity).
  destruct (playlist_autoplay_next_entry playing_state Hc Hm Hlo Hhi)
    as (st1 & x & S & X & G & R).
  assert (Ex : x = Some (set_title song_b "02 Song B")).
  { vm_compute in X. now injection X as <-. }
  subst x. destruct R as (C & _ & V & _).
  split; [exact Hc|]. exists st1. split; [exact S|]. split; [exact G|].
  split; [exact C|]. rewrite V. reflexivity.
Defined.

Lemma unknown_mode_replays_witness :
  control capital_playing_state = AtPlayer /\
  ~ In (autoplay_mode (locals capital_playing_state)) modes /\
  exists st',
    run capital_playing_state (plays_well 3) = Some st' /\
    control st' = AtPlayer /\
    locals st' = locals capital_playing_state.
Proof.
  assert (Hc : control capital_playing_state = AtPlayer) by reflexivity.
  assert (Hn : ~ In (autoplay_mode (locals capital_playing_state)) modes).
  { simpl. intros [H|[H|[H|[]]]]; discriminate H. }
  destruct (unknown_mode_replays 3 capital_playing_state Hc Hn)
    as (st' & R & C & L & _).
  split; [exact Hc|]. split; [exact Hn|].
  exists st'. split; [exact R|]. split; [exact C | exact L].
Defined.

Lemma numbered_entry_key_witness :
  nth_error song_page 1 = Some (Some song_b) /\
  exists e',
    nth_error (annotate song_page) 1 = Some (Some e') /\
    title e' = Some "02 Song B" /\
    Preview.filename_hash (get_or (title e') "")
    = generate_sha256 (Some "Song B").
Proof.
  assert (H : nth_error song_page 1 = Some (Some song_b)) by reflexivity.
  destruct (numbered_entry_key song_page 1 song_b H)
    as (e' & N & _ & _ & T & _ & K).
  split; [exact H|]. exists e'. split; [exact N|].
  split; [exact T | exact K].
Defined.

Lemma titles_are_numbered_again_witness :
  (ENABLE_PREVIEW (CONFIG (initial_globals DEFAULT_CONFIG)) =? "true")%string
  = false /\
  control menu_state = AtAction /\
  exists e',
    nth_error (entries (locals (on_action menu_state "Back"))) 0
    = Some (Some e') /\
    title e' = Some "01 01 Song A" /\
    Py.strip_ordinal (get_or (title e') "") = "01 Song A".
Proof.
  assert (He : (ENABLE_PREVIEW (CONFIG (initial_globals DEFAULT_CONFIG))
                =? "true")%string = false) by reflexivity.
  assert (Hc : control (on_list (playlist_explorer
                                   (initial_globals DEFAULT_CONFIG)
                                   (Some song_page)) "01 Song A") = AtAction)
    by reflexivity.
  assert (Hk : nth_error song_page 0 = Some (Some song_a)) by reflexivity.
  destruct (titles_are_numbered_again
              (initial_globals DEFAULT_CONFIG) song_page "01 Song A" 0 song_a
              He Hc Hk) as (_ & _ & e' & N & T & S).
  split; [exact He|]. split; [exact Hc|].
  exists e'. split; [exact N|]. split; [exact T | exact S].
Defined.

Lemma preferences_stay_saved_witness :
  run (playlist_explorer (initial_globals DEFAULT_CONFIG) (Some song_page))
      toggling_inputs = Some toggling_state /\
  autoplay_mode (locals toggling_state) = "playlist" /\
  audio_only_mode (locals toggling_state) = true /\
  AUTOPLAY_MODE (CONFIG (globals toggling_state)) = "playlist" /\
  last_saved (output toggling_state) DEFAULT_CONFIG
  = CONFIG (globals toggling_state).
Proof.
  assert (Hrun : run (playlist_explorer (initial_globals DEFAULT_CONFIG)
                                        (Some song_page))
                     toggling_inputs = Some toggling_state)
    by (vm_compute; reflexivity).
  destruct (preferences_stay_saved
              (initial_globals DEFAULT_CONFIG) (Some song_page)
              toggling_inputs toggling_state Hrun) as (_ & _ & S & _).
  split; [exact Hrun|]. split; [reflexivity|]. split; [reflexivity|].
  split; [reflexivity | exact S].
Defined.

Lemma playback_stops_witness :
  control playing_state = AtPlayer /\
  autoplay_mode (locals playing_state) = "playlist" /\
  exists st' new,
    step playing_state (InPlayer PlayerInterrupt) = Some st' /\
    in_autoplay (control st') = false /\
    output st' = (new ++ output playing_state)%list /\
    forallb (fun o => negb (advances o)) new = true.
Proof.
  assert (Hc : control playing_state = AtPlayer) by reflexivity.
  destruct (playback_stops playing_state PlayerInterrupt Hc
                           (or_introl eq_refl))
    as (st' & new & S & A & _ & O & F & _).
  split; [exact Hc|]. split; [reflexivity|].
  exists st', new. repeat split; assumption.
Defined.

Lemma launcher_fzf_lines_witness :
  Py.lower "fzf" <> "rofi" /\ unbroken "" /\ unbroken "01 Song A" /\
  Launcher.launcher "fzf" true
    ("" ++ String Py.LF "" ++ "01 Song A" ++ String Py.LF "")
  = "01 Song A".
Proof.
  assert (H1 : Py.lower "fzf" <> "rofi") by discriminate.
  assert (H2 : unbroken "") by reflexivity.
  assert (H3 : unbroken "01 Song A") by reflexivity.
  destruct (launcher_fzf_lines "fzf" "" "01 Song A" H1 H2 H3) as (L & _).
  split; [exact H1|]. split; [exact H2|]. split; [exact H3 | exact L].
Defined.

Lemma cancelling_the_selector_witness :
  (control menu_state = AtList \/ control menu_state = AtAction) /\
  Py.lower "Rofi" = "rofi" /\
  exists st',
    step menu_state (InSelect (Launcher.launcher "Rofi" false " "))
    = Some st' /\
    control st' = Exited 0.
Proof.
  assert (Hc : control menu_state = AtList \/ control menu_state = AtAction)
    by (right; reflexivity).
  assert (Hs : Py.lower "Rofi" = "rofi") by reflexivity.
  destruct (cancelling_the_selector menu_state "Rofi" false Hc) as [R _].
  destruct (R Hs " " eq_refl) as (st' & S & E).
  split; [exact Hc|]. split; [exact Hs|].
  exists st'. split; [exact S | exact E].
Defined.


Lemma recall_matches_prompt_witness :
  1 <= 2 <= 10 /\
  2 <= Z.of_nat (List.length (History.stored_lines example_history)) /\
  History.prompt_history example_history = ["birds"; "dogs"; "cats"] /\
  Search.recall (Some example_history) "!2" = "dogs" /\
  nth_error (History.prompt_history example_history) (Z.to_nat 2 - 1)
  = Some (Search.recall (Some example_history) ("!" ++ Py.str 2)).
Proof.
  assert (H1 : 1 <= 2 <= 10) by lia.
  assert (H2 : 2 <= Z.of_nat (List.length
                                (History.stored_lines example_history)))
    by (vm_compute; discriminate).
  split; [exact H1|]. split; [exact H2|].
  split; [reflexivity|]. split; [reflexivity|].
  exact (recall_matches_prompt example_history 2 H1 H2).
Defined.

Lemma recall_out_of_range_witness :
  0 <= 4 <= 10 /\
  Z.of_nat (List.length (History.entries (Some example_history))) < 4 /\
  Search.recall (Some example_history) ("!" ++ Py.str 4) = "!4" /\
  Search.recall (Some example_history) "!0" = "cats".
Proof.
  assert (H : 0 <= 4 <= 10) by lia.
  assert (L : Z.of_nat (List.length (History.entries (Some example_history)))
              < 4) by (vm_compute; reflexivity).
  destruct (recall_out_of_range (Some example_history) 4 H) as (A & B & _).
  split; [exact H|]. split; [exact L|]. split; [exact (A L)|].
  exact (B "cats" ["dogs"; "birds"] eq_refl).
Defined.

Lemma recall_last_keeps_history_witness :
  History.stored_lines example_history = (["cats"; "dogs"] ++ ["birds"])%list /\
  exists file',
    Search.search "true" (Some example_history) None "!1"
    = Some ("birds", Search.search_url "birds" "EgIQAQ%253D%253D", file') /\
    History.entries file' = ["cats"; "dogs"; "birds"].
Proof.
  assert (E : History.stored_lines example_history
              = (["cats"; "dogs"] ++ ["birds"])%list) by reflexivity.
  assert (N : NoDup (History.stored_lines example_history)).
  { rewrite E. simpl. repeat constructor; simpl; intros F;
      repeat (destruct F as [F|F]; try discriminate F); exact F. }
  destruct (recall_last_keeps_history example_history ["cats"; "dogs"] "birds"
              E N eq_refl) as (file' & S & H).
  split; [exact E|]. exists file'. split; [exact S|].
  rewrite H. reflexivity.
Defined.

Lemma filter_token_parsing_witness :
  Search.parse_filter ":week funny cats" = ("EgIIAw%253D%253D", "funny cats") /\
  snd (Search.parse_filter (":" ++ "weekly" ++ " " ++ String "c" "ats"))
  = "cats" /\
  fst (Search.parse_filter (":" ++ "weekly" ++ " " ++ String "c" "ats"))
  = "EgIQAQ%253D%253D".
Proof.
  assert (Hk : ~ In (":" ++ "weekly") known_filters).
  { simpl. intros F.
    repeat (destruct F as [F|F]; try discriminate F). exact F. }
  destruct (filter_token_parsing "weekly" " " "c" "ats") as (T & D & _);
    try reflexivity; try discriminate.
  split; [reflexivity|]. split; [exact T | exact (D Hk)].
Defined.

Lemma no_filter_is_literal_witness :
  String.prefix ":" "funny cats" = false /\
  Search.parse_filter "funny cats" = ("EgIQAQ%253D%253D", "funny cats") /\
  Search.parse_filter ":week" = ("EgIQAQ%253D%253D", ":week").
Proof.
  assert (H : String.prefix ":" "funny cats" = false) by reflexivity.
  split; [exact H|]. split.
  - exact (no_filter_is_literal "funny cats" (or_introl H)).
  - apply (no_filter_is_literal ":week"). right. exists "week".
    split; reflexivity.
Defined.

Lemma quoted_term_is_inert_witness :
  Search.quote "cats & dogs?" = "cats%20%26%20dogs%3F" /\
  In "%"%char (Py.chars (Search.quote "cats & dogs?")) /\
  "%"%char <> "&"%char.
Proof.
  assert (Hin : In "%"%char (Py.chars (Search.quote "cats & dogs?")))
    by (vm_compute; do 4 right; left; reflexivity).
  destruct (quoted_term_is_inert "cats & dogs?" "%" Hin)
    as (_ & _ & _ & _ & A & _).
  split; [reflexivity|]. split; [exact Hin | exact A].
Defined.

Lemma choosing_a_line_selects_its_entry_witness :
  nth_error song_page 1 = Some (Some song_b) /\
  exists st',
    step (playlist_explorer (initial_globals DEFAULT_CONFIG) (Some song_page))
         (InSelect "02 Song B") = Some st' /\
    control st' = AtAction /\
    current_index (locals st') = 1 /\
    clean_title (locals st') = Some "Song B".
Proof.
  assert (H : nth_error song_page 1 = Some (Some song_b)) by reflexivity.
  destruct (choosing_a_line_selects_its_entry
              (initial_globals DEFAULT_CONFIG) song_page 1 song_b H)
    as (_ & _ & st' & S & C & _ & I & T & _).
  split; [exact H|]. exists st'. split; [exact S|].
  split; [exact C|]. split; [exact I | exact T].
Defined.
